(** * Deploy orchestrator: the agent / job coordination layer

    A shallow embedding of [orchestrator.py] (the "Cas B" endpoints and the
    JSON file store they rest on) and the properties of the specification
    that are stated about it.

    - JSON values are an inductive type, floats with [NaN] and the
      infinities included; a Python [dict] is an association list in
      insertion order (assignment to an existing key keeps its position, a
      new key goes to the end).
    - The file system is a map from paths, compared as they are written, to
      what [json.load] makes of the file found there.
    - A handler is a program in a small free monad whose only effect is an
      uninterruptible step on the file system.  [run] executes a handler
      alone; [exec] interleaves the steps of several handlers.
    - [uuid.uuid4()] and [time.time()] are inputs of the handlers.
    - A handler's result is the value the Python function returns.  Where
      the function builds the response itself ([JSONResponse] at the end of
      [download_env]) the rendering is part of the handler; what the
      framework does with a returned value afterwards is not modelled, nor
      is the interpreter's recursion limit. *)

From Stdlib Require Import ZArith List String Ascii Bool Lia.
Import ListNotations.
Open Scope string_scope.
Open Scope Z_scope.

Set Warnings "-register-all".
#[local] Unset Elimination Schemes.

(* ================================================================== *)
(** * JSON values and Python dictionaries *)

(** A Python [float] as [json.load] can return it: [NaN], [Infinity] and
    [-Infinity] (the literals, and what a number such as [1e999] overflows
    to), or the number [mantissa * 2 ^ exponent] with its sign. *)
Inductive pyfloat : Type :=
| FNan
| FInf (negative : bool)
| FFinite (negative : bool) (mantissa : N) (exponent : Z).

(** What [json.load] returns.  A [str] is kept as its UTF-8 bytes; an
    unpaired surrogate, which a JSON escape can put into a [str] and UTF-8
    cannot encode, is kept as the three bytes ED A0..BF xx that the
    encoding scheme would give it. *)
Inductive json : Type :=
| JNull
| JBool (b : bool)
| JInt (n : Z)
| JFloat (x : pyfloat)
| JStr (s : string)
| JArr (xs : list json)
| JObj (kv : list (string * json)).
#[local] Set Elimination Schemes.

(** A Python [dict] with string keys, in insertion order. *)
Definition dict : Type := list (string * json).

Fixpoint dict_get (d : dict) (k : string) : option json :=
  match d with
  | [] => None
  | (k', v) :: r => if String.eqb k' k then Some v else dict_get r k
  end.

(** [d[k] = v] *)
Fixpoint dict_set (d : dict) (k : string) (v : json) : dict :=
  match d with
  | [] => [(k, v)]
  | (k', v') :: r =>
      if String.eqb k' k then (k', v) :: r else (k', v') :: dict_set r k v
  end.

Definition dict_keys (d : dict) : list string := map fst d.
Definition dict_values (d : dict) : list json := map snd d.

Definition dict_mem (d : dict) (k : string) : bool :=
  match dict_get d k with Some _ => true | None => false end.

(** [x == s] for a loaded value [x] and a [str] [s]. *)
Definition eq_str (x : json) (s : string) : bool :=
  match x with
  | JStr t => String.eqb t s
  | _ => false
  end.

(** The value of a number, for [==]: booleans count as 0 and 1, a finite
    number is an integer times a power of two. *)
Inductive number : Type :=
| NNan
| NInf (negative : bool)
| NDyadic (z e : Z).

Definition number_of (x : json) : option number :=
  match x with
  | JBool b => Some (NDyadic (if b then 1 else 0) 0)
  | JInt n => Some (NDyadic n 0)
  | JFloat FNan => Some NNan
  | JFloat (FInf neg) => Some (NInf neg)
  | JFloat (FFinite neg m e) =>
      Some (NDyadic (if neg then - Z.of_N m else Z.of_N m) e)
  | _ => None
  end.

(** [NaN == NaN] is false, but every [NaN] that [json.load] returns is the
    one object [json.decoder.NaN], and the containers try [is] before
    [==]. *)
Definition number_eqb (a b : number) : bool :=
  match a, b with
  | NNan, NNan => true
  | NInf x, NInf y => Bool.eqb x y
  | NDyadic z1 e1, NDyadic z2 e2 =>
      let e := Z.min e1 e2 in
      z1 * 2 ^ (e1 - e) =? z2 * 2 ^ (e2 - e)
  | _, _ => false
  end.

(** [a is b or a == b] on loaded values, the test that [in] on a list and
    [==] on lists and dicts apply to their elements: numbers and booleans
    compare by value ([True == 1 == 1.0]), lists compare element by
    element, dicts compare as maps. *)
Fixpoint py_eq (a b : json) {struct a} : bool :=
  match a with
  | JNull => match b with JNull => true | _ => false end
  | JBool _ | JInt _ | JFloat _ =>
      match number_of a, number_of b with
      | Some x, Some y => number_eqb x y
      | _, _ => false
      end
  | JStr s => match b with JStr t => String.eqb s t | _ => false end
  | JArr xs =>
      match b with
      | JArr ys =>
          (fix all2 (xs ys : list json) : bool :=
             match xs, ys with
             | [], [] => true
             | x :: xs', y :: ys' => py_eq x y && all2 xs' ys'
             | _, _ => false
             end) xs ys
      | _ => false
      end
  | JObj d =>
      match b with
      | JObj e =>
          Nat.eqb (List.length d) (List.length e) &&
          (fix sub (d : list (string * json)) : bool :=
             match d with
             | [] => true
             | (k, v) :: r =>
                 match dict_get e k with
                 | Some w => py_eq v w
                 | None => false
                 end && sub r
             end) d
      | _ => false
      end
  end.

(** [t in s] on two strings. *)
Fixpoint is_substring (t s : string) : bool :=
  String.prefix t s ||
  match s with
  | EmptyString => false
  | String _ s' => is_substring t s'
  end.

(* ================================================================== *)
(** * Errors *)

Inductive error : Type :=
| HTTPException (status_code : Z) (detail : string)
| RuntimeError (msg : string)
| PyError.  (** an uncaught [TypeError] / [AttributeError] / [ValueError] / decode error *)

Inductive result (A : Type) : Type :=
| Ok (a : A)
| Err (e : error).
Arguments Ok {A} a.
Arguments Err {A} e.

(** The names the specification gives to the HTTP failures. *)
Definition AuthError (detail : string) : error := HTTPException 403 detail.
Definition NotFoundError (detail : string) : error := HTTPException 404 detail.
Definition ValidationError (detail : string) : error := HTTPException 400 detail.

Definition is_ok {A} (r : result A) : bool :=
  match r with Ok _ => true | Err _ => false end.

(** [x.get(k)]: [None] when the key is missing; only a dict has [get]. *)
Definition py_get (x : json) (k : string) : result json :=
  match x with
  | JObj d => Ok (match dict_get d k with Some v => v | None => JNull end)
  | _ => Err PyError
  end.

(** [x.items()] *)
Definition py_items (x : json) : result dict :=
  match x with
  | JObj d => Ok d
  | _ => Err PyError
  end.

(** [x[k] = v] with [k] a [str]: lists, strings and scalars refuse it. *)
Definition py_setitem (x : json) (k : string) (v : json) : result json :=
  match x with
  | JObj d => Ok (JObj (dict_set d k v))
  | _ => Err PyError
  end.

(** [x[k]] with [k] a [str]. *)
Definition py_getitem (x : json) (k : string) : result json :=
  match x with
  | JObj d => match dict_get d k with Some v => Ok v | None => Err PyError end
  | _ => Err PyError
  end.

(** [k in x]: a dict hashes [k] (lists and dicts are unhashable) and looks
    among its keys, a list compares with [==], a string wants a string. *)
Definition py_in (k : json) (x : json) : result bool :=
  match x with
  | JObj d =>
      match k with
      | JArr _ | JObj _ => Err PyError
      | JStr s => Ok (dict_mem d s)
      | _ => Ok false
      end
  | JArr xs => Ok (existsb (py_eq k) xs)
  | JStr s =>
      match k with
      | JStr t => Ok (is_substring t s)
      | _ => Err PyError
      end
  | _ => Err PyError
  end.

(* ================================================================== *)
(** * The file system *)

(** What opening a file and calling [json.load] on it gives: an exception
    (the file cannot be read or does not hold JSON), or the value [v].
    [json.dump] writes a text that [json.load] reads back as the value
    dumped, so a file is kept as the value it holds. *)
Inductive content : Type :=
| Garbled
| Doc (v : json).

(** [None]: no file at that path. *)
Definition fs : Type := string -> option content.

(** A file is found under the path it was written to, spelled the same
    way: two spellings of one file (through [..] or a link, as a token
    given to [download_env] can produce) are two keys here, and a statement
    about the file at a path is about that spelling of it. *)
Definition fs_put (path : string) (c : option content) (s : fs) : fs :=
  fun p => if String.eqb p path then c else s p.

(** [os.path.join(a, b)] *)
Definition path_join (a b : string) : string :=
  match b with
  | String "/" _ => b
  | _ =>
      if String.eqb a "" || String.eqb (substring (Nat.pred (String.length a)) 1 a) "/"
      then a ++ b
      else a ++ "/" ++ b
  end.

(** The default of the environment variable of that name. *)
Definition ORCH_B_STORAGE : string := "/var/lib/orch_b".
Definition AGENTS_FILE : string := path_join ORCH_B_STORAGE "agents.json".
Definition JOBS_FILE : string := path_join ORCH_B_STORAGE "jobs.json".
Definition ENVS_DIR : string := path_join ORCH_B_STORAGE "envs".

(** [os.path.join(ORCH_B_STORAGE, "envs", f"{env_token}.json")] *)
Definition env_path (env_token : string) : string :=
  path_join (path_join ORCH_B_STORAGE "envs") (env_token ++ ".json").

(** The store as the module leaves it when it is first imported: the two
    documents hold [{}]. *)
Definition fs_init : fs :=
  fs_put JOBS_FILE (Some (Doc (JObj [])))
    (fs_put AGENTS_FILE (Some (Doc (JObj []))) (fun _ => None)).

(* ================================================================== *)
(** * Handlers as programs *)

(** A program performs uninterruptible steps on the file system, one after
    the other; between two steps another request may run. *)
Inductive io (A : Type) : Type :=
| Ret (a : A)
| Raise (e : error)
| Sys (X : Type) (op : fs -> fs * result X) (k : X -> io A).
Arguments Ret {A} a.
Arguments Raise {A} e.
Arguments Sys {A X} op k.

Fixpoint bind {A B} (m : io A) (f : A -> io B) : io B :=
  match m with
  | Ret a => f a
  | Raise e => Raise e
  | Sys op k => Sys op (fun x => bind (k x) f)
  end.

Notation "x <- m ;; k" := (bind m (fun x => k))
  (at level 61, m at next level, right associativity).
Notation "' pat <- m ;; k" := (bind m (fun x => match x with pat => k end))
  (at level 61, pat pattern, m at next level, right associativity).
Notation "m ;;; k" := (bind m (fun _ => k))
  (at level 61, right associativity).

Definition call {X} (op : fs -> fs * result X) : io X := Sys op (fun x => Ret x).

Definition lift {A} (r : result A) : io A :=
  match r with Ok a => Ret a | Err e => Raise e end.

(** One request served alone, from start to end. *)
Fixpoint run {A} (m : io A) (s : fs) : fs * result A :=
  match m with
  | Ret a => (s, Ok a)
  | Raise e => (s, Err e)
  | Sys op k =>
      match op s with
      | (s', Ok x) => run (k x) s'
      | (s', Err e) => (s', Err e)
      end
  end.

(** ** The store: [read_json] and [write_json]

    Each of the two takes [_fs_lock] for its own body and releases it on
    return: one call is one step. *)

Definition read_json (path : string) : fs -> fs * result json :=
  fun s =>
    match s path with
    | None => (s, Ok (JObj []))
    | Some (Doc v) => (s, Ok v)
    | Some Garbled => (s, Err (RuntimeError ("failed to read json " ++ path)))
    end.

(** [json.dump] into [tmp], then [os.replace(tmp, path)]: no file is left
    at [tmp]. *)
Definition dump_replace (tmp path : string) (data : json) (s : fs) : fs :=
  fs_put path (Some (Doc data)) (fs_put tmp None s).

Definition write_json (path : string) (data : json) : fs -> fs * result unit :=
  fun s =>
    let tmp := path ++ ".tmp" in
    (dump_replace tmp path data s, Ok tt).

(** [os.path.exists(path)] *)
Definition path_exists (path : string) : fs -> fs * result bool :=
  fun s => (s, Ok (match s path with Some _ => true | None => false end)).

(** [with open(path, "r") as fh: json.load(fh)], outside any [try]. *)
Definition load_file (path : string) : fs -> fs * result json :=
  fun s =>
    match s path with
    | Some (Doc v) => (s, Ok v)
    | _ => (s, Err PyError)
    end.

(** ** Rendering a response

    [JSONResponse(content=data)] renders in its constructor:
    [json.dumps(content, ensure_ascii=False, allow_nan=False, ...)] and
    then [.encode("utf-8")]. *)

(** [allow_nan=False]: [ValueError] on [NaN] and the infinities. *)
Definition finite (x : pyfloat) : bool :=
  match x with FFinite _ _ _ => true | _ => false end.

(** [s.encode("utf-8")] succeeds: no unpaired surrogate in [s], that is,
    no byte ED followed by a byte in A0..BF. *)
Fixpoint encodable (s : string) : bool :=
  match s with
  | String a r =>
      match r with
      | String b _ =>
          negb ((N_of_ascii a =? 237)%N &&
                (160 <=? N_of_ascii b)%N && (N_of_ascii b <=? 191)%N)
      | EmptyString => true
      end && encodable r
  | EmptyString => true
  end.

(** [text.encode("utf-8")] *)
Definition encode_utf8 (text : string) : result string :=
  if encodable text then Ok text else Err PyError.

Fixpoint renderable (v : json) : bool :=
  match v with
  | JNull | JBool _ | JInt _ => true
  | JFloat x => finite x
  | JStr s => encodable s
  | JArr xs => forallb renderable xs
  | JObj kv => forallb (fun p => encodable (fst p) && renderable (snd p)) kv
  end.

Definition JSONResponse (content : json) : result json :=
  if renderable content then Ok content else Err PyError.

(* ================================================================== *)
(** * Requests *)

Record RegisterReq : Type := {
  hostname : string;
  ip : option string;
  ssh_pubkey : option string;
  meta : option dict
}.

Record ReportReq : Type := {
  job_id : string;
  status : string;          (** "done"|"failed" *)
  output : option string
}.

Definition opt_str (o : option string) : json :=
  match o with Some s => JStr s | None => JNull end.

(** [payload.get(k, default)] on the request body, a dict. *)
Definition payload_get (payload : dict) (k : string) (default : json) : json :=
  match dict_get payload k with Some v => v | None => default end.

(* ================================================================== *)
(** * The endpoints *)

Section Orchestrator.

(** [os.environ.get("ADMIN_API_TOKEN")] *)
Variable ADMIN_API_TOKEN : option string.

Definition require_admin (token_header : option string) : result unit :=
  match ADMIN_API_TOKEN with
  | None => Ok tt
  | Some adm =>
      if String.eqb adm "" then Ok tt
      else
        match token_header with
        | None => Err (HTTPException 403 "invalid admin token")
        | Some t =>
            if String.eqb t "" || negb (String.eqb t adm)
            then Err (HTTPException 403 "invalid admin token")
            else Ok tt
        end
  end.

(** ** Agent registry *)

Definition register (req : RegisterReq) (agent_id agent_token : string)
    (t_created t_last_seen : Z) : io (string * string) :=
  agents <- call (read_json AGENTS_FILE) ;;
  agents' <- lift (py_setitem agents agent_id
    (JObj [ ("agent_id", JStr agent_id);
            ("token", JStr agent_token);
            ("hostname", JStr (hostname req));
            ("ip", JStr (match ip req with Some s => s | None => "" end));
            ("ssh_pubkey", JStr (match ssh_pubkey req with Some s => s | None => "" end));
            ("meta", JObj (match meta req with Some m => m | None => [] end));
            ("created", JInt t_created);
            ("last_seen", JInt t_last_seen) ])) ;;
  call (write_json AGENTS_FILE agents') ;;;
  Ret (agent_id, agent_token).

Definition list_agents (x_admin_token : option string) : io json :=
  lift (require_admin x_admin_token) ;;;
  call (read_json AGENTS_FILE).

(** The loop [for aid, a in agents.items(): if a.get("token") == x_agent_token:
    agent_id = aid; break]. *)
Fixpoint find_agent (items : dict) (x_agent_token : string) : result (option string) :=
  match items with
  | [] => Ok None
  | (aid, a) :: r =>
      match py_get a "token" with
      | Err e => Err e
      | Ok t => if eq_str t x_agent_token then Ok (Some aid)
                else find_agent r x_agent_token
      end
  end.

(** The opening lines shared by [poll_jobs], [report] and [download_env]:
    the loaded agents document and the caller's [agent_id]. *)
Definition authenticate (x_agent_token : option string) : io (json * string) :=
  tok <- match x_agent_token with
         | None => Raise (HTTPException 403 "missing agent token")
         | Some t => if String.eqb t ""
                     then Raise (HTTPException 403 "missing agent token")
                     else Ret t
         end ;;
  agents <- call (read_json AGENTS_FILE) ;;
  items <- lift (py_items agents) ;;
  found <- lift (find_agent items tok) ;;
  match found with
  | None => Raise (HTTPException 403 "invalid agent token")
  | Some agent_id =>
      if String.eqb agent_id ""
      then Raise (HTTPException 403 "invalid agent token")
      else Ret (agents, agent_id)
  end.

(** ** Job ledger *)

Definition create_job (payload : dict) (x_admin_token : option string)
    (new_job_id : string) (t_created t_updated : Z) : io string :=
  lift (require_admin x_admin_token) ;;;
  agents <- call (read_json AGENTS_FILE) ;;
  jobs <- call (read_json JOBS_FILE) ;;
  let agent_id := payload_get payload "agent_id" JNull in
  known <- lift (py_in agent_id agents) ;;
  if negb known then Raise (HTTPException 404 "agent not found") else
  let args := payload_get payload "args" (JArr []) in
  let env_token := payload_get payload "env_token" JNull in
  let is_spa := payload_get payload "is_spa" (JBool false) in
  jobs' <- lift (py_setitem jobs new_job_id
    (JObj [ ("job_id", JStr new_job_id);
            ("agent_id", agent_id);
            ("args", args);
            ("is_spa", is_spa);
            ("env_token", env_token);
            ("status", JStr "pending");
            ("created", JInt t_created);
            ("updated", JInt t_updated) ])) ;;
  call (write_json JOBS_FILE jobs') ;;;
  Ret new_job_id.

Definition list_jobs (x_admin_token : option string) : io json :=
  lift (require_admin x_admin_token) ;;;
  call (read_json JOBS_FILE).

(** The loop of [poll_jobs] over [jobs.items()]. *)
Fixpoint pending_jobs (items : dict) (agent_id : string) : result (list json) :=
  match items with
  | [] => Ok []
  | (jid, job) :: r =>
      match py_get job "agent_id", py_get job "status" with
      | Ok a, Ok st =>
          match pending_jobs r agent_id with
          | Ok pending =>
              Ok (if eq_str a agent_id && eq_str st "pending"
                  then job :: pending else pending)
          | Err e => Err e
          end
      | Err e, _ | _, Err e => Err e
      end
  end.

Definition poll_jobs (x_agent_token : option string) (now : Z) : io (list json) :=
  '(agents, agent_id) <- authenticate x_agent_token ;;
  a <- lift (py_getitem agents agent_id) ;;
  a' <- lift (py_setitem a "last_seen" (JInt now)) ;;
  agents' <- lift (py_setitem agents agent_id a') ;;
  call (write_json AGENTS_FILE agents') ;;;
  jobs <- call (read_json JOBS_FILE) ;;
  items <- lift (py_items jobs) ;;
  pending <- lift (pending_jobs items agent_id) ;;
  Ret pending.

Definition report (req : ReportReq) (x_agent_token : option string) (now : Z)
  : io unit :=
  '(agents, agent_id) <- authenticate x_agent_token ;;
  jobs <- call (read_json JOBS_FILE) ;;
  present <- lift (py_in (JStr (job_id req)) jobs) ;;
  if negb present then Raise (HTTPException 404 "job not found") else
  job <- lift (py_getitem jobs (job_id req)) ;;
  owner <- lift (py_get job "agent_id") ;;
  if negb (eq_str owner agent_id)
  then Raise (HTTPException 403 "job does not belong to this agent") else
  job1 <- lift (py_setitem job "status" (JStr (status req))) ;;
  job2 <- lift (py_setitem job1 "output" (opt_str (output req))) ;;
  job3 <- lift (py_setitem job2 "updated" (JInt now)) ;;
  jobs' <- lift (py_setitem jobs (job_id req) job3) ;;
  call (write_json JOBS_FILE jobs') ;;;
  Ret tt.

(** ** Env bundles *)

Definition upload_env_file (env_file : option content) (env_json : option dict)
    (x_admin_token : option string) (hex : string) : io string :=
  lift (require_admin x_admin_token) ;;;
  data <- match env_file, env_json with
          | Some (Doc v), _ => Ret v
          | Some Garbled, _ =>
              Raise (HTTPException 400 "uploaded file not valid JSON")
          | None, Some d => Ret (JObj d)
          | None, None => Raise (HTTPException 400 "no env provided")
          end ;;
  let env_token := "env_" ++ hex in
  let out_path := env_path env_token in
  let tmp := out_path ++ ".tmp" in
  call (fun s => (dump_replace tmp out_path data s, Ok tt)) ;;;
  Ret env_token.

(** The loop of [download_env] over [jobs.values()], up to its [break]. *)
Fixpoint references_env (jobs : list json) (agent_id env_token : string)
  : result bool :=
  match jobs with
  | [] => Ok false
  | job :: r =>
      match py_get job "agent_id", py_get job "status", py_get job "env_token" with
      | Ok a, Ok st, Ok tk =>
          if eq_str a agent_id && eq_str st "pending" && eq_str tk env_token
          then Ok true
          else references_env r agent_id env_token
      | Err e, _, _ | _, Err e, _ | _, _, Err e => Err e
      end
  end.

Definition download_env (env_token : string) (x_agent_token : option string)
  : io json :=
  '(agents, agent_id) <- authenticate x_agent_token ;;
  jobs <- call (read_json JOBS_FILE) ;;
  items <- lift (py_items jobs) ;;
  ok <- lift (references_env (dict_values items) agent_id env_token) ;;
  if negb ok
  then Raise (HTTPException 403 "no job for this agent references this env token")
  else
  let path := env_path env_token in
  found <- call (path_exists path) ;;
  if negb found then Raise (HTTPException 404 "env token not found") else
  data <- call (load_file path) ;;
  lift (JSONResponse data).

End Orchestrator.

(** The caller's identity in store [s]: what [authenticate] returns. *)
Definition caller (s : fs) (x_agent_token : option string) : result (json * string) :=
  snd (run (authenticate x_agent_token) s).


(** A job record that lets agent [A] download the bundle [T]: addressed to
    [A], pending, and referencing [T]. *)
Definition pending_ref (A T : string) (job : json) : Prop :=
  py_get job "agent_id" = Ok (JStr A) /\
  py_get job "status" = Ok (JStr "pending") /\
  py_get job "env_token" = Ok (JStr T).

Definition is_object (x : json) : Prop := exists fields, x = JObj fields.

(* ================================================================== *)
(** * A small fleet, used to exercise the statements below *)

Definition demo_admin : option string := Some "s3cret".

Definition host (name : string) : RegisterReq :=
  {| hostname := name; ip := None; ssh_pubkey := None; meta := None |}.

(** Two agents registered on a fresh store. *)
Definition s_agents : fs :=
  fst (run (register (host "h2") "agent-b" "tok-b" 11 11)
    (fst (run (register (host "h1") "agent-a" "tok-a" 10 10) fs_init))).

Definition demo_payload : dict :=
  [ ("agent_id", JStr "agent-a");
    ("args", JArr [JStr "https://x.git"; JStr "d.com"]);
    ("is_spa", JBool false);
    ("env_token", JStr "env_abc") ].

(** One job for the first agent, referencing a bundle nobody uploaded. *)
Definition s_job : fs :=
  fst (run (create_job demo_admin demo_payload (Some "s3cret") "job-1" 20 20)
         s_agents).

Definition demo_job : json :=
  JObj [ ("job_id", JStr "job-1"); ("agent_id", JStr "agent-a");
         ("args", JArr [JStr "https://x.git"; JStr "d.com"]);
         ("is_spa", JBool false); ("env_token", JStr "env_abc");
         ("status", JStr "pending"); ("created", JInt 20);
         ("updated", JInt 20) ].

Definition demo_bundle_fields : dict :=
  [ ("DATABASE_URL", JStr "postgres://db/app"); ("WORKERS", JInt 4) ].

Definition demo_bundle : json := JObj demo_bundle_fields.

(** What [in] needs of a key looked up in a dict. *)
Definition hashable (x : json) : Prop :=
  match x with JArr _ | JObj _ => False | _ => True end.

(** [agent_id] names a record of the agents document. *)
Definition registered (agents : dict) (agent_id : json) : bool :=
  match agent_id with JStr a => dict_mem agents a | _ => false end.

Definition demo_agents : dict :=
  [ ("agent-a",
     JObj [ ("agent_id", JStr "agent-a"); ("token", JStr "tok-a");
            ("hostname", JStr "h1"); ("ip", JStr ""); ("ssh_pubkey", JStr "");
            ("meta", JObj []); ("created", JInt 10); ("last_seen", JInt 10) ]);
    ("agent-b",
     JObj [ ("agent_id", JStr "agent-b"); ("token", JStr "tok-b");
            ("hostname", JStr "h2"); ("ip", JStr ""); ("ssh_pubkey", JStr "");
            ("meta", JObj []); ("created", JInt 11); ("last_seen", JInt 11) ]) ].

(** The bundle uploaded after the job that references it was created. *)
Definition s_bundle : fs :=
  fst (run (upload_env_file demo_admin (Some (Doc demo_bundle)) None
              (Some "s3cret") "abc") s_job).

(** A bundle whose file reads [{"TIMEOUT": 1e999}]: [json.loads] makes the
    number [inf]. *)
Definition overflow_bundle : json := JObj [ ("TIMEOUT", JFloat (FInf false)) ].

Definition s_overflow : fs :=
  fst (run (upload_env_file demo_admin (Some (Doc overflow_bundle)) None
              (Some "s3cret") "abc") s_job).


(* ================================================================== *)
(** * Histories of requests *)

(** One request to the service, with the identifiers and clock readings
    its handler draws. *)
Inductive request : Type :=
| Register (req : RegisterReq) (agent_id agent_token : string)
    (t_created t_last_seen : Z)
| ListAgents (x_admin_token : option string)
| CreateJob (payload : dict) (x_admin_token : option string)
    (new_job_id : string) (t_created t_updated : Z)
| ListJobs (x_admin_token : option string)
| PollJobs (x_agent_token : option string) (now : Z)
| Report (req : ReportReq) (x_agent_token : option string) (now : Z)
| UploadEnv (env_file : option content) (env_json : option dict)
    (x_admin_token : option string) (hex : string)
| DownloadEnv (env_token : string) (x_agent_token : option string).

Section Histories.

Variable ADMIN_API_TOKEN : option string.

(** The store after the request has been served, whether it succeeded or
    not. *)
Definition serve (s : fs) (r : request) : fs :=
  match r with
  | Register req a t c l => fst (run (register req a t c l) s)
  | ListAgents x => fst (run (list_agents ADMIN_API_TOKEN x) s)
  | CreateJob p x j c u => fst (run (create_job ADMIN_API_TOKEN p x j c u) s)
  | ListJobs x => fst (run (list_jobs ADMIN_API_TOKEN x) s)
  | PollJobs x now => fst (run (poll_jobs x now) s)
  | Report req x now => fst (run (report req x now) s)
  | UploadEnv f b x h => fst (run (upload_env_file ADMIN_API_TOKEN f b x h) s)
  | DownloadEnv t x => fst (run (download_env t x) s)
  end.

(** Requests served one after the other. *)
Definition after (history : list request) (s : fs) : fs :=
  fold_left serve history s.

(** The stores the service can be in: those a history of requests leads
    to from the store at start-up. *)
Definition reachable (s : fs) : Prop :=
  exists history, s = after history fs_init.

End Histories.

Definition is_poll (r : request) : Prop :=
  match r with PollJobs _ _ => True | _ => False end.

(** The jobs document is a dict of job records, each stored under its own
    [job_id]. *)
Definition jobs_ok (jobs : dict) : Prop :=
  NoDup (dict_keys jobs) /\
  forall jid job, In (jid, job) jobs -> py_get job "job_id" = Ok (JStr jid).

Definition ledger_ok (s : fs) : Prop :=
  exists jobs, s JOBS_FILE = Some (Doc (JObj jobs)) /\ jobs_ok jobs.

(** The record [report] writes back. *)
Definition reported (fields : dict) (req : ReportReq) (now : Z) : json :=
  JObj (dict_set (dict_set (dict_set fields "status" (JStr (status req)))
                   "output" (opt_str (output req)))
          "updated" (JInt now)).

(** The record [create_job] stores. *)
Definition new_job (payload : dict) (new_job_id : string) (t_created t_updated : Z)
  : json :=
  JObj [ ("job_id", JStr new_job_id);
         ("agent_id", payload_get payload "agent_id" JNull);
         ("args", payload_get payload "args" (JArr []));
         ("is_spa", payload_get payload "is_spa" (JBool false));
         ("env_token", payload_get payload "env_token" JNull);
         ("status", JStr "pending");
         ("created", JInt t_created);
         ("updated", JInt t_updated) ].

(* ================================================================== *)
(** * Requests served at the same time

    The service runs each request on a thread of its own.  What one thread
    does while it holds [_fs_lock] is one step of its program; [read_json]
    and [write_json] take the lock separately, so another thread may run
    between the load and the save of one handler. *)

(** The next step of a request: it runs its pending operation on the
    store.  A request that has returned or raised stays as it is. *)
Definition step {A} (m : io A) (s : fs) : io A * fs :=
  match m with
  | Sys op k =>
      match op s with
      | (s', Ok x) => (k x, s')
      | (s', Err e) => (Raise e, s')
      end
  | _ => (m, s)
  end.

Fixpoint set_nth {A} (l : list A) (i : nat) (a : A) : list A :=
  match l, i with
  | [], _ => []
  | _ :: r, O => a :: r
  | x :: r, S j => x :: set_nth r j a
  end.

(** The requests in flight take steps in the order the scheduler picks
    them. *)
Fixpoint exec {A} (schedule : list nat) (pool : list (io A)) (s : fs)
  : list (io A) * fs :=
  match schedule with
  | [] => (pool, s)
  | i :: rest =>
      match nth_error pool i with
      | Some m => let (m', s') := step m s in exec rest (set_nth pool i m') s'
      | None => exec rest pool s
      end
  end.

(** What a request has answered, if it has. *)
Definition outcome {A} (m : io A) : option (result A) :=
  match m with
  | Ret a => Some (Ok a)
  | Raise e => Some (Err e)
  | Sys _ _ => None
  end.

(** The schedule that lets each of [n] reports finish before the next one
    starts; a report that succeeds takes three steps. *)
Definition serial (n : nat) : list nat :=
  flat_map (fun i => [i; i; i]) (seq 0 n).

(** A report call: the request body and the clock reading of the call. *)
Definition report_pool (x_agent_token : option string)
    (calls : list (ReportReq * Z)) : list (io unit) :=
  map (fun c => report (fst c) x_agent_token (snd c)) calls.

(** The job that [req] names is in [jobs] and is addressed to agent [A]. *)
Definition owned (A : string) (jobs : dict) (req : ReportReq) : Prop :=
  exists fields,
    dict_get jobs (job_id req) = Some (JObj fields) /\
    dict_get fields "agent_id" = Some (JStr A).

(** A job for the second agent. *)
Definition s_job_b : fs :=
  fst (run (create_job demo_admin
              [ ("agent_id", JStr "agent-b"); ("args", JArr [JStr "https://z.git"]) ]
              (Some "s3cret") "job-3" 22 22) s_job).

Definition demo_job3 : json :=
  JObj [ ("job_id", JStr "job-3"); ("agent_id", JStr "agent-b");
         ("args", JArr [JStr "https://z.git"]);
         ("is_spa", JBool false); ("env_token", JNull);
         ("status", JStr "pending"); ("created", JInt 22);
         ("updated", JInt 22) ].

(** A second job for the first agent. *)
Definition s_two_jobs : fs :=
  fst (run (create_job demo_admin
              [ ("agent_id", JStr "agent-a"); ("args", JArr [JStr "https://y.git"]) ]
              (Some "s3cret") "job-2" 21 21) s_job).

Definition demo_calls : list (ReportReq * Z) :=
  [ ({| job_id := "job-1"; status := "done"; output := Some "ok" |}, 30);
    ({| job_id := "job-2"; status := "failed"; output := Some "boom" |}, 31) ].

(** [bounded I n m]: in every store that satisfies [I], each of the at most
    [n] steps left in [m] succeeds and keeps [I], and [m] then returns. *)
Fixpoint bounded (I : fs -> Prop) (n : nat) (m : io unit) {struct n} : Prop :=
  match m with
  | Ret _ => True
  | Raise _ => False
  | Sys op k =>
      match n with
      | O => False
      | S n' =>
          forall s, I s ->
            exists x s', op s = (s', Ok x) /\ I s' /\ bounded I n' (k x)
      end
  end.

(** What concurrent reports of agent [A] rely on and keep: the token is
    [A]'s, and every job reported on is in the ledger, addressed to [A]. *)
Definition reports_inv (x_agent_token : option string) (A : string)
    (reqs : list ReportReq) (s : fs) : Prop :=
  (exists agents, caller s x_agent_token = Ok (agents, A)) /\
  exists jobs, s JOBS_FILE = Some (Doc (JObj jobs)) /\ Forall (owned A jobs) reqs.

(** The reports served one after the other. *)
Definition run_all (x_agent_token : option string) (calls : list (ReportReq * Z))
    (s : fs) : fs :=
  fold_left (fun s c => fst (run (report (fst c) x_agent_token (snd c)) s)) calls s.

Definition demo_job2 : json :=
  JObj [ ("job_id", JStr "job-2"); ("agent_id", JStr "agent-a");
         ("args", JArr [JStr "https://y.git"]);
         ("is_spa", JBool false); ("env_token", JNull);
         ("status", JStr "pending"); ("created", JInt 21);
         ("updated", JInt 21) ].

(* ================================================================== *)
(** * Further notions used to state what the handlers do *)

(** The test of the loop of [poll_jobs] on one job record. *)
Definition is_pending_for (A : string) (job : json) : bool :=
  match py_get job "agent_id", py_get job "status" with
  | Ok a, Ok st => eq_str a A && eq_str st "pending"
  | _, _ => false
  end.

(** The request is a job creation that draws the identifier [jid]. *)
Definition creates_job (jid : string) (r : request) : Prop :=
  match r with CreateJob _ _ j _ _ => j = jid | _ => False end.

(** The request is a registration that draws the identifier [aid]. *)
Definition registers_agent (aid : string) (r : request) : Prop :=
  match r with Register _ a _ _ _ => a = aid | _ => False end.

(** Two records agree on every field but the listed ones. *)
Definition same_but (except : list string) (fields fields' : dict) : Prop :=
  forall field, ~ In field except -> dict_get fields' field = dict_get fields field.

(** The answer is a result or an HTTP error raised by the handler itself,
    not an exception that escaped it. *)
Definition http_only {A} (r : result A) : Prop :=
  match r with
  | Ok _ => True
  | Err (HTTPException _ _) => True
  | Err _ => False
  end.

(** Every file parses, and the two documents are dicts of records. *)
Definition store_sound (s : fs) : Prop :=
  (forall path, s path <> Some Garbled) /\
  (exists items, s AGENTS_FILE = Some (Doc (JObj items)) /\
                 Forall is_object (dict_values items)) /\
  (exists jobs, s JOBS_FILE = Some (Doc (JObj jobs)) /\
                Forall is_object (dict_values jobs)).

(** A job for the first agent whose [env_token] is an absolute path. *)
Definition s_abs_job : fs :=
  fst (run (create_job demo_admin
              [ ("agent_id", JStr "agent-a");
                ("env_token", JStr "/var/lib/orch_b/agents") ]
              (Some "s3cret") "job-6" 23 23) s_agents).

(* ================================================================== *)
(** * The env file of the direct deployment *)

From Stdlib Require Import DecimalString.

Definition backslash : ascii := "\"%char.
Definition dquote : ascii := "034"%char.
Definition newline : ascii := "010"%char.

(** [s.replace(old, new)] for a one-character [old]. *)
Fixpoint replace_char (old : ascii) (new : string) (s : string) : string :=
  match s with
  | EmptyString => EmptyString
  | String c r =>
      if Ascii.eqb c old then new ++ replace_char old new r
      else String c (replace_char old new r)
  end.

(** The three replacements of [dict_to_env_bytes], in its order: backslash,
    double quote, newline. *)
Definition escape_value (s : string) : string :=
  replace_char newline (String backslash "n")
    (replace_char dquote (String backslash (String dquote ""))
       (replace_char backslash (String backslash (String backslash "")) s)).

Section EnvFile.

(** [k.strip() == ""] *)
Variable blank : string -> bool.

(** [str(v)] for a float, a list or a dict. *)
Variable py_repr : json -> string.

(** ["" if v is None else str(v)] *)
Definition value_text (v : json) : string :=
  match v with
  | JNull => ""
  | JBool true => "True"
  | JBool false => "False"
  | JInt n => NilZero.string_of_int (Z.to_int n)
  | JStr s => s
  | JFloat _ | JArr _ | JObj _ => py_repr v
  end.

(** The loop over [env.items()]; a key of a loaded dict is a [str]. *)
Fixpoint env_lines (items : dict) : list string :=
  match items with
  | [] => []
  | (k, v) :: r =>
      if blank k then env_lines r
      else (k ++ "=" ++ String dquote (escape_value (value_text v) ++ String dquote ""))
             :: env_lines r
  end.

Definition dict_to_env_bytes (env : dict) : result string :=
  encode_utf8
    (String.concat (String newline "") (env_lines env) ++ String newline "").

End EnvFile.

(** The escaped text read back: a backslash stands with the character that
    follows it, ["n"] for a newline, and the character itself otherwise. *)
Fixpoint unescape_value (s : string) : string :=
  match s with
  | EmptyString => EmptyString
  | String c r =>
      if Ascii.eqb c backslash then
        match r with
        | EmptyString => String c EmptyString
        | String d r' =>
            String (if Ascii.eqb d "n"%char then newline else d) (unescape_value r')
        end
      else String c (unescape_value r)
  end.

(** A text made of plain characters and of the pairs backslash-backslash,
    backslash-quote and backslash-n: no newline, and no double quote or
    backslash outside a pair. *)
Fixpoint well_escaped (s : string) : bool :=
  match s with
  | EmptyString => true
  | String c r =>
      if Ascii.eqb c backslash then
        match r with
        | EmptyString => false
        | String d r' =>
            (Ascii.eqb d backslash || Ascii.eqb d dquote || Ascii.eqb d "n"%char)
            && well_escaped r'
        end
      else negb (Ascii.eqb c dquote) && negb (Ascii.eqb c newline) && well_escaped r
  end.

Fixpoint count_char (c : ascii) (s : string) : nat :=
  match s with
  | EmptyString => O
  | String d r => (if Ascii.eqb d c then 1 else 0) + count_char c r
  end.

(* ================================================================== *)
(** * The application name *)

(** [os.path.basename(p)]: what follows the last "/". *)
Fixpoint basename (p : string) : string :=
  match p with
  | EmptyString => EmptyString
  | String c r =>
      if is_substring "/" r then basename r
      else if Ascii.eqb c "/"%char then r
      else p
  end.

(** [s[:-len(suffix)]] when [s.endswith(suffix)]. *)
Fixpoint strip_suffix (suffix s : string) : option string :=
  if String.eqb s suffix then Some EmptyString
  else
    match s with
    | EmptyString => None
    | String c r => option_map (String c) (strip_suffix suffix r)
    end.

Section AppName.

(** [urlparse(repo_url).path]; [None] when [urlparse] raises. *)
Variable urlparse_path : string -> option string.

(** [parsed.path or repo_url], and [repo_url] when parsing raised. *)
Definition url_path (repo_url : string) : string :=
  match urlparse_path repo_url with
  | Some p => if String.eqb p "" then repo_url else p
  | None => repo_url
  end.

Definition sanitize_app_name (repo_url : string) : result string :=
  let path := url_path repo_url in
  let base := basename path in
  let base := match strip_suffix ".git" base with
              | Some b => b
              | None => base
              end in
  if String.eqb base "" || is_substring "/" base
     || is_substring (String backslash "") base || is_substring ".." base
  then Err (HTTPException 400
              ("cannot derive safe app name from repo_url: " ++ repo_url))
  else Ok base.

End AppName.
(* ================================================================== *)
(** * The scenarios of the specification, run on the model *)

(** Register "h1", create a job for it, poll, report, poll again, list. *)
Example scenario_poll_report_poll :
  let s1 := fst (run (register (host "h1") "agent-a" "tok-a" 10 10) fs_init) in
  let payload := [ ("agent_id", JStr "agent-a");
                   ("args", JArr [JStr "https://x.git"; JStr "d.com"]);
                   ("is_spa", JBool false) ] in
  let s2 := fst (run (create_job None payload None "job-1" 20 20) s1) in
  let job status updated extra :=
    JObj ([ ("job_id", JStr "job-1"); ("agent_id", JStr "agent-a");
            ("args", JArr [JStr "https://x.git"; JStr "d.com"]);
            ("is_spa", JBool false); ("env_token", JNull);
            ("status", JStr status); ("created", JInt 20);
            ("updated", JInt updated) ] ++ extra)%list in
  let s3 := fst (run (poll_jobs (Some "tok-a") 30) s2) in
  let done := {| job_id := "job-1"; status := "done"; output := Some "ok" |} in
  let s4 := fst (run (report done (Some "tok-a") 40) s3) in
  snd (run (poll_jobs (Some "tok-a") 30) s2) = Ok [job "pending" 20 []] /\
  snd (run (report done (Some "tok-a") 40) s3) = Ok tt /\
  snd (run (poll_jobs (Some "tok-a") 50) s4) = Ok [] /\
  snd (run (list_jobs None None) s4) =
    Ok (JObj [("job-1", job "done" 40 [("output", JStr "ok")])]).
Proof. repeat split. Qed.

(** A job that references a bundle before the bundle is uploaded. *)
Example scenario_bundle_uploaded_late :
  snd (run (download_env "env_abc" (Some "tok-a")) s_job) =
    Err (NotFoundError "env token not found") /\
  snd (run (download_env "env_abc" (Some "tok-a")) s_bundle) = Ok demo_bundle.
Proof. split; reflexivity. Qed.

(** What [JSONResponse] renders and what it refuses: a bundle with plain
    values and one with accented text (C3 A9 is U+00E9) are rendered; an
    infinity, a [NaN] inside a list and the unpaired surrogate U+D800,
    as a value or as a key, are refused. *)
Example scenario_rendering :
  let byte (n : Z) := ascii_of_N (Z.to_N n) in
  let e_acute := String (byte 195) (String (byte 169) "") in
  let d800 := String (byte 237) (String (byte 160) (String (byte 128) "")) in
  JSONResponse demo_bundle = Ok demo_bundle /\
  JSONResponse (JObj [("CITY", JStr ("Yaound" ++ e_acute))]) =
    Ok (JObj [("CITY", JStr ("Yaound" ++ e_acute))]) /\
  JSONResponse (JObj [("RATIO", JFloat (FFinite false 3 (-1)))]) =
    Ok (JObj [("RATIO", JFloat (FFinite false 3 (-1)))]) /\
  JSONResponse overflow_bundle = Err PyError /\
  JSONResponse (JObj [("XS", JArr [JInt 1; JFloat FNan])]) = Err PyError /\
  JSONResponse (JObj [("NAME", JStr ("a" ++ d800))]) = Err PyError /\
  JSONResponse (JObj [(d800, JInt 1)]) = Err PyError.
Proof. repeat split. Qed.

(* ================================================================== *)
(** * Basic facts *)

Lemma run_bind {A B} (m : io A) (f : A -> io B) (s : fs) :
  run (bind m f) s =
  match run m s with
  | (s', Ok a) => run (f a) s'
  | (s', Err e) => (s', Err e)
  end.
Proof.
  revert s; induction m as [a | e | X op k IH]; intros s; simpl; auto.
  destruct (op s) as [s' [x | e]]; auto.
Qed.

Lemma eq_str_true (x : json) (s : string) : eq_str x s = true <-> x = JStr s.
Proof.
  destruct x; simpl; split; try discriminate.
  - intros H; apply String.eqb_eq in H; now subst.
  - intros H; inversion H; apply String.eqb_refl.
Qed.

Lemma dict_get_set_same (d : dict) k v : dict_get (dict_set d k v) k = Some v.
Proof.
  induction d as [| [k' v'] r IH]; simpl.
  - now rewrite String.eqb_refl.
  - destruct (String.eqb k' k) eqn:E; simpl; rewrite E; auto.
Qed.

Lemma dict_get_set_other (d : dict) k k' v :
  k' <> k -> dict_get (dict_set d k v) k' = dict_get d k'.
Proof.
  intros N; induction d as [| [k0 v0] r IH]; simpl.
  - destruct (String.eqb k k') eqn:E; auto.
    apply String.eqb_eq in E; congruence.
  - destruct (String.eqb k0 k) eqn:E; simpl.
    + apply String.eqb_eq in E; subst k0.
      destruct (String.eqb k k') eqn:E'; auto.
      apply String.eqb_eq in E'; congruence.
    + now rewrite IH.
Qed.

Lemma dict_keys_set_present (d : dict) k v :
  dict_mem d k = true -> dict_keys (dict_set d k v) = dict_keys d.
Proof.
  unfold dict_mem, dict_keys; induction d as [| [k0 v0] r IH]; simpl.
  - discriminate.
  - destruct (String.eqb k0 k) eqn:E; simpl; auto.
    intros H; now rewrite IH.
Qed.

Lemma find_agent_record (items : dict) tok A :
  find_agent items tok = Ok (Some A) ->
  exists rec, dict_get items A = Some (JObj rec).
Proof.
  induction items as [| [aid a] r IH]; simpl; try discriminate.
  destruct a; simpl; try discriminate.
  destruct (eq_str _ tok).
  - intros H; inversion H; subst; rewrite String.eqb_refl; eauto.
  - intros H; destruct (String.eqb aid A); eauto.
Qed.

(** [authenticate] only reads. *)
Lemma authenticate_reads x (s : fs) : fst (run (authenticate x) s) = s.
Proof.
  unfold authenticate.
  destruct x as [t |]; simpl; auto.
  destruct (String.eqb t ""); simpl; auto.
  unfold read_json.
  destruct (s AGENTS_FILE) as [[| v] |]; simpl; auto.
  - destruct v; simpl; auto.
    destruct (find_agent kv t) as [[a |] | e]; simpl; auto.
    destruct (String.eqb a ""); auto.
Qed.

Lemma run_authenticate x (s : fs) :
  run (authenticate x) s = (s, caller s x).
Proof.
  unfold caller; rewrite <- (authenticate_reads x s) at 2.
  now destruct (run (authenticate x) s).
Qed.

Lemma caller_inv (s : fs) x agents A :
  caller s x = Ok (agents, A) ->
  exists tok items rec,
    x = Some tok /\ tok <> "" /\ A <> "" /\
    agents = JObj items /\
    s AGENTS_FILE = Some (Doc agents) /\
    find_agent items tok = Ok (Some A) /\
    dict_get items A = Some (JObj rec).
Proof.
  unfold caller, authenticate.
  destruct x as [t |]; simpl; try discriminate.
  destruct (String.eqb t "") eqn:Et; simpl; try discriminate.
  unfold read_json.
  destruct (s AGENTS_FILE) as [[| v] |] eqn:Ef; simpl; try discriminate.
  destruct v; simpl; try discriminate.
  destruct (find_agent kv t) as [[a |] | e] eqn:Efa; simpl; try discriminate.
  destruct (String.eqb a "") eqn:Ea; simpl; try discriminate.
  intros H; inversion H; subst.
  destruct (find_agent_record _ _ _ Efa) as [rec Hrec].
  exists t, kv, rec; repeat split; auto.
  - intros ->; discriminate.
  - intros ->; discriminate.
Qed.
Lemma run_report_foreign (s : fs) req x now agents A jobs job owner :
  caller s x = Ok (agents, A) ->
  s JOBS_FILE = Some (Doc jobs) ->
  py_getitem jobs (job_id req) = Ok job ->
  py_get job "agent_id" = Ok owner ->
  owner <> JStr A ->
  run (report req x now) s =
    (s, Err (AuthError "job does not belong to this agent")).
Proof.
  intros Hc Hj Hg Ho Hne.
  unfold report.
  rewrite run_bind, run_authenticate, Hc.
  simpl. unfold read_json; rewrite Hj.
  destruct jobs as [| | | | | | d]; try discriminate.
  simpl in *. unfold dict_mem.
  destruct (dict_get d (job_id req)) as [j |]; try discriminate.
  inversion Hg; subst j. simpl. rewrite Ho. simpl.
  destruct (eq_str owner A) eqn:E.
  - apply eq_str_true in E. contradiction.
  - reflexivity.
Qed.

(** The caller's record with [last_seen] set, put back into the agents. *)
Lemma run_poll_jobs (s : fs) x now items A rec :
  caller s x = Ok (JObj items, A) ->
  dict_get items A = Some (JObj rec) ->
  run (poll_jobs x now) s =
    (dump_replace (AGENTS_FILE ++ ".tmp") AGENTS_FILE
       (JObj (dict_set items A (JObj (dict_set rec "last_seen" (JInt now))))) s,
     match snd (read_json JOBS_FILE s) with
     | Ok jobs =>
         match py_items jobs with
         | Ok its => pending_jobs its A
         | Err e => Err e
         end
     | Err e => Err e
     end).
Proof.
  intros Hc Hrec.
  unfold poll_jobs.
  rewrite run_bind, run_authenticate, Hc.
  simpl. rewrite Hrec. simpl.
  unfold read_json.
  replace (dump_replace _ _ _ s JOBS_FILE) with (s JOBS_FILE) by reflexivity.
  destruct (s JOBS_FILE) as [[| jobs] |]; simpl; auto.
  destruct (py_items jobs) as [its | e]; simpl; auto.
  destruct (pending_jobs its A); simpl; auto.
Qed.

Lemma run_poll_jobs_refused (s : fs) x now e :
  caller s x = Err e -> run (poll_jobs x now) s = (s, Err e).
Proof.
  intros Hc; unfold poll_jobs; now rewrite run_bind, run_authenticate, Hc.
Qed.

Lemma pending_jobs_sound (items : dict) A res job :
  pending_jobs items A = Ok res ->
  In job res ->
  In job (dict_values items) /\
  py_get job "agent_id" = Ok (JStr A) /\
  py_get job "status" = Ok (JStr "pending").
Proof.
  revert res; induction items as [| [jid j] r IH]; simpl; intros res H Hin.
  - inversion H; subst; contradiction.
  - destruct (py_get j "agent_id") as [a |] eqn:Ea; try discriminate.
    destruct (py_get j "status") as [st |] eqn:Es; try discriminate.
    destruct (pending_jobs r A) as [l |] eqn:El; try discriminate.
    inversion H; subst res; clear H.
    destruct (eq_str a A && eq_str st "pending") eqn:Eb.
    + apply andb_true_iff in Eb; destruct Eb as [E1 E2].
      apply eq_str_true in E1, E2; subst.
      destruct Hin as [<- | Hin]; auto.
      destruct (IH l eq_refl Hin) as (? & ? & ?); auto.
    + destruct (IH l eq_refl Hin) as (? & ? & ?); auto.
Qed.

Lemma pending_jobs_complete (items : dict) A res jid job :
  pending_jobs items A = Ok res ->
  In (jid, job) items ->
  py_get job "agent_id" = Ok (JStr A) ->
  py_get job "status" = Ok (JStr "pending") ->
  In job res.
Proof.
  revert res; induction items as [| [k j] r IH]; simpl; intros res H Hin Ha Hs.
  - contradiction.
  - destruct (py_get j "agent_id") as [a |] eqn:Ea; try discriminate.
    destruct (py_get j "status") as [st |] eqn:Es; try discriminate.
    destruct (pending_jobs r A) as [l |] eqn:El; try discriminate.
    inversion H; subst res; clear H.
    destruct Hin as [Heq | Hin].
    + inversion Heq; subst k j.
      rewrite Ha in Ea; rewrite Hs in Es; inversion Ea; inversion Es; subst.
      simpl. rewrite !String.eqb_refl. simpl; auto.
    + specialize (IH l eq_refl Hin Ha Hs).
      destruct (eq_str a A && eq_str st "pending"); simpl; auto.
Qed.

Lemma references_env_true (vals : list json) A T :
  references_env vals A T = Ok true -> Exists (pending_ref A T) vals.
Proof.
  induction vals as [| j r IH]; simpl; try discriminate.
  destruct (py_get j "agent_id") as [a |] eqn:Ea; try discriminate.
  destruct (py_get j "status") as [st |] eqn:Es;
    [| destruct j; discriminate].
  destruct (py_get j "env_token") as [tk |] eqn:Et;
    [| destruct j; discriminate].
  destruct (eq_str a A && eq_str st "pending" && eq_str tk T) eqn:Eb.
  - intros _. apply Exists_cons_hd.
    apply andb_true_iff in Eb; destruct Eb as [Eb E3].
    apply andb_true_iff in Eb; destruct Eb as [E1 E2].
    apply eq_str_true in E1, E2, E3; subst. now repeat split.
  - intros H; apply Exists_cons_tl; auto.
Qed.

Lemma references_env_false (vals : list json) A T :
  references_env vals A T = Ok false ->
  Forall (fun job => ~ pending_ref A T job) vals.
Proof.
  induction vals as [| j r IH]; simpl; intros H; constructor.
  - intros (Ha & Hs & Ht). rewrite Ha, Hs, Ht in H. simpl in H.
    rewrite !String.eqb_refl in H. discriminate.
  - destruct (py_get j "agent_id") as [a |]; try discriminate.
    destruct (py_get j "status") as [st |]; try discriminate.
    destruct (py_get j "env_token") as [tk |]; try discriminate.
    destruct (eq_str a A && eq_str st "pending" && eq_str tk T);
      try discriminate; auto.
Qed.

Lemma references_env_total (vals : list json) A T :
  Forall is_object vals ->
  exists b, references_env vals A T = Ok b.
Proof.
  induction 1 as [| j r [f ->] _ [b IH]]; simpl; eauto.
  destruct (_ && _); eauto.
Qed.

Lemma references_env_complete (vals : list json) A T :
  Forall is_object vals ->
  Exists (pending_ref A T) vals ->
  references_env vals A T = Ok true.
Proof.
  intros Hobj Hex.
  destruct (references_env_total _ A T Hobj) as [[|] Hb]; auto.
  apply references_env_false in Hb.
  apply Exists_exists in Hex; destruct Hex as (j & Hin & Hj).
  rewrite Forall_forall in Hb. now destruct (Hb j Hin).
Qed.

Lemma run_download_env (s : fs) T x agents A :
  caller s x = Ok (agents, A) ->
  run (download_env T x) s =
    (s,
     match snd (read_json JOBS_FILE s) with
     | Err e => Err e
     | Ok jobs =>
         match py_items jobs with
         | Err e => Err e
         | Ok items =>
             match references_env (dict_values items) A T with
             | Err e => Err e
             | Ok false =>
                 Err (AuthError "no job for this agent references this env token")
             | Ok true =>
                 match s (env_path T) with
                 | None => Err (NotFoundError "env token not found")
                 | Some (Doc v) => JSONResponse v
                 | Some Garbled => Err PyError
                 end
             end
         end
     end).
Proof.
  intros Hc. unfold download_env.
  rewrite run_bind, run_authenticate, Hc.
  unfold read_json, path_exists, load_file.
  generalize (env_path T); intros p. simpl.
  destruct (s JOBS_FILE) as [[| jobs] |]; simpl; auto.
  - destruct (py_items jobs) as [its | e]; simpl; auto.
    destruct (references_env (dict_values its) A T) as [[|] | e]; simpl; auto.
    destruct (s p) as [[| v] |] eqn:E; simpl; rewrite ?E; auto.
    destruct (JSONResponse v); reflexivity.
Qed.

Lemma run_download_env_refused (s : fs) T x e :
  caller s x = Err e -> run (download_env T x) s = (s, Err e).
Proof.
  intros Hc; unfold download_env; now rewrite run_bind, run_authenticate, Hc.
Qed.

Lemma dict_keys_set_any (d : dict) k v w :
  dict_keys (dict_set d k v) = dict_keys (dict_set d k w).
Proof.
  unfold dict_keys; induction d as [| [k0 v0] r IH]; simpl; auto.
  destruct (String.eqb k0 k); simpl; auto. now rewrite IH.
Qed.

Lemma find_agent_err (items : dict) tok e :
  find_agent items tok = Err e -> e = PyError.
Proof.
  induction items as [| [aid a] r IH]; simpl; try discriminate.
  destruct a; simpl; try (intros H; inversion H; reflexivity).
  destruct (eq_str _ tok); auto; discriminate.
Qed.

Lemma caller_never_not_found (s : fs) x detail :
  caller s x <> Err (NotFoundError detail).
Proof.
  unfold caller, authenticate.
  destruct x as [t |]; simpl; try discriminate.
  destruct (String.eqb t ""); simpl; try discriminate.
  unfold read_json.
  destruct (s AGENTS_FILE) as [[| v] |]; simpl; try discriminate.
  destruct v; simpl; try discriminate.
  destruct (find_agent kv t) as [[a |] | e] eqn:E; simpl; try discriminate.
  - destruct (String.eqb a ""); discriminate.
  - apply find_agent_err in E; subst e; discriminate.
Qed.

Lemma references_env_err (vals : list json) A T e :
  references_env vals A T = Err e -> e = PyError.
Proof.
  induction vals as [| j r IH]; simpl; try discriminate.
  destruct j; simpl; try (intros H; inversion H; reflexivity).
  destruct (_ && _); auto; discriminate.
Qed.

Lemma run_download_env_ok (s : fs) T x agents A jobs :
  caller s x = Ok (agents, A) ->
  snd (read_json JOBS_FILE s) = Ok (JObj jobs) ->
  Forall is_object (dict_values jobs) ->
  forall P,
    run (download_env T x) s = (s, Ok P) <->
    Exists (pending_ref A T) (dict_values jobs) /\
    s (env_path T) = Some (Doc P) /\
    renderable P = true.
Proof.
  intros Hc Hj Hobj P.
  rewrite (run_download_env _ T _ _ _ Hc), Hj. cbn [py_items].
  destruct (references_env_total _ A T Hobj) as [b Hb]; rewrite Hb.
  destruct b.
  - apply references_env_true in Hb.
    destruct (s (env_path T)) as [[| v] |]; unfold JSONResponse; split.
    all: try (intros H; inversion H; fail).
    all: try (intros (_ & H & _); discriminate H).
    + destruct (renderable v) eqn:Hr; intros H; inversion H; subst; auto.
    + intros (_ & H & Hr); inversion H; subst. now rewrite Hr.
  - apply references_env_false in Hb. split.
    + intros H; inversion H.
    + intros [Hex _]. apply Exists_exists in Hex.
      destruct Hex as (j & Hin & Hq).
      rewrite Forall_forall in Hb. now destruct (Hb j Hin).
Qed.

(** The request that differs from success only in the rendering. *)
Lemma run_download_env_stored (s : fs) T x agents A jobs v :
  caller s x = Ok (agents, A) ->
  snd (read_json JOBS_FILE s) = Ok (JObj jobs) ->
  Forall is_object (dict_values jobs) ->
  Exists (pending_ref A T) (dict_values jobs) ->
  s (env_path T) = Some (Doc v) ->
  run (download_env T x) s = (s, JSONResponse v).
Proof.
  intros Hc Hj Hobj Hex Hv.
  rewrite (run_download_env _ T _ _ _ Hc), Hj. cbn [py_items].
  destruct (references_env_total _ A T Hobj) as [b Hb]; rewrite Hb.
  destruct b.
  - now rewrite Hv.
  - apply references_env_false in Hb. apply Exists_exists in Hex.
    destruct Hex as (j & Hin & Hq).
    rewrite Forall_forall in Hb. now destruct (Hb j Hin).
Qed.


Lemma py_in_dict (agents : dict) (agent_id : json) :
  hashable agent_id ->
  py_in agent_id (JObj agents) = Ok (registered agents agent_id).
Proof.
  destruct agent_id; simpl; auto; contradiction.
Qed.

Lemma read_json_reads (path : string) (s : fs) : fst (read_json path s) = s.
Proof.
  unfold read_json. now destruct (s path) as [[| v] |].
Qed.

Lemma run_read_json {A} (path : string) (k : json -> io A) (s : fs) v :
  snd (read_json path s) = Ok v ->
  run (Sys (read_json path) k) s = run (k v) s.
Proof.
  intros H. cbn [run].
  destruct (read_json path s) as [s' r] eqn:E.
  assert (s' = s) by (rewrite <- (read_json_reads path s); now rewrite E).
  cbn [snd] in H. now subst.
Qed.


(** ** What a request may do to the store *)

Lemma run_report_cases (s : fs) req x now :
  (exists e, run (report req x now) s = (s, Err e)) \/
  (exists agents A jobs fields,
     caller s x = Ok (agents, A) /\
     snd (read_json JOBS_FILE s) = Ok (JObj jobs) /\
     dict_get jobs (job_id req) = Some (JObj fields) /\
     dict_get fields "agent_id" = Some (JStr A) /\
     run (report req x now) s =
       (dump_replace (JOBS_FILE ++ ".tmp") JOBS_FILE
          (JObj (dict_set jobs (job_id req) (reported fields req now))) s,
        Ok tt)).
Proof.
  unfold report. rewrite run_bind, run_authenticate.
  destruct (caller s x) as [[agents A] | e] eqn:Hc; [| left; eauto].
  unfold call. cbn [bind].
  destruct (snd (read_json JOBS_FILE s)) as [jobs | e] eqn:Hj.
  2:{ left. exists e. cbn [run].
      destruct (read_json JOBS_FILE s) as [s' r] eqn:E.
      assert (s' = s) by (rewrite <- (read_json_reads JOBS_FILE s); now rewrite E).
      cbn [snd] in Hj. now subst. }
  rewrite (run_read_json JOBS_FILE _ s _ Hj). cbn [bind].
  destruct (py_in (JStr (job_id req)) jobs) as [[|] | e] eqn:Hin;
    cbn [lift bind negb run]; [| left; eauto | left; eauto].
  destruct (py_getitem jobs (job_id req)) as [job | e] eqn:Hg;
    cbn [lift bind run]; [| left; eauto].
  destruct (py_get job "agent_id") as [owner | e] eqn:Ho;
    cbn [lift bind run]; [| left; eauto].
  destruct (eq_str owner A) eqn:Eo; cbn [negb run]; [| left; eauto].
  apply eq_str_true in Eo; subst owner.
  destruct job as [| | | | | | fields]; try discriminate Ho.
  destruct jobs as [| | | | | | d]; try discriminate Hg.
  right. exists agents, A, d, fields.
  simpl in Hg, Ho.
  destruct (dict_get d (job_id req)) as [j |] eqn:Ed; try discriminate Hg.
  injection Hg as ->.
  destruct (dict_get fields "agent_id") as [o |] eqn:Ef; try discriminate Ho.
  injection Ho as ->.
  repeat split; auto.
Qed.

Lemma run_read_json_err {A} (path : string) (k : json -> io A) (s : fs) e :
  snd (read_json path s) = Err e ->
  run (Sys (read_json path) k) s = (s, Err e).
Proof.
  intros H. cbn [run].
  destruct (read_json path s) as [s' r] eqn:E.
  assert (s' = s) by (rewrite <- (read_json_reads path s); now rewrite E).
  cbn [snd] in H. now subst.
Qed.

Lemma run_create_job_cases adm (s : fs) payload x jid t1 t2 :
  (exists e, run (create_job adm payload x jid t1 t2) s = (s, Err e)) \/
  (exists jobs,
     snd (read_json JOBS_FILE s) = Ok (JObj jobs) /\
     run (create_job adm payload x jid t1 t2) s =
       (dump_replace (JOBS_FILE ++ ".tmp") JOBS_FILE
          (JObj (dict_set jobs jid (new_job payload jid t1 t2))) s,
        Ok jid)).
Proof.
  unfold create_job. rewrite run_bind.
  destruct (require_admin adm x) as [[] | e]; cbn [lift run]; [| left; eauto].
  unfold call. cbn [bind].
  destruct (snd (read_json AGENTS_FILE s)) as [agents | e] eqn:Ha;
    [| left; exists e; now apply run_read_json_err].
  rewrite (run_read_json AGENTS_FILE _ s _ Ha). cbn [bind].
  destruct (snd (read_json JOBS_FILE s)) as [jobs | e] eqn:Hj;
    [| left; exists e; now apply run_read_json_err].
  rewrite (run_read_json JOBS_FILE _ s _ Hj). cbn [bind].
  destruct (py_in _ agents) as [[|] | e]; cbn [lift bind negb run];
    [| left; eauto | left; eauto].
  destruct jobs as [| | | | | | d]; cbn [py_setitem lift bind run];
    try (left; eauto; fail).
  right. exists d. split; auto.
Qed.

Lemma run_register_cases (s : fs) req a t c l :
  (exists e, run (register req a t c l) s = (s, Err e)) \/
  (exists agents',
     run (register req a t c l) s =
       (dump_replace (AGENTS_FILE ++ ".tmp") AGENTS_FILE agents' s, Ok (a, t))).
Proof.
  unfold register, call. cbn [bind].
  destruct (snd (read_json AGENTS_FILE s)) as [agents | e] eqn:Ha;
    [| left; exists e; now apply run_read_json_err].
  rewrite (run_read_json AGENTS_FILE _ s _ Ha). cbn [bind].
  destruct agents as [| | | | | | d]; cbn [py_setitem lift bind run];
    try (left; eauto; fail).
  right. eexists. reflexivity.
Qed.

Lemma run_poll_jobs_cases (s : fs) x now :
  (exists e, run (poll_jobs x now) s = (s, Err e)) \/
  (exists agents' r,
     run (poll_jobs x now) s =
       (dump_replace (AGENTS_FILE ++ ".tmp") AGENTS_FILE agents' s, r)).
Proof.
  destruct (caller s x) as [[agents A] | e] eqn:Hc.
  - destruct (caller_inv _ _ _ _ Hc)
      as (tok & items & rec & _ & _ & _ & -> & _ & _ & Hrec).
    right. rewrite (run_poll_jobs _ _ now _ _ _ Hc Hrec). eauto.
  - left. rewrite (run_poll_jobs_refused _ _ now _ Hc). eauto.
Qed.

Lemma run_upload_env_file_cases adm (s : fs) f b x hex :
  (exists e, run (upload_env_file adm f b x hex) s = (s, Err e)) \/
  (exists data,
     run (upload_env_file adm f b x hex) s =
       (dump_replace (env_path ("env_" ++ hex) ++ ".tmp")
          (env_path ("env_" ++ hex)) data s, Ok ("env_" ++ hex))).
Proof.
  unfold upload_env_file. rewrite run_bind.
  destruct (require_admin adm x) as [[] | e]; cbn [lift run]; [| left; eauto].
  destruct f as [[| v] |]; [| | destruct b as [d |]];
    unfold call; cbn [bind run];
    [left; eauto | right; eauto | right; eauto | left; eauto].
Qed.

Lemma download_env_reads (s : fs) T x : fst (run (download_env T x) s) = s.
Proof.
  destruct (caller s x) as [[agents A] | e] eqn:Hc.
  - now rewrite (run_download_env _ T _ _ _ Hc).
  - now rewrite (run_download_env_refused _ T _ _ Hc).
Qed.

Lemma list_agents_reads adm (s : fs) x : fst (run (list_agents adm x) s) = s.
Proof.
  unfold list_agents. rewrite run_bind.
  destruct (require_admin adm x) as [[] | e]; cbn [lift run fst]; auto.
  unfold call. cbn [run].
  pose proof (read_json_reads AGENTS_FILE s) as H.
  destruct (read_json AGENTS_FILE s) as [s' [v | e]]; auto.
Qed.

Lemma list_jobs_reads adm (s : fs) x : fst (run (list_jobs adm x) s) = s.
Proof.
  unfold list_jobs. rewrite run_bind.
  destruct (require_admin adm x) as [[] | e]; cbn [lift run fst]; auto.
  unfold call. cbn [run].
  pose proof (read_json_reads JOBS_FILE s) as H.
  destruct (read_json JOBS_FILE s) as [s' [v | e]]; auto.
Qed.

(** Writing the agents document or a bundle leaves the jobs document. *)
Lemma jobs_after_agents_write (s : fs) data :
  dump_replace (AGENTS_FILE ++ ".tmp") AGENTS_FILE data s JOBS_FILE = s JOBS_FILE.
Proof. reflexivity. Qed.

Lemma jobs_after_bundle_write (s : fs) hex data :
  dump_replace (env_path ("env_" ++ hex) ++ ".tmp") (env_path ("env_" ++ hex))
    data s JOBS_FILE = s JOBS_FILE.
Proof. reflexivity. Qed.

Lemma agents_after_jobs_write (s : fs) data :
  dump_replace (JOBS_FILE ++ ".tmp") JOBS_FILE data s AGENTS_FILE = s AGENTS_FILE.
Proof. reflexivity. Qed.

Lemma agents_after_bundle_write (s : fs) hex data :
  dump_replace (env_path ("env_" ++ hex) ++ ".tmp") (env_path ("env_" ++ hex))
    data s AGENTS_FILE = s AGENTS_FILE.
Proof. reflexivity. Qed.

(** ** Dictionaries without repeated keys *)

Lemma dict_set_in (d : dict) k v k' v' :
  In (k', v') (dict_set d k v) -> (k' = k /\ v' = v) \/ In (k', v') d.
Proof.
  induction d as [| [k0 v0] r IH]; simpl.
  - intros [H | []]; inversion H; auto.
  - destruct (String.eqb k0 k) eqn:E; simpl.
    + apply String.eqb_eq in E; subst k0.
      intros [H | H]; [inversion H |]; auto.
    + intros [H | H]; auto. destruct (IH H); auto.
Qed.

Lemma dict_get_in (d : dict) k v : dict_get d k = Some v -> In (k, v) d.
Proof.
  induction d as [| [k0 v0] r IH]; simpl; try discriminate.
  destruct (String.eqb k0 k) eqn:E; auto.
  apply String.eqb_eq in E; subst k0. intros H; inversion H; auto.
Qed.

Lemma dict_mem_keys (d : dict) k : dict_mem d k = true <-> In k (dict_keys d).
Proof.
  unfold dict_mem, dict_keys; induction d as [| [k0 v0] r IH]; simpl.
  - split; [discriminate | contradiction].
  - destruct (String.eqb k0 k) eqn:E.
    + apply String.eqb_eq in E; subst; split; auto.
    + apply String.eqb_neq in E. rewrite IH. split; auto.
      intros [H | H]; auto; contradiction.
Qed.

Lemma dict_keys_set_absent (d : dict) k v :
  dict_mem d k = false -> dict_keys (dict_set d k v) = (dict_keys d ++ [k])%list.
Proof.
  unfold dict_mem, dict_keys; induction d as [| [k0 v0] r IH]; simpl; auto.
  destruct (String.eqb k0 k) eqn:E; simpl; try discriminate.
  intros H; now rewrite IH.
Qed.

Lemma NoDup_dict_set (d : dict) k v :
  NoDup (dict_keys d) -> NoDup (dict_keys (dict_set d k v)).
Proof.
  intros H. destruct (dict_mem d k) eqn:E.
  - now rewrite dict_keys_set_present.
  - rewrite dict_keys_set_absent by auto.
    apply NoDup_app; auto.
    + repeat constructor. intros [].
    + intros a Ha [<- | []]. apply dict_mem_keys in Ha. congruence.
Qed.

Lemma dict_get_unique (d : dict) k v :
  NoDup (dict_keys d) -> In (k, v) d -> dict_get d k = Some v.
Proof.
  unfold dict_keys; induction d as [| [k0 v0] r IH]; simpl; try contradiction.
  intros Hnd [H | H].
  - inversion H; subst. now rewrite String.eqb_refl.
  - inversion Hnd as [| ? ? Hnotin Hnd']; subst.
    destruct (String.eqb k0 k) eqn:E; auto.
    apply String.eqb_eq in E; subst k0.
    exfalso; apply Hnotin. now apply (in_map fst) in H.
Qed.

Lemma jobs_ok_set (jobs : dict) jid job :
  jobs_ok jobs ->
  py_get job "job_id" = Ok (JStr jid) ->
  jobs_ok (dict_set jobs jid job).
Proof.
  intros [Hnd Hid] Hjob; split.
  - now apply NoDup_dict_set.
  - intros k j Hin. destruct (dict_set_in _ _ _ _ _ Hin) as [[-> ->] | H]; auto.
Qed.

Lemma reported_job_id (fields : dict) req now :
  py_get (reported fields req now) "job_id" = py_get (JObj fields) "job_id".
Proof.
  unfold reported, py_get.
  now rewrite !dict_get_set_other by discriminate.
Qed.

Lemma reported_status (fields : dict) req now :
  py_get (reported fields req now) "status" = Ok (JStr (status req)).
Proof.
  unfold reported, py_get.
  rewrite !dict_get_set_other by discriminate.
  now rewrite dict_get_set_same.
Qed.

(** ** The ledger invariant *)

Lemma ledger_ok_same_jobs (s s' : fs) :
  s' JOBS_FILE = s JOBS_FILE -> ledger_ok s -> ledger_ok s'.
Proof.
  intros E (jobs & Hj & Hok). exists jobs. now rewrite E.
Qed.

Lemma ledger_ok_read (s : fs) jobs v :
  s JOBS_FILE = Some (Doc (JObj jobs)) ->
  snd (read_json JOBS_FILE s) = Ok v -> v = JObj jobs.
Proof.
  unfold read_json. intros ->. simpl. now intros [= <-].
Qed.

Lemma serve_ledger_ok adm (s : fs) (r : request) :
  ledger_ok s -> ledger_ok (serve adm s r).
Proof.
  intros Hok. destruct r; cbn [serve].
  - destruct (run_register_cases s req agent_id agent_token t_created t_last_seen)
      as [[e ->] | [a' ->]]; auto.
  - now rewrite list_agents_reads.
  - destruct (run_create_job_cases adm s payload x_admin_token new_job_id
                t_created t_updated) as [[e ->] | (jobs & Hj & ->)]; auto.
    destruct Hok as (jobs0 & Hf & Hjobs).
    apply (ledger_ok_read _ _ _ Hf) in Hj. injection Hj as <-.
    exists (dict_set jobs new_job_id (new_job payload new_job_id t_created t_updated)).
    split.
    + cbn [fst]. unfold dump_replace, fs_put. now rewrite String.eqb_refl.
    + now apply jobs_ok_set.
  - now rewrite list_jobs_reads.
  - destruct (run_poll_jobs_cases s x_agent_token now)
      as [[e ->] | (a' & r & ->)]; auto.
  - destruct (run_report_cases s req x_agent_token now)
      as [[e ->] | (agents & A & jobs & fields & _ & Hj & Hg & _ & ->)]; auto.
    destruct Hok as (jobs0 & Hf & Hjobs).
    apply (ledger_ok_read _ _ _ Hf) in Hj. injection Hj as <-.
    exists (dict_set jobs (job_id req) (reported fields req now)).
    split.
    + cbn [fst]. unfold dump_replace, fs_put. now rewrite String.eqb_refl.
    + apply jobs_ok_set; auto.
      rewrite reported_job_id. apply Hjobs. now apply dict_get_in.
  - destruct (run_upload_env_file_cases adm s env_file env_json x_admin_token hex)
      as [[e ->] | (data & ->)]; auto.
  - now rewrite download_env_reads.
Qed.

Lemma after_ledger_ok adm (history : list request) (s : fs) :
  ledger_ok s -> ledger_ok (after adm history s).
Proof.
  revert s; induction history as [| r h IH]; intros s Hok; simpl; auto.
  apply IH. now apply serve_ledger_ok.
Qed.

Lemma reachable_ledger_ok adm (s : fs) : reachable adm s -> ledger_ok s.
Proof.
  intros [history ->]. apply after_ledger_ok.
  exists []. split; [reflexivity |]. split; [constructor | intros ? ? []].
Qed.

(** ** Requests in flight *)

Lemma caller_ext (s s' : fs) x :
  s' AGENTS_FILE = s AGENTS_FILE -> caller s' x = caller s x.
Proof.
  intros H. unfold caller, authenticate.
  destruct x as [t |]; simpl; auto.
  destruct (String.eqb t ""); simpl; auto.
  unfold read_json. rewrite H.
  destruct (s AGENTS_FILE) as [[| v] |]; simpl; auto.
  destruct v; simpl; auto.
  destruct (find_agent kv t) as [[a |] | e]; simpl; auto.
  destruct (String.eqb a ""); auto.
Qed.

Lemma run_report_owned (s : fs) req x now agents A jobs fields :
  caller s x = Ok (agents, A) ->
  s JOBS_FILE = Some (Doc (JObj jobs)) ->
  dict_get jobs (job_id req) = Some (JObj fields) ->
  dict_get fields "agent_id" = Some (JStr A) ->
  run (report req x now) s =
    (dump_replace (JOBS_FILE ++ ".tmp") JOBS_FILE
       (JObj (dict_set jobs (job_id req) (reported fields req now))) s,
     Ok tt).
Proof.
  intros Hc Hj Hg Ho.
  destruct (run_report_cases s req x now)
    as [[e He] | (ag & A' & jobs' & f' & Hc' & Hj' & Hg' & _ & Hrun)].
  - exfalso. revert He. unfold report.
    rewrite run_bind, run_authenticate, Hc. unfold call. cbn [bind].
    assert (Hr : snd (read_json JOBS_FILE s) = Ok (JObj jobs))
      by (unfold read_json; now rewrite Hj).
    rewrite (run_read_json JOBS_FILE _ s _ Hr). cbn [bind py_in lift].
    unfold dict_mem. rewrite Hg. cbn [negb py_getitem bind lift]. rewrite Hg.
    cbn [py_get bind lift]. rewrite Ho. cbn [eq_str].
    rewrite String.eqb_refl. cbn [negb py_setitem bind lift run write_json].
    discriminate.
  - assert (Hr := ledger_ok_read _ _ _ Hj Hj'). injection Hr as <-.
    rewrite Hg in Hg'. injection Hg' as <-. exact Hrun.
Qed.

Lemma reported_agent_id (fields : dict) req now f A :
  reported fields req now = JObj f ->
  dict_get fields "agent_id" = Some (JStr A) ->
  dict_get f "agent_id" = Some (JStr A).
Proof.
  unfold reported. intros [= <-] H.
  now rewrite !dict_get_set_other by discriminate.
Qed.

Lemma owned_after_report A (jobs : dict) req now fields req' :
  dict_get jobs (job_id req) = Some (JObj fields) ->
  dict_get fields "agent_id" = Some (JStr A) ->
  owned A jobs req' ->
  owned A (dict_set jobs (job_id req) (reported fields req now)) req'.
Proof.
  intros Hg Ho (f' & Hg' & Ho').
  destruct (String.eqb (job_id req') (job_id req)) eqn:E.
  - apply String.eqb_eq in E. unfold owned. rewrite E.
    eexists. rewrite dict_get_set_same. split; [reflexivity |].
    now rewrite !dict_get_set_other by discriminate.
  - apply String.eqb_neq in E. exists f'.
    now rewrite dict_get_set_other by auto.
Qed.

Lemma set_nth_same {A} (l : list A) i a :
  nth_error l i = Some a -> set_nth l i a = l.
Proof.
  revert i; induction l as [| x r IH]; intros [| i]; simpl; auto.
  - now intros [= ->].
  - intros H. now rewrite IH.
Qed.

Lemma set_nth_twice {A} (l : list A) i a b :
  set_nth (set_nth l i a) i b = set_nth l i b.
Proof.
  revert i; induction l as [| x r IH]; intros [| i]; simpl; auto.
  now rewrite IH.
Qed.

Lemma nth_error_set_nth {A} (l : list A) i j a m :
  nth_error l i = Some m ->
  nth_error (set_nth l i a) j = if Nat.eqb j i then Some a else nth_error l j.
Proof.
  revert i j; induction l as [| x r IH]; intros [| i] [| j]; simpl;
    try discriminate; auto.
Qed.

Lemma set_nth_length {A} (l : list A) i a :
  List.length (set_nth l i a) = List.length l.
Proof.
  revert i; induction l as [| x r IH]; intros [| i]; simpl; auto.
Qed.

Lemma exec_length {A} (schedule : list nat) (pool : list (io A)) (s : fs) :
  List.length (fst (exec schedule pool s)) = List.length pool.
Proof.
  revert pool s; induction schedule as [| j rest IH]; intros pool s; simpl; auto.
  destruct (nth_error pool j) as [m |]; auto.
  destruct (step m s) as [m' s']. now rewrite IH, set_nth_length.
Qed.

Lemma bounded_ret (I : fs -> Prop) n : bounded I n (Ret tt).
Proof. now destruct n. Qed.

Lemma bounded_sys (I : fs -> Prop) n X (op : fs -> fs * result X) k :
  (forall s, I s ->
     exists x s', op s = (s', Ok x) /\ I s' /\ bounded I n (k x)) ->
  bounded I (S n) (Sys op k).
Proof. auto. Qed.

Lemma bounded_zero (I : fs -> Prop) m : bounded I 0 m -> m = Ret tt.
Proof. destruct m as [[] | e | X op k]; simpl; tauto. Qed.

Lemma bounded_outcome (I : fs -> Prop) n m :
  bounded I n m -> outcome m = None \/ m = Ret tt.
Proof. destruct m as [[] | e | X op k]; destruct n; simpl; tauto. Qed.

Lemma bounded_step (I : fs -> Prop) n m (s : fs) :
  bounded I n m -> I s ->
  I (snd (step m s)) /\ bounded I (n - 1) (fst (step m s)).
Proof.
  intros Hb Hs. destruct m as [[] | e | X op k].
  - split; [auto | apply bounded_ret].
  - destruct n; contradiction.
  - destruct n as [| n]; [contradiction |].
    destruct (Hb s Hs) as (x & s' & E & Hs' & Hk). simpl. rewrite E. simpl.
    now rewrite Nat.sub_0_r.
Qed.

Lemma exec_bounded (I : fs -> Prop) (schedule : list nat) :
  forall (pool : list (io unit)) (s : fs) (budget : nat -> nat),
    I s ->
    (forall i m, nth_error pool i = Some m -> bounded I (budget i) m) ->
    I (snd (exec schedule pool s)) /\
    forall i m,
      nth_error (fst (exec schedule pool s)) i = Some m ->
      bounded I (budget i - count_occ Nat.eq_dec schedule i) m.
Proof.
  induction schedule as [| j rest IH]; intros pool s budget Hs Hpool.
  - simpl. split; auto. intros i m H. rewrite Nat.sub_0_r. auto.
  - cbn [exec]. destruct (nth_error pool j) as [m |] eqn:Ej.
    + destruct (bounded_step I (budget j) m s (Hpool j m Ej) Hs) as [Hs' Hm'].
      destruct (step m s) as [m' s'] eqn:Est. cbn [fst snd] in Hs', Hm'.
      destruct (IH (set_nth pool j m') s'
                  (fun i => if Nat.eqb i j then budget j - 1 else budget i)%nat
                  Hs') as [HI Hres].
      { intros i m0. rewrite (nth_error_set_nth pool j i m' m Ej).
        destruct (Nat.eqb i j) eqn:E; auto. now intros [= <-]. }
      split; auto. intros i m0 Hi. specialize (Hres i m0 Hi).
      cbn [count_occ]. destruct (Nat.eq_dec j i) as [-> | Hne].
      * rewrite Nat.eqb_refl in Hres.
        replace (budget i - S (count_occ Nat.eq_dec rest i))%nat
          with (budget i - 1 - count_occ Nat.eq_dec rest i)%nat by lia. auto.
      * destruct (Nat.eqb i j) eqn:E; auto.
        apply Nat.eqb_eq in E. congruence.
    + destruct (IH pool s budget Hs Hpool) as [HI Hres].
      split; auto. intros i m0 Hi. specialize (Hres i m0 Hi).
      cbn [count_occ]. destruct (Nat.eq_dec j i) as [-> | Hne]; auto.
      exfalso. apply nth_error_None in Ej.
      assert (Hlt : (i < List.length (fst (exec rest pool s)))%nat)
        by (apply nth_error_Some; congruence).
      rewrite exec_length in Hlt. lia.
Qed.

Lemma reports_inv_after_write x A (reqs : list ReportReq) (s : fs)
    (jobs : dict) req now fields :
  reports_inv x A reqs s ->
  Forall (owned A jobs) reqs ->
  dict_get jobs (job_id req) = Some (JObj fields) ->
  dict_get fields "agent_id" = Some (JStr A) ->
  reports_inv x A reqs
    (dump_replace (JOBS_FILE ++ ".tmp") JOBS_FILE
       (JObj (dict_set jobs (job_id req) (reported fields req now))) s).
Proof.
  intros [[agents Hc] _] Hown Hg Ho. split.
  - exists agents. rewrite <- Hc. now apply caller_ext.
  - eexists. split.
    + unfold dump_replace, fs_put. now rewrite String.eqb_refl.
    + eapply Forall_impl; [| exact Hown].
      intros r. now apply owned_after_report.
Qed.

(** A report on one of the jobs takes three steps, each of which goes
    through whatever the other reports have done in between. *)
Lemma report_bounded tok A (reqs : list ReportReq) req now :
  tok <> "" ->
  In req reqs ->
  bounded (reports_inv (Some tok) A reqs) 3 (report req (Some tok) now).
Proof.
  intros Htok Hin.
  unfold report, authenticate.
  apply String.eqb_neq in Htok. rewrite Htok. unfold call. cbn [bind].
  apply bounded_sys. intros s Hs.
  destruct Hs as [[agents Hc] Hjobs].
  destruct (caller_inv _ _ _ _ Hc)
    as (t & items & rec & Ht & _ & HA & -> & Hf & Hfind & _).
  injection Ht as <-.
  exists (JObj items), s. split; [unfold read_json; now rewrite Hf |].
  split; [split; eauto |].
  cbn [py_items lift bind]. rewrite Hfind. cbn [lift bind].
  apply String.eqb_neq in HA. rewrite HA. cbn [bind].
  apply bounded_sys. intros s2 Hs2.
  destruct Hs2 as [Hc2 (jobs & Hj & Hown)].
  exists (JObj jobs), s2. split; [unfold read_json; now rewrite Hj |].
  split; [split; eauto |].
  rewrite Forall_forall in Hown. destruct (Hown req Hin) as (fields & Hg & Ho).
  cbn [py_in lift bind]. unfold dict_mem. rewrite Hg.
  cbn [negb py_getitem lift bind]. rewrite Hg.
  cbn [py_get lift bind]. rewrite Ho. cbn [eq_str]. rewrite String.eqb_refl.
  cbn [negb py_setitem lift bind].
  apply bounded_sys. intros s3 Hs3.
  exists tt. eexists. split; [reflexivity |]. split; [| exact I].
  apply reports_inv_after_write; auto.
  now apply Forall_forall.
Qed.

(** A request left alone until it returns does what [run] says. *)
Lemma exec_solo (I : fs -> Prop) n :
  forall (m : io unit) (pool : list (io unit)) i (s : fs),
    bounded I n m ->
    nth_error pool i = Some m ->
    I s ->
    exec (repeat i n) pool s = (set_nth pool i (Ret tt), fst (run m s)) /\
    snd (run m s) = Ok tt /\
    I (fst (run m s)).
Proof.
  induction n as [| n IH]; intros m pool i s Hb Hi Hs.
  - apply bounded_zero in Hb; subst m. cbn [repeat exec run fst snd].
    now rewrite (set_nth_same pool i (Ret tt) Hi).
  - destruct m as [[] | e | X op k]; [| contradiction |].
    + cbn [run fst snd]. repeat split; auto.
      rewrite (set_nth_same pool i (Ret tt) Hi).
      clear IH Hb. induction (S n) as [| c IHc]; cbn [repeat exec]; auto.
      rewrite Hi. cbn [step]. now rewrite (set_nth_same pool i (Ret tt) Hi).
    + cbn [repeat exec]. rewrite Hi. cbn [step run].
      destruct (Hb s Hs) as (x & s' & E & Hs' & Hk). rewrite E.
      destruct (IH (k x) (set_nth pool i (k x)) i s' Hk) as (He & Hr & HI); auto.
      { rewrite (nth_error_set_nth pool i i (k x) _ Hi). now rewrite Nat.eqb_refl. }
      rewrite He, set_nth_twice. auto.
Qed.

Lemma exec_app {A} (a b : list nat) (pool : list (io A)) (s : fs) :
  exec (a ++ b) pool s = exec b (fst (exec a pool s)) (snd (exec a pool s)).
Proof.
  revert pool s; induction a as [| i a IH]; intros pool s; simpl; auto.
  destruct (nth_error pool i) as [m |]; auto.
  destruct (step m s) as [m' s']; auto.
Qed.

Lemma set_nth_middle {A} (l r : list A) (m a : A) :
  set_nth (l ++ m :: r) (List.length l) a = (l ++ a :: r)%list.
Proof.
  induction l as [| x l IH]; simpl; auto. now rewrite IH.
Qed.

Lemma nth_error_middle {A} (l r : list A) (m : A) :
  nth_error (l ++ m :: r) (List.length l) = Some m.
Proof.
  induction l as [| x l IH]; simpl; auto.
Qed.

(** Reports served without overlap: each gets its three steps in a row. *)
Lemma exec_serial (I : fs -> Prop) x (calls : list (ReportReq * Z)) :
  forall (finished : list (io unit)) (s : fs),
    Forall (bounded I 3) (report_pool x calls) ->
    I s ->
    exec (flat_map (fun i => [i; i; i]) (seq (List.length finished) (List.length calls)))
         (finished ++ report_pool x calls) s =
      ((finished ++ map (fun _ => Ret tt) calls)%list, run_all x calls s).
Proof.
  induction calls as [| c rest IH]; intros finished s Hb Hs.
  - reflexivity.
  - change (report_pool x (c :: rest))
      with (report (fst c) x (snd c) :: report_pool x rest) in *.
    cbn [List.length seq flat_map]. rewrite exec_app.
    inversion Hb as [| ? ? Hc Hrest]; subst.
    destruct (exec_solo I 3 _ (finished ++ report (fst c) x (snd c) :: report_pool x rest)
                (List.length finished) s Hc (nth_error_middle _ _ _) Hs)
      as (He & _ & HI).
    change [List.length finished; List.length finished; List.length finished]
      with (repeat (List.length finished) 3).
    rewrite He. cbn [fst snd]. rewrite set_nth_middle.
    change (finished ++ Ret tt :: report_pool x rest)%list
      with (finished ++ [Ret tt] ++ report_pool x rest)%list.
    rewrite app_assoc.
    replace (S (List.length finished)) with (List.length (finished ++ [Ret tt]))
      by (rewrite length_app; simpl; lia).
    rewrite (IH (finished ++ [Ret tt])%list _ Hrest HI).
    now rewrite <- app_assoc.
Qed.

Lemma run_all_records x A (calls : list (ReportReq * Z)) :
  forall (s : fs) agents (jobs : dict),
    caller s x = Ok (agents, A) ->
    s JOBS_FILE = Some (Doc (JObj jobs)) ->
    Forall (fun c => owned A jobs (fst c)) calls ->
    NoDup (map (fun c => job_id (fst c)) calls) ->
    exists jobs',
      run_all x calls s JOBS_FILE = Some (Doc (JObj jobs')) /\
      (forall c, In c calls ->
         exists fields,
           dict_get jobs (job_id (fst c)) = Some (JObj fields) /\
           dict_get jobs' (job_id (fst c)) =
             Some (reported fields (fst c) (snd c))) /\
      (forall k, ~ In k (map (fun c => job_id (fst c)) calls) ->
         dict_get jobs' k = dict_get jobs k).
Proof.
  induction calls as [| [req now] rest IH]; intros s agents jobs Hc Hj Hown Hnd.
  - exists jobs. repeat split; auto. intros c [].
  - inversion Hown as [| ? ? (fields & Hg & Ho) Hown']; subst.
    inversion Hnd as [| ? ? Hnotin Hnd']; subst.
    cbn [fst snd] in *.
    cbn [run_all fold_left fst snd].
    rewrite (run_report_owned s req x now agents A jobs fields Hc Hj Hg Ho).
    cbn [fst].
    set (jobs1 := dict_set jobs (job_id req) (reported fields req now)).
    set (s1 := dump_replace (JOBS_FILE ++ ".tmp") JOBS_FILE (JObj jobs1) s).
    assert (Hc1 : caller s1 x = Ok (agents, A))
      by (rewrite <- Hc; now apply caller_ext).
    assert (Hj1 : s1 JOBS_FILE = Some (Doc (JObj jobs1))) by reflexivity.
    assert (Hown1 : Forall (fun c => owned A jobs1 (fst c)) rest).
    { eapply Forall_impl; [| exact Hown'].
      intros c. now apply owned_after_report. }
    destruct (IH s1 agents jobs1 Hc1 Hj1 Hown1 Hnd')
      as (jobs' & Hj' & Hrec & Hother).
    exists jobs'. split; [exact Hj' |]. split.
    + intros c [<- | Hin].
      * exists fields. cbn [fst snd]. split; auto.
        rewrite (Hother _ Hnotin). apply dict_get_set_same.
      * destruct (Hrec c Hin) as (f & Hg1 & Hg').
        exists f. split; auto.
        rewrite <- Hg1. symmetry. apply dict_get_set_other.
        intros E. apply Hnotin. rewrite <- E.
        now apply (in_map (fun c => job_id (fst c))).
    + intros k Hk. rewrite Hother.
      * apply dict_get_set_other. intros ->. apply Hk. now left.
      * intros Hin. apply Hk. now right.
Qed.

Lemma report_pool_bounded x A (calls : list (ReportReq * Z)) (s : fs) agents :
  caller s x = Ok (agents, A) ->
  Forall (bounded (reports_inv x A (map fst calls)) 3) (report_pool x calls).
Proof.
  intros Hc.
  destruct (caller_inv _ _ _ _ Hc) as (tok & _ & _ & -> & Htok & _).
  apply Forall_forall. intros m Hm.
  apply in_map_iff in Hm. destruct Hm as (c & <- & Hin).
  apply report_bounded; auto. now apply in_map.
Qed.


(* ================================================================== *)
(** * More facts about the handlers *)

Lemma run_report_refused (s : fs) req x now e :
  caller s x = Err e -> run (report req x now) s = (s, Err e).
Proof.
  intros Hc; unfold report; now rewrite run_bind, run_authenticate, Hc.
Qed.

Lemma run_register (s : fs) req a t c l (items : dict) :
  snd (read_json AGENTS_FILE s) = Ok (JObj items) ->
  run (register req a t c l) s =
    (dump_replace (AGENTS_FILE ++ ".tmp") AGENTS_FILE
       (JObj (dict_set items a
          (JObj [ ("agent_id", JStr a); ("token", JStr t);
                  ("hostname", JStr (hostname req));
                  ("ip", JStr (match ip req with Some s => s | None => "" end));
                  ("ssh_pubkey",
                   JStr (match ssh_pubkey req with Some s => s | None => "" end));
                  ("meta", JObj (match meta req with Some m => m | None => [] end));
                  ("created", JInt c); ("last_seen", JInt l) ]))) s,
     Ok (a, t)).
Proof.
  intros Ha. unfold register, call. cbn [bind].
  rewrite (run_read_json AGENTS_FILE _ s _ Ha). reflexivity.
Qed.

Lemma find_agent_new (items : dict) tok aid fields :
  find_agent items tok = Ok None ->
  dict_get fields "token" = Some (JStr tok) ->
  find_agent (dict_set items aid (JObj fields)) tok = Ok (Some aid).
Proof.
  intros Hnone Htok.
  induction items as [| [k a] r IH]; simpl in *.
  - rewrite Htok. simpl. now rewrite String.eqb_refl.
  - destruct (py_get a "token") as [t |] eqn:Ea; try discriminate.
    destruct (eq_str t tok) eqn:Et; try discriminate.
    destruct (String.eqb k aid) eqn:Ek; simpl.
    + apply String.eqb_eq in Ek. subst k.
      rewrite Htok. simpl. now rewrite String.eqb_refl.
    + rewrite Ea, Et. auto.
Qed.

Lemma find_agent_kept (items : dict) tok A aid v :
  find_agent items tok = Ok (Some A) ->
  dict_mem items aid = false ->
  find_agent (dict_set items aid v) tok = Ok (Some A).
Proof.
  unfold dict_mem. intros Hfound Hfresh.
  induction items as [| [k a] r IH]; simpl in *; try discriminate.
  destruct (String.eqb k aid) eqn:Ek; try discriminate. simpl.
  destruct (py_get a "token") as [t |]; try discriminate.
  destruct (eq_str t tok); auto.
Qed.

Lemma caller_found (s : fs) tok (items : dict) A :
  tok <> "" -> A <> "" ->
  s AGENTS_FILE = Some (Doc (JObj items)) ->
  find_agent items tok = Ok (Some A) ->
  caller s (Some tok) = Ok (JObj items, A).
Proof.
  intros Htok HA Hf Hfind. unfold caller, authenticate.
  apply String.eqb_neq in Htok, HA. rewrite Htok.
  unfold call. cbn [bind run]. unfold read_json. rewrite Hf.
  cbn [py_items lift bind run]. rewrite Hfind. cbn [lift bind run].
  now rewrite HA.
Qed.

Lemma pending_jobs_filter (items : dict) A res :
  pending_jobs items A = Ok res ->
  res = filter (is_pending_for A) (dict_values items).
Proof.
  unfold is_pending_for.
  revert res; induction items as [| [jid j] r IH]; simpl; intros res H.
  - now injection H as <-.
  - destruct (py_get j "agent_id") as [a |]; try discriminate.
    destruct (py_get j "status") as [st |]; try discriminate.
    destruct (pending_jobs r A) as [l |]; try discriminate.
    injection H as <-. rewrite (IH l eq_refl).
    now destruct (eq_str a A && eq_str st "pending").
Qed.

Lemma pending_jobs_app (items more : dict) A r1 r2 :
  pending_jobs items A = Ok r1 ->
  pending_jobs more A = Ok r2 ->
  pending_jobs (items ++ more)%list A = Ok (r1 ++ r2)%list.
Proof.
  revert r1; induction items as [| [jid j] r IH]; simpl; intros r1 H1 H2.
  - now injection H1 as <-.
  - destruct (py_get j "agent_id") as [a |]; try discriminate.
    destruct (py_get j "status") as [st |]; try discriminate.
    destruct (pending_jobs r A) as [l |]; try discriminate.
    injection H1 as <-. rewrite (IH l eq_refl H2).
    now destruct (eq_str a A && eq_str st "pending").
Qed.

Lemma dict_set_absent (d : dict) k v :
  dict_mem d k = false -> dict_set d k v = (d ++ [(k, v)])%list.
Proof.
  unfold dict_mem; induction d as [| [k0 v0] r IH]; simpl; auto.
  destruct (String.eqb k0 k); try discriminate.
  intros H. now rewrite IH.
Qed.

Lemma dict_set_twice (d : dict) k v w :
  dict_set (dict_set d k v) k w = dict_set d k w.
Proof.
  induction d as [| [k0 v0] r IH]; simpl.
  - now rewrite String.eqb_refl.
  - destruct (String.eqb k0 k) eqn:E; simpl; rewrite E; auto.
    now rewrite IH.
Qed.

(** Assignments to two keys commute when the first key is already there. *)
Lemma dict_set_swap (d : dict) k1 v1 k2 v2 :
  k1 <> k2 ->
  dict_mem d k1 = true ->
  dict_set (dict_set d k2 v2) k1 v1 = dict_set (dict_set d k1 v1) k2 v2.
Proof.
  unfold dict_mem. intros Hne.
  induction d as [| [k0 v0] r IH]; simpl; try discriminate.
  destruct (String.eqb k0 k1) eqn:E1; destruct (String.eqb k0 k2) eqn:E2; simpl;
    rewrite ?E1, ?E2; auto.
  - apply String.eqb_eq in E1, E2. congruence.
  - intros H. now rewrite IH.
Qed.

Lemma dict_mem_set (d : dict) k v k' :
  dict_mem d k' = true -> dict_mem (dict_set d k v) k' = true.
Proof.
  unfold dict_mem. intros H.
  destruct (String.eqb k k') eqn:E.
  - apply String.eqb_eq in E. subst. now rewrite dict_get_set_same.
  - apply String.eqb_neq in E. rewrite dict_get_set_other by auto. exact H.
Qed.

Lemma dict_mem_set_same (d : dict) k v : dict_mem (dict_set d k v) k = true.
Proof. unfold dict_mem. now rewrite dict_get_set_same. Qed.

(** A later report on a job leaves nothing of an earlier one. *)
Lemma reported_twice (fields fields1 : dict) r1 n1 r2 n2 :
  reported fields r1 n1 = JObj fields1 ->
  reported fields1 r2 n2 = reported fields r2 n2.
Proof.
  unfold reported. intros [= <-]. f_equal.
  set (S1 := dict_set fields "status" (JStr (status r1))).
  rewrite (dict_set_swap (dict_set S1 "output" (opt_str (output r1)))
             "status" (JStr (status r2)) "updated" (JInt n1))
    by (try discriminate; apply dict_mem_set, dict_mem_set_same).
  rewrite (dict_set_swap S1 "status" (JStr (status r2)) "output" _)
    by (try discriminate; apply dict_mem_set_same).
  unfold S1. rewrite dict_set_twice.
  set (S2 := dict_set fields "status" (JStr (status r2))).
  rewrite (dict_set_swap (dict_set S2 "output" (opt_str (output r1)))
             "output" (opt_str (output r2)) "updated" (JInt n1))
    by (try discriminate; apply dict_mem_set_same).
  now rewrite !dict_set_twice.
Qed.

(** Setting [last_seen] in a record changes nobody's token. *)
Lemma find_agent_touch (items : dict) A rec v tok :
  dict_get items A = Some (JObj rec) ->
  find_agent (dict_set items A (JObj (dict_set rec "last_seen" v))) tok =
  find_agent items tok.
Proof.
  induction items as [| [k a] r IH]; simpl; try discriminate.
  destruct (String.eqb k A) eqn:E; simpl.
  - intros [= ->]. simpl.
    now rewrite dict_get_set_other by discriminate.
  - intros H. now rewrite IH.
Qed.

Lemma caller_after_poll (s : fs) y nowy x agents A :
  caller s x = Ok (agents, A) ->
  exists agents', caller (fst (run (poll_jobs y nowy) s)) x = Ok (agents', A).
Proof.
  intros Hc.
  destruct (caller s y) as [[agy B] | e] eqn:Hy.
  - destruct (caller_inv _ _ _ _ Hy)
      as (toky & items & rec & _ & _ & _ & -> & Hf & _ & Hrec).
    rewrite (run_poll_jobs _ _ nowy _ _ _ Hy Hrec). cbn [fst].
    destruct (caller_inv _ _ _ _ Hc)
      as (tok & items' & rec' & -> & Htok & HA & -> & Hf' & Hfind & _).
    rewrite Hf in Hf'. injection Hf' as <-.
    eexists. apply caller_found; auto.
    + unfold dump_replace, fs_put. now rewrite String.eqb_refl.
    + now rewrite find_agent_touch.
  - rewrite (run_poll_jobs_refused _ _ nowy _ Hy). eauto.
Qed.

Lemma caller_after_polls adm (polls : list request) (s : fs) x agents A :
  Forall is_poll polls ->
  caller s x = Ok (agents, A) ->
  exists agents', caller (after adm polls s) x = Ok (agents', A).
Proof.
  intros H; revert s agents; induction H as [| r h Hr _ IH]; intros s agents Hc.
  - eauto.
  - destruct r; try contradiction. cbn [after fold_left serve].
    destruct (caller_after_poll s x_agent_token now x agents A Hc) as [ag' Hc'].
    exact (IH _ _ Hc').
Qed.

Lemma run_create_job adm (s : fs) payload x jid t1 t2 (agents jobs : dict) a :
  require_admin adm x = Ok tt ->
  snd (read_json AGENTS_FILE s) = Ok (JObj agents) ->
  snd (read_json JOBS_FILE s) = Ok (JObj jobs) ->
  payload_get payload "agent_id" JNull = JStr a ->
  dict_mem agents a = true ->
  run (create_job adm payload x jid t1 t2) s =
    (dump_replace (JOBS_FILE ++ ".tmp") JOBS_FILE
       (JObj (dict_set jobs jid (new_job payload jid t1 t2))) s,
     Ok jid).
Proof.
  intros Hadm Ha Hj Hp Hm.
  unfold create_job. rewrite run_bind, Hadm. cbn [lift run].
  unfold call. cbn [bind].
  rewrite (run_read_json AGENTS_FILE _ s _ Ha). cbn [bind].
  rewrite (run_read_json JOBS_FILE _ s _ Hj). cbn [bind].
  rewrite Hp. cbn [py_in lift bind]. rewrite Hm. cbn [negb].
  unfold new_job. rewrite Hp. reflexivity.
Qed.

Lemma dict_get_nil k : dict_get [] k = None.
Proof. reflexivity. Qed.

Lemma same_but_refl except fields : same_but except fields fields.
Proof. now intros field _. Qed.

Lemma same_but_trans except f1 f2 f3 :
  same_but except f1 f2 -> same_but except f2 f3 -> same_but except f1 f3.
Proof.
  intros H12 H23 field Hf. now rewrite (H23 field Hf), (H12 field Hf).
Qed.

Lemma same_but_reported fields fields' req now :
  reported fields req now = JObj fields' ->
  same_but ["status"; "output"; "updated"] fields fields'.
Proof.
  unfold reported. intros [= <-] field Hf.
  rewrite !dict_get_set_other; auto; intros ->; apply Hf; simpl; auto.
Qed.

Lemma same_but_touch rec v :
  same_but ["last_seen"] rec (dict_set rec "last_seen" v).
Proof.
  intros field Hf. apply dict_get_set_other. intros ->. apply Hf. now left.
Qed.

(** One request keeps a job that it does not create anew. *)
Lemma serve_keeps_job adm (s : fs) (r : request) (jobs : dict) jid fields :
  s JOBS_FILE = Some (Doc (JObj jobs)) ->
  dict_get jobs jid = Some (JObj fields) ->
  ~ creates_job jid r ->
  exists jobs' fields',
    serve adm s r JOBS_FILE = Some (Doc (JObj jobs')) /\
    dict_get jobs' jid = Some (JObj fields') /\
    same_but ["status"; "output"; "updated"] fields fields'.
Proof.
  intros Hf Hg Hr.
  assert (Hsame : forall s', s' JOBS_FILE = s JOBS_FILE ->
            exists jobs' fields',
              s' JOBS_FILE = Some (Doc (JObj jobs')) /\
              dict_get jobs' jid = Some (JObj fields') /\
              same_but ["status"; "output"; "updated"] fields fields').
  { intros s' E. exists jobs, fields. rewrite E.
    split; [| split]; auto. apply same_but_refl. }
  destruct r; cbn [serve].
  - destruct (run_register_cases s req agent_id agent_token t_created t_last_seen)
      as [[e ->] | [a' ->]]; apply Hsame; reflexivity.
  - apply Hsame. now rewrite list_agents_reads.
  - destruct (run_create_job_cases adm s payload x_admin_token new_job_id
                t_created t_updated) as [[e ->] | (jobs0 & Hj & ->)];
      [apply Hsame; reflexivity |].
    apply (ledger_ok_read _ _ _ Hf) in Hj. injection Hj as ->.
    eexists. exists fields. split.
    + cbn [fst]. unfold dump_replace, fs_put. now rewrite String.eqb_refl.
    + split; [| apply same_but_refl].
      rewrite dict_get_set_other by (intros ->; now apply Hr). exact Hg.
  - apply Hsame. now rewrite list_jobs_reads.
  - destruct (run_poll_jobs_cases s x_agent_token now)
      as [[e ->] | (a' & r & ->)]; apply Hsame; reflexivity.
  - destruct (run_report_cases s req x_agent_token now)
      as [[e ->] | (agents & A & jobs0 & f0 & _ & Hj & Hg0 & _ & ->)];
      [apply Hsame; reflexivity |].
    apply (ledger_ok_read _ _ _ Hf) in Hj. injection Hj as ->.
    destruct (String.eqb jid (job_id req)) eqn:E.
    + apply String.eqb_eq in E. subst jid.
      rewrite Hg in Hg0. injection Hg0 as <-.
      destruct (reported fields req now) as [| | | | | | fields'] eqn:Hrep;
        try discriminate Hrep.
      exists (dict_set jobs (job_id req) (JObj fields')), fields'. split.
      * cbn [fst]. unfold dump_replace, fs_put. now rewrite String.eqb_refl.
      * split; [apply dict_get_set_same |].
        eapply same_but_reported; eauto.
    + apply String.eqb_neq in E.
      eexists. exists fields. split.
      * cbn [fst]. unfold dump_replace, fs_put. now rewrite String.eqb_refl.
      * split; [| apply same_but_refl]. now rewrite dict_get_set_other.
  - destruct (run_upload_env_file_cases adm s env_file env_json x_admin_token hex)
      as [[e ->] | (data & ->)]; apply Hsame; reflexivity.
  - apply Hsame. now rewrite download_env_reads.
Qed.

(** One request keeps an agent that it does not register anew. *)
Lemma serve_keeps_agent adm (s : fs) (r : request) (items : dict) aid rec :
  s AGENTS_FILE = Some (Doc (JObj items)) ->
  dict_get items aid = Some (JObj rec) ->
  ~ registers_agent aid r ->
  exists items' rec',
    serve adm s r AGENTS_FILE = Some (Doc (JObj items')) /\
    dict_get items' aid = Some (JObj rec') /\
    same_but ["last_seen"] rec rec'.
Proof.
  intros Hf Hg Hr.
  assert (Hsame : forall s', s' AGENTS_FILE = s AGENTS_FILE ->
            exists items' rec',
              s' AGENTS_FILE = Some (Doc (JObj items')) /\
              dict_get items' aid = Some (JObj rec') /\
              same_but ["last_seen"] rec rec').
  { intros s' E. exists items, rec. rewrite E.
    split; [| split]; auto. apply same_but_refl. }
  assert (Ha : snd (read_json AGENTS_FILE s) = Ok (JObj items))
    by (unfold read_json; now rewrite Hf).
  destruct r; cbn [serve].
  - rewrite (run_register s req agent_id agent_token t_created t_last_seen items Ha).
    cbn [fst]. eexists. exists rec. split.
    + unfold dump_replace, fs_put. now rewrite String.eqb_refl.
    + split; [| apply same_but_refl].
      rewrite dict_get_set_other by (intros ->; now apply Hr). exact Hg.
  - apply Hsame. now rewrite list_agents_reads.
  - destruct (run_create_job_cases adm s payload x_admin_token new_job_id
                t_created t_updated) as [[e ->] | (jobs0 & Hj & ->)];
      apply Hsame; reflexivity.
  - apply Hsame. now rewrite list_jobs_reads.
  - destruct (caller s x_agent_token) as [[agents A] | e] eqn:Hc.
    + destruct (caller_inv _ _ _ _ Hc)
        as (tok & items0 & rec0 & _ & _ & _ & -> & Hf0 & _ & Hrec).
      rewrite Hf in Hf0. injection Hf0 as <-.
      rewrite (run_poll_jobs _ _ now _ _ _ Hc Hrec). cbn [fst].
      destruct (String.eqb aid A) eqn:E.
      * apply String.eqb_eq in E. subst A.
        rewrite Hg in Hrec. injection Hrec as <-.
        eexists. eexists. split.
        -- unfold dump_replace, fs_put. now rewrite String.eqb_refl.
        -- split; [apply dict_get_set_same | apply same_but_touch].
      * apply String.eqb_neq in E.
        eexists. exists rec. split.
        -- unfold dump_replace, fs_put. now rewrite String.eqb_refl.
        -- split; [| apply same_but_refl]. now rewrite dict_get_set_other.
    + rewrite (run_poll_jobs_refused _ _ now _ Hc). now apply Hsame.
  - destruct (run_report_cases s req x_agent_token now)
      as [[e ->] | (agents & A & jobs0 & f0 & _ & Hj & Hg0 & _ & ->)];
      apply Hsame; reflexivity.
  - destruct (run_upload_env_file_cases adm s env_file env_json x_admin_token hex)
      as [[e ->] | (data & ->)]; apply Hsame; reflexivity.
  - apply Hsame. now rewrite download_env_reads.
Qed.

(** ** Stores that only the service has written *)

Lemma Forall_values_set (d : dict) k v :
  Forall is_object (dict_values d) -> is_object v ->
  Forall is_object (dict_values (dict_set d k v)).
Proof.
  unfold dict_values. intros H Hv.
  induction d as [| [k0 v0] r IH]; simpl.
  - now constructor.
  - inversion H; subst. destruct (String.eqb k0 k); simpl; constructor; auto.
Qed.

Lemma dict_get_object (d : dict) k v :
  Forall is_object (dict_values d) -> dict_get d k = Some v -> is_object v.
Proof.
  intros H Hg. rewrite Forall_forall in H. apply H.
  apply dict_get_in in Hg. now apply (in_map snd) in Hg.
Qed.

Lemma dump_replace_parses tmp path data (s : fs) :
  (forall p, s p <> Some Garbled) ->
  forall p, dump_replace tmp path data s p <> Some Garbled.
Proof.
  intros H p. unfold dump_replace, fs_put.
  destruct (String.eqb p path); [discriminate |].
  destruct (String.eqb p tmp); [discriminate | apply H].
Qed.

Lemma find_agent_total (items : dict) tok :
  Forall is_object (dict_values items) ->
  exists found, find_agent items tok = Ok found.
Proof.
  unfold dict_values.
  induction items as [| [aid a] r IH]; simpl; intros H; eauto.
  inversion H as [| ? ? [f ->] Hr]; subst. simpl.
  destruct (eq_str _ tok); eauto.
Qed.

Lemma pending_jobs_total (items : dict) A :
  Forall is_object (dict_values items) ->
  exists res, pending_jobs items A = Ok res.
Proof.
  unfold dict_values.
  induction items as [| [jid j] r IH]; simpl; intros H; eauto.
  inversion H as [| ? ? [f ->] Hr]; subst. simpl.
  destruct (IH Hr) as [res ->]. eauto.
Qed.

Lemma caller_http (s : fs) x : store_sound s -> http_only (caller s x).
Proof.
  intros (_ & (items & Hf & Hobj) & _).
  unfold caller, authenticate.
  destruct x as [t |]; [| exact I].
  destruct (String.eqb t ""); [exact I |].
  unfold call. cbn [bind run]. unfold read_json. rewrite Hf.
  cbn [py_items lift bind run].
  destruct (find_agent_total items t Hobj) as [[a |] ->]; cbn [lift bind run snd];
    [| exact I].
  destruct (String.eqb a ""); exact I.
Qed.

Lemma run_poll_jobs_http (s : fs) x now :
  store_sound s -> http_only (snd (run (poll_jobs x now) s)).
Proof.
  intros Hs. pose proof (caller_http s x Hs) as Hh.
  destruct Hs as (_ & _ & (jobs & Hj & Hobj)).
  destruct (caller s x) as [[agents A] | e] eqn:Hc.
  - destruct (caller_inv _ _ _ _ Hc)
      as (tok & items & rec & _ & _ & _ & -> & _ & _ & Hrec).
    rewrite (run_poll_jobs _ _ now _ _ _ Hc Hrec). cbn [snd].
    unfold read_json. rewrite Hj. cbn [snd py_items].
    now destruct (pending_jobs_total jobs A Hobj) as [res ->].
  - now rewrite (run_poll_jobs_refused _ _ now _ Hc).
Qed.

Lemma run_report_http (s : fs) req x now :
  store_sound s -> http_only (snd (run (report req x now) s)).
Proof.
  intros Hs. pose proof (caller_http s x Hs) as Hh.
  destruct Hs as (_ & _ & (jobs & Hj & Hobj)).
  destruct (caller s x) as [[agents A] | e] eqn:Hc.
  - unfold report. rewrite run_bind, run_authenticate, Hc. unfold call. cbn [bind].
    assert (Hr : snd (read_json JOBS_FILE s) = Ok (JObj jobs))
      by (unfold read_json; now rewrite Hj).
    rewrite (run_read_json JOBS_FILE _ s _ Hr). cbn [py_in lift bind].
    unfold dict_mem.
    destruct (dict_get jobs (job_id req)) as [job |] eqn:Hg;
      cbn [negb run snd]; [| exact I].
    destruct (dict_get_object jobs _ _ Hobj Hg) as [fields ->].
    cbn [py_getitem lift bind]. rewrite Hg. cbn [py_get lift bind].
    destruct (eq_str _ A); cbn [negb run snd py_setitem lift bind]; exact I.
  - now rewrite (run_report_refused _ req _ now _ Hc).
Qed.

Lemma run_download_env_http (s : fs) T x :
  store_sound s ->
  http_only (snd (run (download_env T x) s)) \/
  exists v, s (env_path T) = Some (Doc v) /\ renderable v = false /\
            snd (run (download_env T x) s) = Err PyError.
Proof.
  intros Hs. pose proof (caller_http s x Hs) as Hh.
  destruct Hs as (Hparse & _ & (jobs & Hj & Hobj)).
  destruct (caller s x) as [[agents A] | e] eqn:Hc.
  - rewrite (run_download_env _ T _ _ _ Hc). cbn [snd].
    unfold read_json. rewrite Hj. cbn [snd py_items].
    destruct (references_env_total _ A T Hobj) as [[|] ->];
      [| left; exact I].
    specialize (Hparse (env_path T)).
    destruct (s (env_path T)) as [[| v] |]; [congruence | | left; exact I].
    unfold JSONResponse. destruct (renderable v) eqn:Hr.
    + left; exact I.
    + right. exists v. auto.
  - left. now rewrite (run_download_env_refused _ T _ _ Hc).
Qed.

Lemma serve_store_sound adm (s : fs) (r : request) :
  store_sound s -> store_sound (serve adm s r).
Proof.
  intros Hs.
  pose proof Hs as (Hparse & (items & Ha & Hia) & (jobs & Hj & Hij)).
  assert (Hra : snd (read_json AGENTS_FILE s) = Ok (JObj items))
    by (unfold read_json; now rewrite Ha).
  destruct r; cbn [serve].
  - rewrite (run_register s req agent_id agent_token t_created t_last_seen items Hra).
    cbn [fst]. split; [now apply dump_replace_parses |]. split.
    + eexists. split.
      * unfold dump_replace, fs_put. now rewrite String.eqb_refl.
      * apply Forall_values_set; auto. eexists; reflexivity.
    + exists jobs. split; auto.
  - now rewrite list_agents_reads.
  - destruct (run_create_job_cases adm s payload x_admin_token new_job_id
                t_created t_updated) as [[e ->] | (jobs0 & Hj0 & ->)]; auto.
    apply (ledger_ok_read _ _ _ Hj) in Hj0. injection Hj0 as ->.
    cbn [fst]. split; [now apply dump_replace_parses |]. split.
    + exists items. split; auto.
    + eexists. split.
      * unfold dump_replace, fs_put. now rewrite String.eqb_refl.
      * apply Forall_values_set; auto. eexists; reflexivity.
  - now rewrite list_jobs_reads.
  - destruct (caller s x_agent_token) as [[agents A] | e] eqn:Hc.
    + destruct (caller_inv _ _ _ _ Hc)
        as (tok & items0 & rec0 & _ & _ & _ & -> & Hf0 & _ & Hrec).
      rewrite Ha in Hf0. injection Hf0 as <-.
      rewrite (run_poll_jobs _ _ now _ _ _ Hc Hrec). cbn [fst].
      split; [now apply dump_replace_parses |]. split.
      * eexists. split.
        -- unfold dump_replace, fs_put. now rewrite String.eqb_refl.
        -- apply Forall_values_set; auto. eexists; reflexivity.
      * exists jobs. split; auto.
    + now rewrite (run_poll_jobs_refused _ _ now _ Hc).
  - destruct (run_report_cases s req x_agent_token now)
      as [[e ->] | (agents & A & jobs0 & f0 & _ & Hj0 & Hg0 & _ & ->)]; auto.
    apply (ledger_ok_read _ _ _ Hj) in Hj0. injection Hj0 as ->.
    cbn [fst]. split; [now apply dump_replace_parses |]. split.
    + exists items. split; auto.
    + eexists. split.
      * unfold dump_replace, fs_put. now rewrite String.eqb_refl.
      * apply Forall_values_set; auto. eexists; reflexivity.
  - destruct (run_upload_env_file_cases adm s env_file env_json x_admin_token hex)
      as [[e ->] | (data & ->)]; auto.
    cbn [fst]. split; [now apply dump_replace_parses |]. split.
    + exists items. split; auto.
    + exists jobs. split; auto.
  - now rewrite download_env_reads.
Qed.

Lemma reachable_store_sound adm (s : fs) : reachable adm s -> store_sound s.
Proof.
  intros [history ->].
  assert (H0 : store_sound fs_init).
  { split; [| split].
    - intros p. unfold fs_init, fs_put.
      destruct (String.eqb p JOBS_FILE); [discriminate |].
      destruct (String.eqb p AGENTS_FILE); discriminate.
    - exists []. split; [reflexivity | constructor].
    - exists []. split; [reflexivity | constructor]. }
  revert H0. generalize fs_init.
  induction history as [| r h IH]; intros s Hs; simpl; auto.
  apply IH. now apply serve_store_sound.
Qed.

Lemma require_admin_err adm x e :
  require_admin adm x = Err e -> e = HTTPException 403 "invalid admin token".
Proof.
  unfold require_admin.
  destruct adm as [a |]; try discriminate.
  destruct (String.eqb a ""); try discriminate.
  destruct x as [t |]; [| now intros [= <-]].
  destruct (String.eqb t "" || negb (String.eqb t a)); [now intros [= <-] | discriminate].
Qed.

(** ** Escaping *)

Lemma string_app_assoc (a b c : string) : (a ++ b) ++ c = a ++ (b ++ c).
Proof. induction a as [| x a IH]; simpl; auto. now rewrite IH. Qed.

Lemma replace_char_app old new (a b : string) :
  replace_char old new (a ++ b) = replace_char old new a ++ replace_char old new b.
Proof.
  induction a as [| c a IH]; simpl; auto.
  destruct (Ascii.eqb c old); rewrite IH; simpl; auto.
  now rewrite string_app_assoc.
Qed.

Lemma escape_value_app (a b : string) :
  escape_value (a ++ b) = escape_value a ++ escape_value b.
Proof.
  unfold escape_value. now rewrite !replace_char_app.
Qed.

(** What becomes of one character. *)
Lemma escape_value_char (c : ascii) :
  escape_value (String c "") =
    if Ascii.eqb c backslash then String backslash (String backslash "")
    else if Ascii.eqb c dquote then String backslash (String dquote "")
    else if Ascii.eqb c newline then String backslash "n"
    else String c "".
Proof.
  unfold escape_value. cbn [replace_char].
  destruct (Ascii.eqb c backslash) eqn:Eb; [reflexivity |].
  cbn [replace_char append].
  destruct (Ascii.eqb c dquote) eqn:Eq; [reflexivity |].
  cbn [replace_char append].
  destruct (Ascii.eqb c newline) eqn:En; reflexivity.
Qed.

Lemma escape_value_cons (c : ascii) (r : string) :
  escape_value (String c r) = escape_value (String c "") ++ escape_value r.
Proof.
  change (String c r) with (String c "" ++ r). apply escape_value_app.
Qed.

Lemma unescape_escape (s : string) : unescape_value (escape_value s) = s.
Proof.
  induction s as [| c r IH]; [reflexivity |].
  rewrite escape_value_cons, escape_value_char.
  destruct (Ascii.eqb c backslash) eqn:Eb.
  { apply Ascii.eqb_eq in Eb. subst c. simpl. now rewrite IH. }
  destruct (Ascii.eqb c dquote) eqn:Eq.
  { apply Ascii.eqb_eq in Eq. subst c. simpl. now rewrite IH. }
  destruct (Ascii.eqb c newline) eqn:En.
  { apply Ascii.eqb_eq in En. subst c. simpl. now rewrite IH. }
  simpl. rewrite Eb. now rewrite IH.
Qed.

Lemma well_escaped_escape (s : string) : well_escaped (escape_value s) = true.
Proof.
  induction s as [| c r IH]; [reflexivity |].
  rewrite escape_value_cons, escape_value_char.
  destruct (Ascii.eqb c backslash) eqn:Eb; [simpl; now rewrite IH |].
  destruct (Ascii.eqb c dquote) eqn:Eq; [simpl; now rewrite IH |].
  destruct (Ascii.eqb c newline) eqn:En; [simpl; now rewrite IH |].
  simpl. now rewrite Eb, Eq, En, IH.
Qed.

Lemma count_char_app c (a b : string) :
  count_char c (a ++ b) = (count_char c a + count_char c b)%nat.
Proof.
  induction a as [| d a IH]; simpl; auto. rewrite IH. lia.
Qed.

Lemma well_escaped_one_line (s : string) :
  well_escaped s = true -> count_char newline s = 0%nat.
Proof.
  assert (H : forall n s, (String.length s <= n)%nat ->
                well_escaped s = true -> count_char newline s = 0%nat).
  { induction n as [| n IH]; intros [| c r] Hlen Hw; simpl in *; auto; try lia.
    destruct (Ascii.eqb c backslash) eqn:Eb.
    - apply Ascii.eqb_eq in Eb. subst c.
      destruct r as [| d r']; [discriminate |].
      apply andb_true_iff in Hw. destruct Hw as [Hd Hw].
      simpl in *.
      assert (Hn : Ascii.eqb d newline = false).
      { destruct (Ascii.eqb d newline) eqn:E; auto.
        apply Ascii.eqb_eq in E. subst d. discriminate Hd. }
      rewrite Hn. simpl. apply IH; auto. lia.
    - apply andb_true_iff in Hw. destruct Hw as [Hc Hw].
      apply andb_true_iff in Hc. destruct Hc as [_ Hc].
      apply negb_true_iff in Hc. rewrite Hc. simpl. apply IH; auto. lia. }
  apply (H (String.length s)). lia.
Qed.

Lemma count_char_concat (lines : list string) :
  Forall (fun l => count_char newline l = 0%nat) lines ->
  count_char newline (String.concat (String newline "") lines) =
    Nat.pred (List.length lines).
Proof.
  induction 1 as [| l r Hl Hr IH]; [reflexivity |].
  destruct r as [| l' r'].
  - exact Hl.
  - change (String.concat (String newline "") (l :: l' :: r'))
      with (l ++ String newline "" ++ String.concat (String newline "") (l' :: r')).
    rewrite !count_char_app, Hl, IH. reflexivity.
Qed.

Lemma env_lines_filter blank py_repr (env : dict) :
  env_lines blank py_repr env =
    map (fun kv =>
           fst kv ++ "=" ++
           String dquote (escape_value (value_text py_repr (snd kv)) ++ String dquote ""))
        (filter (fun kv => negb (blank (fst kv))) env).
Proof.
  induction env as [| [k v] r IH]; simpl; auto.
  destruct (blank k); simpl; now rewrite IH.
Qed.

(** ** Path segments *)

Lemma is_substring_slash_cons (c : ascii) (r : string) :
  is_substring "/" (String c r) = Ascii.eqb c "/"%char || is_substring "/" r.
Proof.
  cbn [is_substring String.prefix].
  destruct (ascii_dec "/" c) as [<- | Hne].
  - now destruct r.
  - destruct (Ascii.eqb c "/"%char) eqn:E; auto.
    apply Ascii.eqb_eq in E. congruence.
Qed.

Lemma is_substring_slash_app (a b : string) :
  is_substring "/" (a ++ b) = is_substring "/" a || is_substring "/" b.
Proof.
  induction a as [| c a IH].
  - simpl. now destruct b.
  - change (String c a ++ b) with (String c (a ++ b)).
    rewrite !is_substring_slash_cons, IH. now rewrite orb_assoc.
Qed.

Lemma basename_after_slash (dir b : string) :
  is_substring "/" b = false -> basename (dir ++ String "/" b) = b.
Proof.
  intros Hb. induction dir as [| c d IH].
  - cbn [append basename]. now rewrite Hb.
  - change (String c d ++ String "/" b) with (String c (d ++ String "/" b)).
    cbn [basename]. rewrite is_substring_slash_app, is_substring_slash_cons.
    cbn [Ascii.eqb Bool.eqb orb]. rewrite orb_true_r. exact IH.
Qed.

Lemma basename_spec (p : string) :
  is_substring "/" (basename p) = false /\
  exists dir,
    p = dir ++ basename p /\
    (dir = "" \/ exists d, dir = d ++ "/").
Proof.
  induction p as [| c r (Hfree & dir & Hr & Hdir)].
  - split; [reflexivity |]. exists "". auto.
  - cbn [basename]. destruct (is_substring "/" r) eqn:Es.
    + split; [exact Hfree |]. exists (String c dir). split.
      * simpl. now rewrite <- Hr.
      * right. destruct Hdir as [-> | [d ->]].
        -- simpl in Hr. rewrite <- Hr in Hfree. congruence.
        -- exists (String c d). reflexivity.
    + destruct (Ascii.eqb c "/"%char) eqn:Ec.
      * apply Ascii.eqb_eq in Ec. subst c.
        split; [exact Es |]. exists "/". split; [reflexivity |].
        right. now exists "".
      * split; [rewrite is_substring_slash_cons, Ec, Es; reflexivity |].
        exists "". auto.
Qed.

Lemma strip_suffix_spec (suffix s b : string) :
  strip_suffix suffix s = Some b -> s = b ++ suffix.
Proof.
  revert b; induction s as [| c r IH]; intros b; cbn [strip_suffix].
  - destruct (String.eqb "" suffix) eqn:E; [| discriminate].
    apply String.eqb_eq in E. now intros [= <-].
  - destruct (String.eqb (String c r) suffix) eqn:E.
    + apply String.eqb_eq in E. now intros [= <-].
    + destruct (strip_suffix suffix r) as [b' |]; [| discriminate].
      intros [= <-]. simpl. now rewrite (IH b' eq_refl).
Qed.

Lemma strip_suffix_complete (suffix b : string) :
  exists b', strip_suffix suffix (b ++ suffix) = Some b'.
Proof.
  induction b as [| c b [b' IH]].
  - exists "". cbn [append]. destruct suffix; cbn [strip_suffix];
      now rewrite String.eqb_refl.
  - change (String c b ++ suffix) with (String c (b ++ suffix)).
    cbn [strip_suffix].
    destruct (String.eqb (String c (b ++ suffix)) suffix).
    + now exists "".
    + rewrite IH. now exists (String c b').
Qed.

(* ================================================================== *)
(** * The store *)

(** C7.  [read_json] returns the empty mapping when no file exists at the
    path, and raises the fatal read error, instead of returning an empty
    mapping, when a file is there but does not parse; the error ends the
    handler that asked for the document, whatever it was going to do with
    it. *)
Theorem read_json_absent_or_malformed (s : fs) (path : string) :
  (s path = None -> read_json path s = (s, Ok (JObj []))) /\
  (s path = Some Garbled ->
     read_json path s = (s, Err (RuntimeError ("failed to read json " ++ path))) /\
     forall A (handler : json -> io A),
       run (document <- call (read_json path) ;; handler document) s =
         (s, Err (RuntimeError ("failed to read json " ++ path)))).
Proof.
  unfold read_json; split; intros E.
  - now rewrite E.
  - split; [now rewrite E |].
    intros A handler. unfold call. cbn [bind run]. now rewrite E.
Qed.

Lemma read_json_absent_or_malformed_witness :
  read_json JOBS_FILE (fun _ => None) = (fun _ => None, Ok (JObj [])) /\
  snd (read_json JOBS_FILE (fs_put JOBS_FILE (Some Garbled) fs_init)) =
    Err (RuntimeError "failed to read json /var/lib/orch_b/jobs.json") /\
  snd (run (list_jobs None None) (fs_put JOBS_FILE (Some Garbled) fs_init)) =
    Err (RuntimeError "failed to read json /var/lib/orch_b/jobs.json").
Proof.
  split.
  - apply (proj1 (read_json_absent_or_malformed (fun _ => None) JOBS_FILE)).
    reflexivity.
  - destruct (proj2 (read_json_absent_or_malformed
                       (fs_put JOBS_FILE (Some Garbled) fs_init) JOBS_FILE)
                eq_refl) as [Hload Hhandler].
    split.
    + now rewrite Hload.
    + exact (f_equal snd (Hhandler json (fun document => Ret document))).
Defined.

(* ================================================================== *)
(** * The job ledger *)

(** C4.  A report that presents a valid agent token, for a job whose
    [agent_id] is not the caller's, fails with [AuthError] (403) and leaves
    the store as it was: the jobs document, and with it the job's [status],
    [output] and [updated], is unchanged. *)
Theorem report_by_non_owner_rejected
    (s : fs) (req : ReportReq) x now agents A jobs job owner :
  caller s x = Ok (agents, A) ->
  s JOBS_FILE = Some (Doc jobs) ->
  py_getitem jobs (job_id req) = Ok job ->
  py_get job "agent_id" = Ok owner ->
  owner <> JStr A ->
  run (report req x now) s =
    (s, Err (AuthError "job does not belong to this agent")) /\
  fst (run (report req x now) s) JOBS_FILE = Some (Doc jobs).
Proof.
  intros Hc Hj Hg Ho Hne.
  rewrite (run_report_foreign s req x now _ _ _ _ _ Hc Hj Hg Ho Hne); auto.
Qed.

Lemma report_by_non_owner_rejected_witness :
  run (report {| job_id := "job-1"; status := "done"; output := Some "ok" |}
         (Some "tok-b") 30) s_job =
    (s_job, Err (AuthError "job does not belong to this agent")) /\
  fst (run (report {| job_id := "job-1"; status := "done"; output := Some "ok" |}
              (Some "tok-b") 30) s_job) JOBS_FILE =
    Some (Doc (JObj [("job-1", demo_job)])).
Proof.
  eapply report_by_non_owner_rejected with (A := "agent-b") (job := demo_job).
  - reflexivity.
  - reflexivity.
  - reflexivity.
  - reflexivity.
  - discriminate.
Defined.

(** C5.  A job addressed to agent [A] is never in the list that [poll_jobs]
    returns to a caller authenticated as another agent [B], whatever the
    store holds. *)
Theorem poll_jobs_never_returns_foreign_job
    (s s' : fs) x now agents A B job res :
  caller s x = Ok (agents, B) ->
  py_get job "agent_id" = Ok (JStr A) ->
  A <> B ->
  run (poll_jobs x now) s = (s', Ok res) ->
  ~ In job res.
Proof.
  intros Hc Hjob Hne Hrun Hin.
  destruct (caller_inv _ _ _ _ Hc) as (tok & items & rec & _ & _ & _ & -> & _ & _ & Hrec).
  rewrite (run_poll_jobs _ _ now _ _ _ Hc Hrec) in Hrun.
  inversion Hrun as [[Hs Hres]]; clear Hrun.
  destruct (snd (read_json JOBS_FILE s)) as [jobs |]; try discriminate.
  destruct (py_items jobs) as [its |]; try discriminate.
  destruct (pending_jobs_sound _ _ _ _ Hres Hin) as (_ & Ha & _).
  rewrite Hjob in Ha; inversion Ha; contradiction.
Qed.

Lemma poll_jobs_never_returns_foreign_job_witness :
  snd (run (poll_jobs (Some "tok-b") 30) s_job_b) = Ok [demo_job3] /\
  ~ In demo_job [demo_job3].
Proof.
  split; [reflexivity |].
  eapply poll_jobs_never_returns_foreign_job
    with (s := s_job_b) (x := Some "tok-b") (now := 30) (A := "agent-a")
         (B := "agent-b").
  - reflexivity.
  - reflexivity.
  - discriminate.
  - reflexivity.
Defined.

(** C9.  A successful [poll_jobs] writes the agents document back with one
    change, the [last_seen] field of the caller's record: the other fields
    of that record, the other agent records and the jobs document are as
    before. *)
Theorem poll_jobs_touches_only_last_seen (s s' : fs) x now res :
  run (poll_jobs x now) s = (s', Ok res) ->
  exists items A rec,
    caller s x = Ok (JObj items, A) /\
    dict_get items A = Some (JObj rec) /\
    let rec' := dict_set rec "last_seen" (JInt now) in
    let items' := dict_set items A (JObj rec') in
    s' AGENTS_FILE = Some (Doc (JObj items')) /\
    (forall field, field <> "last_seen" ->
       dict_get rec' field = dict_get rec field) /\
    (forall aid, aid <> A -> dict_get items' aid = dict_get items aid) /\
    dict_keys items' = dict_keys items /\
    s' JOBS_FILE = s JOBS_FILE /\
    (forall p, p <> AGENTS_FILE -> p <> AGENTS_FILE ++ ".tmp" -> s' p = s p).
Proof.
  intros Hrun.
  destruct (caller s x) as [[agents A] | e] eqn:Hc.
  - destruct (caller_inv _ _ _ _ Hc)
      as (tok & items & rec & _ & _ & _ & -> & _ & _ & Hrec).
    rewrite (run_poll_jobs _ _ now _ _ _ Hc Hrec) in Hrun.
    inversion Hrun as [[Hs Hres]]; clear Hrun Hres.
    exists items, A, rec.
    repeat split; auto.
    + intros field Hf. now apply dict_get_set_other.
    + intros aid Ha. now apply dict_get_set_other.
    + apply dict_keys_set_present. unfold dict_mem. now rewrite Hrec.
    + intros p Hp Ht. unfold dump_replace, fs_put.
      apply String.eqb_neq in Hp, Ht.
      change (AGENTS_FILE ++ ".tmp") with "/var/lib/orch_b/agents.json.tmp" in Ht.
      now rewrite Hp, Ht.
  - rewrite (run_poll_jobs_refused _ _ now _ Hc) in Hrun. discriminate.
Qed.

Lemma poll_jobs_touches_only_last_seen_witness :
  exists items A rec,
    caller s_job (Some "tok-a") = Ok (JObj items, A) /\
    dict_get items A = Some (JObj rec) /\
    let rec' := dict_set rec "last_seen" (JInt 30) in
    let items' := dict_set items A (JObj rec') in
    fst (run (poll_jobs (Some "tok-a") 30) s_job) AGENTS_FILE =
      Some (Doc (JObj items')) /\
    (forall field, field <> "last_seen" ->
       dict_get rec' field = dict_get rec field) /\
    (forall aid, aid <> A -> dict_get items' aid = dict_get items aid) /\
    dict_keys items' = dict_keys items /\
    fst (run (poll_jobs (Some "tok-a") 30) s_job) JOBS_FILE = s_job JOBS_FILE /\
    (forall p, p <> AGENTS_FILE -> p <> AGENTS_FILE ++ ".tmp" ->
       fst (run (poll_jobs (Some "tok-a") 30) s_job) p = s_job p).
Proof.
  apply (poll_jobs_touches_only_last_seen s_job _ (Some "tok-a") 30 [demo_job]).
  reflexivity.
Defined.

(* ================================================================== *)
(** * The env bundle broker *)

(** C10.  [download_env] derives the authorization before it looks for the
    bundle: a caller without a pending job that references the token gets
    [AuthError] (403) whether or not a bundle is stored under it, and
    [NotFoundError] (404) is raised only when such a job exists and no file
    is stored for the token. *)
Theorem download_env_checks_jobs_before_bundle (s : fs) T x :
  (forall agents A jobs,
     caller s x = Ok (agents, A) ->
     snd (read_json JOBS_FILE s) = Ok (JObj jobs) ->
     Forall is_object (dict_values jobs) ->
     ~ Exists (pending_ref A T) (dict_values jobs) ->
     run (download_env T x) s =
       (s, Err (AuthError "no job for this agent references this env token"))) /\
  (forall s' detail,
     run (download_env T x) s = (s', Err (NotFoundError detail)) ->
     exists agents A jobs,
       caller s x = Ok (agents, A) /\
       snd (read_json JOBS_FILE s) = Ok (JObj jobs) /\
       Exists (pending_ref A T) (dict_values jobs) /\
       s (env_path T) = None).
Proof.
  split.
  - intros agents A jobs Hc Hj Hobj Hno.
    rewrite (run_download_env _ T _ _ _ Hc), Hj. simpl.
    destruct (references_env_total _ A T Hobj) as [[|] Hb]; rewrite Hb; auto.
    apply references_env_true in Hb. contradiction.
  - intros s' detail Hrun.
    destruct (caller s x) as [[agents A] | e] eqn:Hc.
    + rewrite (run_download_env _ T _ _ _ Hc) in Hrun.
      apply (f_equal snd) in Hrun; cbn [snd] in Hrun; rename Hrun into Hres.
      destruct (snd (read_json JOBS_FILE s)) as [jobs |] eqn:Hj.
      * unfold AuthError, NotFoundError in Hres.
        destruct jobs as [| | | | | | d]; cbn [py_items] in Hres;
          try discriminate Hres.
        destruct (references_env (dict_values d) A T) as [[|] | e] eqn:Hb.
        2: discriminate Hres.
        2: apply references_env_err in Hb; subst e; discriminate Hres.
        destruct (s (env_path T)) as [[| v] |] eqn:Hp; try discriminate Hres.
        { unfold JSONResponse in Hres.
          destruct (renderable v); discriminate Hres. }
        exists agents, A, d. repeat split; auto.
        now apply references_env_true.
      * exfalso. unfold read_json in Hj.
        destruct (s JOBS_FILE) as [[| v] |]; simpl in Hj; inversion Hj; subst.
        discriminate Hres.
    + rewrite (run_download_env_refused _ T _ _ Hc) in Hrun.
      apply (f_equal snd) in Hrun; cbn [snd] in Hrun.
      injection Hrun as He; subst e.
      now apply caller_never_not_found in Hc.
Qed.

Lemma download_env_checks_jobs_before_bundle_witness :
  s_job (env_path "env_abc") = None /\
  run (download_env "env_abc" (Some "tok-b")) s_job =
    (s_job, Err (AuthError "no job for this agent references this env token")) /\
  exists agents A jobs,
    caller s_job (Some "tok-a") = Ok (agents, A) /\
    snd (read_json JOBS_FILE s_job) = Ok (JObj jobs) /\
    Exists (pending_ref A "env_abc") (dict_values jobs) /\
    s_job (env_path "env_abc") = None.
Proof.
  split; [reflexivity |].
  destruct (download_env_checks_jobs_before_bundle s_job "env_abc" (Some "tok-b"))
    as [Hforbidden _].
  destruct (download_env_checks_jobs_before_bundle s_job "env_abc" (Some "tok-a"))
    as [_ Hmissing].
  split.
  - eapply Hforbidden with (A := "agent-b") (jobs := [("job-1", demo_job)]).
    + reflexivity.
    + reflexivity.
    + repeat constructor. eexists; reflexivity.
    + intros H; inversion H as [? ? [Ha _] | ? ? H']; [| inversion H'].
      vm_compute in Ha. discriminate Ha.
  - eapply Hmissing with (detail := "env token not found"). reflexivity.
Defined.

(** C3, as the code has it.  For a caller authenticated as agent [A],
    [download_env] succeeds exactly when some job is addressed to [A], is
    pending and references the token, a bundle is stored under the token,
    and [JSONResponse] can render that bundle (it holds no [NaN], no
    infinity and no unpaired surrogate); it then returns that bundle.  So
    it fails as soon as no pending job of [A] references the token any
    more. *)
Theorem download_env_succeeds_iff (s : fs) T x agents A jobs :
  caller s x = Ok (agents, A) ->
  snd (read_json JOBS_FILE s) = Ok (JObj jobs) ->
  Forall is_object (dict_values jobs) ->
  forall P,
    run (download_env T x) s = (s, Ok P) <->
    Exists (pending_ref A T) (dict_values jobs) /\
    s (env_path T) = Some (Doc P) /\
    renderable P = true.
Proof.
  apply run_download_env_ok.
Qed.

Lemma download_env_succeeds_iff_witness :
  run (download_env "env_abc" (Some "tok-a")) s_bundle = (s_bundle, Ok demo_bundle) <->
  Exists (pending_ref "agent-a" "env_abc") (dict_values [("job-1", demo_job)]) /\
  s_bundle (env_path "env_abc") = Some (Doc demo_bundle) /\
  renderable demo_bundle = true.
Proof.
  eapply download_env_succeeds_iff.
  - reflexivity.
  - reflexivity.
  - repeat constructor. eexists; reflexivity.
Defined.

(** C3 as the specification words it fails: in [s_job] agent-a has a
    pending job that references [env_abc], yet the download does not
    succeed, because no bundle is stored under that token. *)
Lemma download_env_pending_job_not_sufficient :
  caller s_job (Some "tok-a") = Ok (JObj demo_agents, "agent-a") /\
  s_job JOBS_FILE = Some (Doc (JObj [("job-1", demo_job)])) /\
  ~ (is_ok (snd (run (download_env "env_abc" (Some "tok-a")) s_job)) = true <->
     exists job, In job (dict_values [("job-1", demo_job)]) /\
                 pending_ref "agent-a" "env_abc" job).
Proof.
  split; [reflexivity |]. split; [reflexivity |].
  intros [_ H].
  assert (Hok : is_ok (snd (run (download_env "env_abc" (Some "tok-a")) s_job)) = true).
  { apply H. exists demo_job. split; [now left |]. now repeat split. }
  vm_compute in Hok. discriminate Hok.
Qed.








Lemma after_polls_jobs adm (polls : list request) (s : fs) :
  Forall is_poll polls -> after adm polls s JOBS_FILE = s JOBS_FILE.
Proof.
  intros H; revert s; induction H as [| r h Hr _ IH]; intros s; simpl; auto.
  rewrite IH. destruct r; try contradiction. cbn [serve].
  destruct (run_poll_jobs_cases s x_agent_token now)
    as [[e ->] | (a' & r & ->)]; auto.
Qed.

Lemma run_poll_jobs_ok (s s' : fs) x now res :
  run (poll_jobs x now) s = (s', Ok res) ->
  exists agents A jobs,
    caller s x = Ok (agents, A) /\
    snd (read_json JOBS_FILE s) = Ok (JObj jobs) /\
    pending_jobs jobs A = Ok res.
Proof.
  intros Hrun.
  destruct (caller s x) as [[agents A] | e] eqn:Hc.
  - destruct (caller_inv _ _ _ _ Hc)
      as (tok & items & rec & _ & _ & _ & -> & _ & _ & Hrec).
    rewrite (run_poll_jobs _ _ now _ _ _ Hc Hrec) in Hrun.
    apply (f_equal snd) in Hrun; cbn [snd] in Hrun.
    destruct (snd (read_json JOBS_FILE s)) as [jobs |]; try discriminate Hrun.
    destruct jobs as [| | | | | | d]; try discriminate Hrun.
    exists (JObj items), A, d. auto.
  - rewrite (run_poll_jobs_refused _ _ now _ Hc) in Hrun. discriminate Hrun.
Qed.

(** C1, as the code has it.  In a store the service can reach, once the
    owning agent's report for a job has succeeded with a status other than
    "pending", no later [poll_jobs] of that agent lists the job again, as
    long as the requests served in between are polls. *)
Theorem reported_job_not_polled_again
    adm (s s1 s2 : fs) (req : ReportReq) x now (polls : list request) now' res :
  reachable adm s ->
  run (report req x now) s = (s1, Ok tt) ->
  status req <> "pending" ->
  Forall is_poll polls ->
  run (poll_jobs x now') (after adm polls s1) = (s2, Ok res) ->
  forall job, In job res -> py_get job "job_id" <> Ok (JStr (job_id req)).
Proof.
  intros Hreach Hrep Hst Hpolls Hpoll job Hin Hid.
  apply reachable_ledger_ok in Hreach. destruct Hreach as (jobs0 & Hf & Hok).
  destruct (run_report_cases s req x now)
    as [[e He] | (agents & A & jobs & fields & _ & Hj & Hg & _ & Hrun)];
    rewrite Hrep in *; [discriminate He |].
  apply (ledger_ok_read _ _ _ Hf) in Hj. injection Hj as <-.
  injection Hrun as ->.
  set (jobs' := dict_set jobs (job_id req) (reported fields req now)) in *.
  assert (Hok' : jobs_ok jobs').
  { apply jobs_ok_set; auto. rewrite reported_job_id.
    apply Hok. now apply dict_get_in. }
  destruct (run_poll_jobs_ok _ _ _ _ _ Hpoll) as (ag & B & jobs1 & _ & Hr & Hres).
  assert (Hfile : after adm polls
            (dump_replace (JOBS_FILE ++ ".tmp") JOBS_FILE (JObj jobs') s) JOBS_FILE
          = Some (Doc (JObj jobs'))).
  { rewrite after_polls_jobs by auto.
    unfold dump_replace, fs_put. now rewrite String.eqb_refl. }
  apply (ledger_ok_read _ _ _ Hfile) in Hr. injection Hr as ->.
  destruct (pending_jobs_sound _ _ _ _ Hres Hin) as (Hval & _ & Hpending).
  apply in_map_iff in Hval. destruct Hval as ([k j] & Hj & Hkj).
  simpl in Hj; subst j.
  destruct Hok' as [Hnd Hids].
  rewrite (Hids _ _ Hkj) in Hid. injection Hid as ->.
  apply (dict_get_unique _ _ _ Hnd) in Hkj.
  unfold jobs' in Hkj. rewrite dict_get_set_same in Hkj. injection Hkj as <-.
  rewrite reported_status in Hpending. injection Hpending as E.
  contradiction.
Qed.

Lemma reported_job_not_polled_again_witness :
  snd (run (report {| job_id := "job-1"; status := "done"; output := Some "ok" |}
              (Some "tok-a") 30) s_job) = Ok tt /\
  snd (run (poll_jobs (Some "tok-a") 33)
         (after demo_admin [PollJobs (Some "tok-a") 31; PollJobs (Some "tok-b") 32]
            (fst (run (report {| job_id := "job-1"; status := "done";
                                 output := Some "ok" |} (Some "tok-a") 30) s_job))))
    = Ok [] /\
  forall job, In job [] -> py_get job "job_id" <> Ok (JStr "job-1").
Proof.
  split; [reflexivity |]. split; [reflexivity |].
  eapply (reported_job_not_polled_again demo_admin s_job _ _
            {| job_id := "job-1"; status := "done"; output := Some "ok" |}
            (Some "tok-a") 30
            [PollJobs (Some "tok-a") 31; PollJobs (Some "tok-b") 32] 33).
  - exists [ Register (host "h1") "agent-a" "tok-a" 10 10;
             Register (host "h2") "agent-b" "tok-b" 11 11;
             CreateJob demo_payload (Some "s3cret") "job-1" 20 20 ].
    reflexivity.
  - reflexivity.
  - discriminate.
  - repeat constructor.
  - reflexivity.
Defined.

(** C1 as the specification words it, for any status string, fails: a
    report whose status is "pending" succeeds and the next poll of the
    owning agent lists the job again. *)
Lemma report_pending_job_polled_again :
  reachable demo_admin s_job /\
  snd (run (report {| job_id := "job-1"; status := "pending"; output := None |}
              (Some "tok-a") 30) s_job) = Ok tt /\
  exists res job,
    snd (run (poll_jobs (Some "tok-a") 31)
           (fst (run (report {| job_id := "job-1"; status := "pending";
                                output := None |} (Some "tok-a") 30) s_job)))
      = Ok res /\
    In job res /\ py_get job "job_id" = Ok (JStr "job-1").
Proof.
  split.
  - exists [ Register (host "h1") "agent-a" "tok-a" 10 10;
             Register (host "h2") "agent-b" "tok-b" 11 11;
             CreateJob demo_payload (Some "s3cret") "job-1" 20 20 ].
    reflexivity.
  - split; [reflexivity |].
    eexists. eexists. split; [reflexivity |]. split; [left; reflexivity |].
    reflexivity.
Qed.

(* ================================================================== *)
(** * Concurrent reports *)

(** C2, as the code has it.  [read_json] and [write_json] each take the
    lock for themselves, so a report's load and save of the jobs document
    are separate steps.  For reports on distinct jobs of one agent, served
    at the same time: under every interleaving no call fails, and a call
    that has had its three steps has returned [ok]; when the calls do not
    overlap, each job's final record is the one its own call wrote. *)
Theorem concurrent_reports_succeed_and_serial_reports_kept
    (s : fs) x agents A (jobs : dict) (calls : list (ReportReq * Z)) :
  caller s x = Ok (agents, A) ->
  s JOBS_FILE = Some (Doc (JObj jobs)) ->
  Forall (fun c => owned A jobs (fst c)) calls ->
  NoDup (map (fun c => job_id (fst c)) calls) ->
  (forall schedule i m,
     nth_error (fst (exec schedule (report_pool x calls) s)) i = Some m ->
     (outcome m = None \/ outcome m = Some (Ok tt)) /\
     ((3 <= count_occ Nat.eq_dec schedule i)%nat -> outcome m = Some (Ok tt))) /\
  (exists jobs',
     fst (exec (serial (List.length calls)) (report_pool x calls) s) =
       map (fun _ => Ret tt) calls /\
     snd (exec (serial (List.length calls)) (report_pool x calls) s) JOBS_FILE =
       Some (Doc (JObj jobs')) /\
     forall c, In c calls ->
       exists fields,
         dict_get jobs (job_id (fst c)) = Some (JObj fields) /\
         dict_get jobs' (job_id (fst c)) = Some (reported fields (fst c) (snd c))).
Proof.
  intros Hc Hj Hown Hnd.
  pose proof (report_pool_bounded x A calls s agents Hc) as Hb.
  assert (Hs : reports_inv x A (map fst calls) s).
  { split; [eauto |]. exists jobs. split; auto. now apply Forall_map. }
  split.
  - intros schedule i m Hi.
    destruct (exec_bounded (reports_inv x A (map fst calls)) schedule
                (report_pool x calls) s (fun _ => 3%nat) Hs) as [_ Hres].
    { intros j m0 Hj0. rewrite Forall_forall in Hb.
      apply Hb. eapply nth_error_In; eauto. }
    specialize (Hres i m Hi). split.
    + destruct (bounded_outcome _ _ _ Hres) as [H | ->]; auto.
    + intros Hcount.
      replace (3 - count_occ Nat.eq_dec schedule i)%nat with 0%nat in Hres by lia.
      now rewrite (bounded_zero _ _ Hres).
  - destruct (run_all_records x A calls s agents jobs Hc Hj Hown Hnd)
      as (jobs' & Hj' & Hrec & _).
    pose proof (exec_serial (reports_inv x A (map fst calls)) x calls [] s Hb Hs)
      as He.
    cbn [List.length app] in He. fold (serial (List.length calls)) in He.
    exists jobs'. rewrite He. auto.
Qed.

Lemma concurrent_reports_succeed_and_serial_reports_kept_witness :
  (forall schedule i m,
     nth_error (fst (exec schedule (report_pool (Some "tok-a") demo_calls)
                       s_two_jobs)) i = Some m ->
     (outcome m = None \/ outcome m = Some (Ok tt)) /\
     ((3 <= count_occ Nat.eq_dec schedule i)%nat -> outcome m = Some (Ok tt))) /\
  (exists jobs',
     fst (exec (serial 2) (report_pool (Some "tok-a") demo_calls) s_two_jobs) =
       [Ret tt; Ret tt] /\
     snd (exec (serial 2) (report_pool (Some "tok-a") demo_calls) s_two_jobs)
       JOBS_FILE = Some (Doc (JObj jobs')) /\
     forall c, In c demo_calls ->
       exists fields,
         dict_get [("job-1", demo_job); ("job-2", demo_job2)] (job_id (fst c)) =
           Some (JObj fields) /\
         dict_get jobs' (job_id (fst c)) = Some (reported fields (fst c) (snd c))).
Proof.
  apply (concurrent_reports_succeed_and_serial_reports_kept
           s_two_jobs (Some "tok-a") (JObj demo_agents) "agent-a"
           [("job-1", demo_job); ("job-2", demo_job2)] demo_calls).
  - reflexivity.
  - reflexivity.
  - repeat constructor; eexists; split; reflexivity.
  - repeat constructor; simpl; intuition discriminate.
Defined.

(** C2 as the specification words it fails.  Two reports on two jobs of
    one agent, each loading the jobs document before the other saves it:
    both calls return [ok], and the save that comes last puts back the
    other job as it was loaded, still pending. *)
Lemma concurrent_reports_lost_update :
  reachable demo_admin s_two_jobs /\
  fst (exec [0; 0; 1; 1; 0; 1]%nat (report_pool (Some "tok-a") demo_calls)
         s_two_jobs) = [Ret tt; Ret tt] /\
  exists jobs' job,
    snd (exec [0; 0; 1; 1; 0; 1]%nat (report_pool (Some "tok-a") demo_calls)
           s_two_jobs) JOBS_FILE = Some (Doc (JObj jobs')) /\
    dict_get jobs' "job-1" = Some job /\
    py_get job "status" = Ok (JStr "pending") /\
    job <> reported
             [ ("job_id", JStr "job-1"); ("agent_id", JStr "agent-a");
               ("args", JArr [JStr "https://x.git"; JStr "d.com"]);
               ("is_spa", JBool false); ("env_token", JStr "env_abc");
               ("status", JStr "pending"); ("created", JInt 20);
               ("updated", JInt 20) ]
             {| job_id := "job-1"; status := "done"; output := Some "ok" |} 30.
Proof.
  split.
  - exists [ Register (host "h1") "agent-a" "tok-a" 10 10;
             Register (host "h2") "agent-b" "tok-b" 11 11;
             CreateJob demo_payload (Some "s3cret") "job-1" 20 20;
             CreateJob [ ("agent_id", JStr "agent-a");
                         ("args", JArr [JStr "https://y.git"]) ]
               (Some "s3cret") "job-2" 21 21 ].
    reflexivity.
  - split; [reflexivity |].
    eexists. eexists. split; [reflexivity |]. split; [reflexivity |].
    split; [reflexivity |]. vm_compute. discriminate.
Qed.

(* ================================================================== *)
(** * Credentials *)

(** X1.  With an admin token configured, every admin endpoint called
    without the header, with an empty header or with another value answers
    403 "invalid admin token" and leaves the store as it was. *)
Theorem admin_endpoints_refuse_bad_token
    (adm : string) (x_admin : option string) (s : fs)
    payload new_job_id t1 t2 env_file env_json hex :
  adm <> "" ->
  x_admin <> Some adm ->
  let refused {A} (m : io A) :=
    run m s = (s, Err (HTTPException 403 "invalid admin token")) in
  refused (list_agents (Some adm) x_admin) /\
  refused (list_jobs (Some adm) x_admin) /\
  refused (create_job (Some adm) payload x_admin new_job_id t1 t2) /\
  refused (upload_env_file (Some adm) env_file env_json x_admin hex).
Proof.
  intros Hadm Hx refused.
  assert (Hr : require_admin (Some adm) x_admin =
               Err (HTTPException 403 "invalid admin token")).
  { unfold require_admin. apply String.eqb_neq in Hadm. rewrite Hadm.
    destruct x_admin as [t |]; auto.
    destruct (String.eqb t "") eqn:Et; auto.
    destruct (String.eqb t adm) eqn:Ea; auto.
    apply String.eqb_eq in Ea. subst. contradiction. }
  unfold refused, list_agents, list_jobs, create_job, upload_env_file.
  rewrite !run_bind, Hr. auto.
Qed.

Lemma admin_endpoints_refuse_bad_token_witness :
  run (list_agents demo_admin (Some "guess")) s_job =
    (s_job, Err (HTTPException 403 "invalid admin token")) /\
  run (list_jobs demo_admin (Some "guess")) s_job =
    (s_job, Err (HTTPException 403 "invalid admin token")) /\
  run (create_job demo_admin demo_payload (Some "guess") "job-7" 50 50) s_job =
    (s_job, Err (HTTPException 403 "invalid admin token")) /\
  run (upload_env_file demo_admin None (Some demo_bundle_fields) (Some "guess") "abc")
      s_job = (s_job, Err (HTTPException 403 "invalid admin token")).
Proof.
  apply (admin_endpoints_refuse_bad_token "s3cret" (Some "guess") s_job
           demo_payload "job-7" 50 50 None (Some demo_bundle_fields) "abc");
    discriminate.
Defined.

(** X2.  With no admin token configured, or an empty one, the admin check
    accepts every call, whatever the header: the jobs listing returns the
    jobs document to anyone. *)
Theorem admin_endpoints_open_without_token
    (adm x_admin : option string) (s : fs) jobs :
  adm = None \/ adm = Some "" ->
  snd (read_json JOBS_FILE s) = Ok jobs ->
  run (list_jobs adm x_admin) s = (s, Ok jobs).
Proof.
  intros Hadm Hj.
  assert (Hr : require_admin adm x_admin = Ok tt)
    by (destruct Hadm as [-> | ->]; reflexivity).
  unfold list_jobs. rewrite run_bind, Hr. cbn [lift run].
  unfold call. rewrite (run_read_json JOBS_FILE _ s _ Hj). reflexivity.
Qed.

Lemma admin_endpoints_open_without_token_witness :
  run (list_jobs (Some "") None) s_job =
    (s_job, Ok (JObj [("job-1", demo_job)])).
Proof.
  apply admin_endpoints_open_without_token; [now right | reflexivity].
Defined.

(** X3.  An agent endpoint called without the token header or with an
    empty one answers 403 "missing agent token"; called with a token that no
    agent record carries it answers 403 "invalid agent token".  Either way
    the store is as it was: a refused poll does not touch [last_seen]. *)
Theorem agent_endpoints_refuse_bad_token
    (s : fs) (x : option string) (items : dict) now req T :
  s AGENTS_FILE = Some (Doc (JObj items)) ->
  let refused {A} (m : io A) detail :=
    run m s = (s, Err (HTTPException 403 detail)) in
  (x = None \/ x = Some "" ->
     refused (poll_jobs x now) "missing agent token" /\
     refused (report req x now) "missing agent token" /\
     refused (download_env T x) "missing agent token") /\
  (forall tok, x = Some tok -> tok <> "" -> find_agent items tok = Ok None ->
     refused (poll_jobs x now) "invalid agent token" /\
     refused (report req x now) "invalid agent token" /\
     refused (download_env T x) "invalid agent token").
Proof.
  intros Ha refused. split.
  - intros Hx.
    assert (Hc : caller s x = Err (HTTPException 403 "missing agent token"))
      by (destruct Hx as [-> | ->]; reflexivity).
    unfold refused.
    now rewrite (run_poll_jobs_refused _ _ now _ Hc),
                (run_report_refused _ req _ now _ Hc),
                (run_download_env_refused _ T _ _ Hc).
  - intros tok -> Htok Hfind.
    assert (Hc : caller s (Some tok) = Err (HTTPException 403 "invalid agent token")).
    { unfold caller, authenticate. apply String.eqb_neq in Htok. rewrite Htok.
      unfold call. cbn [bind run]. unfold read_json. rewrite Ha.
      cbn [py_items lift bind run]. rewrite Hfind. reflexivity. }
    unfold refused.
    now rewrite (run_poll_jobs_refused _ _ now _ Hc),
                (run_report_refused _ req _ now _ Hc),
                (run_download_env_refused _ T _ _ Hc).
Qed.

Lemma agent_endpoints_refuse_bad_token_witness :
  run (poll_jobs (Some "") 30) s_job =
    (s_job, Err (HTTPException 403 "missing agent token")) /\
  run (poll_jobs (Some "tok-zzz") 30) s_job =
    (s_job, Err (HTTPException 403 "invalid agent token")) /\
  run (download_env "env_abc" (Some "tok-zzz")) s_job =
    (s_job, Err (HTTPException 403 "invalid agent token")).
Proof.
  destruct (agent_endpoints_refuse_bad_token s_job (Some "") demo_agents 30
              {| job_id := "job-1"; status := "done"; output := None |} "env_abc"
              eq_refl) as [Hmissing _].
  destruct (agent_endpoints_refuse_bad_token s_job (Some "tok-zzz") demo_agents 30
              {| job_id := "job-1"; status := "done"; output := None |} "env_abc"
              eq_refl) as [_ Hinvalid].
  destruct (Hmissing (or_intror eq_refl)) as (Hp & _ & _).
  destruct (Hinvalid "tok-zzz" eq_refl) as (Hp' & _ & Hd'); try discriminate.
  { reflexivity. }
  auto.
Defined.

(* ================================================================== *)
(** * The agent registry *)

(** X4.  Registration on a readable agents document succeeds and returns
    the identifier and the token it drew; when no earlier record carries
    that token, the token authenticates as the new agent from then on, and
    the agent listing shows the record with the token in it.  The jobs
    document is not touched. *)
Theorem register_then_authenticate
    adm x_admin (s : fs) req agent_id agent_token t_created t_last_seen
    (items : dict) :
  snd (read_json AGENTS_FILE s) = Ok (JObj items) ->
  find_agent items agent_token = Ok None ->
  agent_id <> "" -> agent_token <> "" ->
  require_admin adm x_admin = Ok tt ->
  let s' := fst (run (register req agent_id agent_token t_created t_last_seen) s) in
  snd (run (register req agent_id agent_token t_created t_last_seen) s) =
    Ok (agent_id, agent_token) /\
  (exists agents, caller s' (Some agent_token) = Ok (agents, agent_id)) /\
  (exists items' fields,
     snd (run (list_agents adm x_admin) s') = Ok (JObj items') /\
     dict_get items' agent_id = Some (JObj fields) /\
     dict_get fields "token" = Some (JStr agent_token) /\
     dict_get fields "hostname" = Some (JStr (hostname req))) /\
  s' JOBS_FILE = s JOBS_FILE.
Proof.
  intros Ha Hnone Hid Htok Hadm s'.
  unfold s'. rewrite (run_register s req _ _ _ _ items Ha). cbn [fst snd].
  split; [reflexivity |]. split; [| split; [| reflexivity]].
  - eexists. apply caller_found; auto.
    + unfold dump_replace, fs_put. now rewrite String.eqb_refl.
    + apply find_agent_new; auto.
  - eexists. eexists. split.
    + unfold list_agents. rewrite run_bind, Hadm. cbn [lift run].
      unfold call. cbn [run]. unfold read_json, dump_replace, fs_put.
      rewrite String.eqb_refl. reflexivity.
    + rewrite dict_get_set_same. repeat split; reflexivity.
Qed.

Lemma register_then_authenticate_witness :
  snd (run (register (host "h3") "agent-c" "tok-c" 12 12) s_job) =
    Ok ("agent-c", "tok-c") /\
  (exists agents,
     caller (fst (run (register (host "h3") "agent-c" "tok-c" 12 12) s_job))
       (Some "tok-c") = Ok (agents, "agent-c")).
Proof.
  destruct (register_then_authenticate demo_admin (Some "s3cret") s_job
              (host "h3") "agent-c" "tok-c" 12 12 demo_agents)
    as (Hres & Hauth & _); try reflexivity; try discriminate.
  split; assumption.
Defined.

(** X5.  Registration under a new identifier never changes whom an existing
    token authenticates: the first record that carries a token wins.  So an
    agent registered with a token that an earlier agent already carries can
    never be reached with it. *)
Theorem register_keeps_identities
    (s : fs) req agent_id agent_token t_created t_last_seen
    x agents A (items : dict) :
  caller s x = Ok (agents, A) ->
  agents = JObj items ->
  dict_mem items agent_id = false ->
  exists agents',
    caller (fst (run (register req agent_id agent_token t_created t_last_seen) s)) x
      = Ok (agents', A).
Proof.
  intros Hc -> Hfresh.
  destruct (caller_inv _ _ _ _ Hc)
    as (tok & items0 & rec & -> & Htok & HA & Heq & Hf & Hfind & _).
  injection Heq as <-.
  assert (Ha : snd (read_json AGENTS_FILE s) = Ok (JObj items))
    by (unfold read_json; now rewrite Hf).
  rewrite (run_register s req _ _ _ _ items Ha). cbn [fst].
  eexists. apply caller_found; auto.
  - unfold dump_replace, fs_put. now rewrite String.eqb_refl.
  - now apply find_agent_kept.
Qed.

Lemma register_keeps_identities_witness :
  exists agents',
    caller (fst (run (register (host "h9") "agent-x" "tok-a" 12 12) s_job))
      (Some "tok-a") = Ok (agents', "agent-a").
Proof.
  apply (register_keeps_identities s_job (host "h9") "agent-x" "tok-a" 12 12
           (Some "tok-a") (JObj demo_agents) "agent-a" demo_agents);
    reflexivity.
Defined.

(* ================================================================== *)
(** * Polling *)

(** X6.  A successful poll returns exactly the records of the jobs document
    that are addressed to the caller and pending, in the order of the
    document, every time: polls do not consume jobs, so as long as only
    polls are served the same list is returned again. *)
Theorem poll_jobs_returns_the_pending_jobs
    adm (s s1 : fs) x now res (polls : list request) now' :
  run (poll_jobs x now) s = (s1, Ok res) ->
  Forall is_poll polls ->
  exists agents A jobs,
    caller s x = Ok (agents, A) /\
    snd (read_json JOBS_FILE s) = Ok (JObj jobs) /\
    res = filter (is_pending_for A) (dict_values jobs) /\
    snd (run (poll_jobs x now') (after adm polls s)) = Ok res.
Proof.
  intros Hrun Hpolls.
  destruct (run_poll_jobs_ok _ _ _ _ _ Hrun) as (agents & A & jobs & Hc & Hj & Hres).
  exists agents, A, jobs. repeat split; auto.
  - now apply pending_jobs_filter.
  - destruct (caller_after_polls adm polls s x agents A Hpolls Hc) as [ag' Hc'].
    destruct (caller_inv _ _ _ _ Hc')
      as (tok & items & rec & _ & _ & _ & -> & _ & _ & Hrec).
    rewrite (run_poll_jobs _ _ now' _ _ _ Hc' Hrec). cbn [snd].
    unfold read_json in *. rewrite (after_polls_jobs adm polls s Hpolls).
    destruct (s JOBS_FILE) as [[| v] |]; cbn [snd] in *; try discriminate.
    + injection Hj as ->. exact Hres.
    + injection Hj as <-. exact Hres.
Qed.

Lemma poll_jobs_returns_the_pending_jobs_witness :
  exists agents A jobs,
    caller s_two_jobs (Some "tok-a") = Ok (agents, A) /\
    snd (read_json JOBS_FILE s_two_jobs) = Ok (JObj jobs) /\
    [demo_job; demo_job2] = filter (is_pending_for A) (dict_values jobs) /\
    snd (run (poll_jobs (Some "tok-a") 33)
           (after demo_admin [PollJobs (Some "tok-a") 31; PollJobs (Some "tok-b") 32]
              s_two_jobs)) = Ok [demo_job; demo_job2].
Proof.
  eapply (poll_jobs_returns_the_pending_jobs demo_admin s_two_jobs _
            (Some "tok-a") 30).
  - reflexivity.
  - repeat constructor.
Defined.

(** X7.  A job created for a registered agent under a new identifier is
    offered to that agent from its next poll on, after the jobs that were
    already pending for it. *)
Theorem create_job_then_poll
    adm x_admin (s : fs) payload new_job_id t_created t_updated
    x agents A (jobs : dict) now res now' :
  require_admin adm x_admin = Ok tt ->
  caller s x = Ok (agents, A) ->
  payload_get payload "agent_id" JNull = JStr A ->
  snd (read_json JOBS_FILE s) = Ok (JObj jobs) ->
  dict_mem jobs new_job_id = false ->
  snd (run (poll_jobs x now) s) = Ok res ->
  let s' := fst (run (create_job adm payload x_admin new_job_id
                        t_created t_updated) s) in
  snd (run (create_job adm payload x_admin new_job_id t_created t_updated) s) =
    Ok new_job_id /\
  snd (run (poll_jobs x now') s') =
    Ok (res ++ [new_job payload new_job_id t_created t_updated])%list.
Proof.
  intros Hadm Hc Hp Hj Hfresh Hpoll s'.
  destruct (caller_inv _ _ _ _ Hc)
    as (tok & items & rec & -> & Htok & HA & -> & Hf & Hfind & Hrec).
  assert (Ha : snd (read_json AGENTS_FILE s) = Ok (JObj items))
    by (unfold read_json; now rewrite Hf).
  assert (Hm : dict_mem items A = true) by (unfold dict_mem; now rewrite Hrec).
  unfold s'.
  rewrite (run_create_job adm s payload x_admin new_job_id t_created t_updated
             items jobs A Hadm Ha Hj Hp Hm).
  cbn [fst snd]. split; [reflexivity |].
  set (s1 := dump_replace _ _ _ s).
  assert (Hc1 : caller s1 (Some tok) = Ok (JObj items, A))
    by (rewrite <- Hc; now apply caller_ext).
  rewrite (run_poll_jobs _ _ now' _ _ _ Hc1 Hrec). cbn [snd].
  rewrite (run_poll_jobs _ _ now _ _ _ Hc Hrec) in Hpoll. cbn [snd] in Hpoll.
  rewrite Hj in Hpoll. cbn [py_items] in Hpoll.
  replace (snd (read_json JOBS_FILE s1))
    with (Ok (JObj (dict_set jobs new_job_id
                      (new_job payload new_job_id t_created t_updated))) : result json)
    by reflexivity.
  cbn [py_items]. rewrite dict_set_absent by auto.
  apply pending_jobs_app; auto.
  unfold new_job. cbn [pending_jobs py_get dict_get String.eqb Ascii.eqb Bool.eqb].
  rewrite Hp. cbn [eq_str]. now rewrite String.eqb_refl.
Qed.

Lemma create_job_then_poll_witness :
  snd (run (create_job demo_admin
              [ ("agent_id", JStr "agent-a"); ("args", JArr [JStr "https://y.git"]) ]
              (Some "s3cret") "job-2" 21 21) s_job) = Ok "job-2" /\
  snd (run (poll_jobs (Some "tok-a") 31) s_two_jobs) = Ok [demo_job; demo_job2].
Proof.
  apply (create_job_then_poll demo_admin (Some "s3cret") s_job
           [ ("agent_id", JStr "agent-a"); ("args", JArr [JStr "https://y.git"]) ]
           "job-2" 21 21 (Some "tok-a") (JObj demo_agents) "agent-a"
           [("job-1", demo_job)] 30 [demo_job] 31); reflexivity.
Defined.

(* ================================================================== *)
(** * Reporting *)

(** X8.  A successful report writes the jobs document back with one record
    changed, the reported job's, and in it only [status], [output] and
    [updated]: the job's other fields (its owner among them), the other
    jobs, the order of the document and the agents document are as
    before. *)
Theorem report_changes_only_the_reported_fields
    (s s' : fs) (req : ReportReq) x now :
  run (report req x now) s = (s', Ok tt) ->
  exists (jobs fields fields' : dict),
    snd (read_json JOBS_FILE s) = Ok (JObj jobs) /\
    dict_get jobs (job_id req) = Some (JObj fields) /\
    s' JOBS_FILE = Some (Doc (JObj (dict_set jobs (job_id req) (JObj fields')))) /\
    dict_get fields' "status" = Some (JStr (status req)) /\
    dict_get fields' "output" = Some (opt_str (output req)) /\
    dict_get fields' "updated" = Some (JInt now) /\
    (forall field, field <> "status" -> field <> "output" -> field <> "updated" ->
       dict_get fields' field = dict_get fields field) /\
    (forall jid, jid <> job_id req ->
       dict_get (dict_set jobs (job_id req) (JObj fields')) jid = dict_get jobs jid) /\
    dict_keys (dict_set jobs (job_id req) (JObj fields')) = dict_keys jobs /\
    s' AGENTS_FILE = s AGENTS_FILE.
Proof.
  intros Hrun.
  destruct (run_report_cases s req x now)
    as [[e He] | (agents & A & jobs & fields & _ & Hj & Hg & _ & Hr)];
    rewrite Hrun in *; [discriminate He |].
  injection Hr as ->.
  exists jobs, fields,
    (dict_set (dict_set (dict_set fields "status" (JStr (status req)))
                 "output" (opt_str (output req))) "updated" (JInt now)).
  split; [exact Hj |]. split; [exact Hg |]. split; [reflexivity |].
  split; [| split; [| split; [| split; [| split; [| split]]]]].
  - rewrite !dict_get_set_other by discriminate. apply dict_get_set_same.
  - rewrite dict_get_set_other by discriminate. apply dict_get_set_same.
  - apply dict_get_set_same.
  - intros field H1 H2 H3. now rewrite !dict_get_set_other by auto.
  - intros jid Hne. now apply dict_get_set_other.
  - apply dict_keys_set_present. unfold dict_mem. now rewrite Hg.
  - reflexivity.
Qed.

Lemma report_changes_only_the_reported_fields_witness :
  exists (jobs fields fields' : dict),
    snd (read_json JOBS_FILE s_two_jobs) = Ok (JObj jobs) /\
    dict_get jobs "job-1" = Some (JObj fields) /\
    fst (run (report {| job_id := "job-1"; status := "done"; output := Some "ok" |}
                (Some "tok-a") 30) s_two_jobs) JOBS_FILE =
      Some (Doc (JObj (dict_set jobs "job-1" (JObj fields')))) /\
    dict_get fields' "status" = Some (JStr "done") /\
    dict_get fields' "output" = Some (JStr "ok") /\
    dict_get fields' "updated" = Some (JInt 30) /\
    (forall field, field <> "status" -> field <> "output" -> field <> "updated" ->
       dict_get fields' field = dict_get fields field) /\
    (forall jid, jid <> "job-1" ->
       dict_get (dict_set jobs "job-1" (JObj fields')) jid = dict_get jobs jid) /\
    dict_keys (dict_set jobs "job-1" (JObj fields')) = dict_keys jobs /\
    fst (run (report {| job_id := "job-1"; status := "done"; output := Some "ok" |}
                (Some "tok-a") 30) s_two_jobs) AGENTS_FILE = s_two_jobs AGENTS_FILE.
Proof.
  apply (report_changes_only_the_reported_fields s_two_jobs _
           {| job_id := "job-1"; status := "done"; output := Some "ok" |}
           (Some "tok-a") 30).
  reflexivity.
Defined.

(** X9.  A report is accepted on a job that was already reported, and the
    later report wins: the store after two reports of the owner on one job
    is the store after the second alone.  Nothing keeps a reported job from
    being reported "pending" and offered again. *)
Theorem report_last_write_wins
    (s s1 : fs) (r1 r2 : ReportReq) x n1 n2 :
  run (report r1 x n1) s = (s1, Ok tt) ->
  job_id r2 = job_id r1 ->
  snd (run (report r2 x n2) s1) = Ok tt /\
  snd (run (report r2 x n2) s) = Ok tt /\
  forall path,
    fst (run (report r2 x n2) s1) path = fst (run (report r2 x n2) s) path.
Proof.
  intros Hrun Hid.
  destruct (run_report_cases s r1 x n1)
    as [[e He] | (agents & A & jobs & fields & Hc & Hj & Hg & Ho & Hr)];
    rewrite Hrun in *; [discriminate He |].
  injection Hr as ->.
  assert (Hf : s JOBS_FILE = Some (Doc (JObj jobs))).
  { unfold read_json in Hj. destruct (s JOBS_FILE) as [[| v] |] eqn:E;
      cbn [snd] in Hj; try discriminate.
    - now injection Hj as ->.
    - injection Hj as <-. discriminate Hg. }
  pose (fields1 := dict_set (dict_set (dict_set fields "status" (JStr (status r1)))
                               "output" (opt_str (output r1))) "updated" (JInt n1)).
  assert (Hrep : reported fields r1 n1 = JObj fields1) by reflexivity.
  rewrite Hrep.
  pose (jobs1 := dict_set jobs (job_id r1) (JObj fields1)).
  pose (s1' := dump_replace (JOBS_FILE ++ ".tmp") JOBS_FILE (JObj jobs1) s).
  fold jobs1.
  change (dump_replace "/var/lib/orch_b/jobs.json.tmp" JOBS_FILE (JObj jobs1) s)
    with s1'.
  assert (Hc1 : caller s1' x = Ok (agents, A))
    by (rewrite <- Hc; now apply caller_ext).
  assert (Hf1 : s1' JOBS_FILE = Some (Doc (JObj jobs1))) by reflexivity.
  assert (Hg1 : dict_get jobs1 (job_id r2) = Some (JObj fields1))
    by (unfold jobs1; rewrite Hid; apply dict_get_set_same).
  assert (Ho1 : dict_get fields1 "agent_id" = Some (JStr A))
    by (eapply reported_agent_id; eauto).
  rewrite <- Hid in Hg.
  rewrite (run_report_owned s1' r2 x n2 agents A jobs1 fields1 Hc1 Hf1 Hg1 Ho1).
  rewrite (run_report_owned s r2 x n2 agents A jobs fields Hc Hf Hg Ho).
  cbn [fst snd]. repeat split.
  intros path. rewrite (reported_twice fields fields1 r1 n1 r2 n2 Hrep).
  unfold jobs1. rewrite Hid, dict_set_twice.
  unfold s1', dump_replace, fs_put.
  destruct (String.eqb path JOBS_FILE); auto.
  destruct (String.eqb path (JOBS_FILE ++ ".tmp")); auto.
Qed.

Lemma report_last_write_wins_witness :
  let done := {| job_id := "job-1"; status := "done"; output := Some "ok" |} in
  let again := {| job_id := "job-1"; status := "pending"; output := None |} in
  let s1 := fst (run (report done (Some "tok-a") 30) s_job) in
  snd (run (report again (Some "tok-a") 31) s1) = Ok tt /\
  snd (run (report again (Some "tok-a") 31) s_job) = Ok tt /\
  (forall path,
     fst (run (report again (Some "tok-a") 31) s1) path =
     fst (run (report again (Some "tok-a") 31) s_job) path) /\
  snd (run (poll_jobs (Some "tok-a") 32)
         (fst (run (report again (Some "tok-a") 31) s1))) =
    Ok [JObj [ ("job_id", JStr "job-1"); ("agent_id", JStr "agent-a");
               ("args", JArr [JStr "https://x.git"; JStr "d.com"]);
               ("is_spa", JBool false); ("env_token", JStr "env_abc");
               ("status", JStr "pending"); ("created", JInt 20);
               ("updated", JInt 31); ("output", JNull) ]].
Proof.
  intros done again s1.
  destruct (report_last_write_wins s_job s1 done again (Some "tok-a") 30 31
              eq_refl eq_refl) as (H1 & H2 & H3).
  repeat split; auto.
Defined.

(** X10.  A report on a job identifier that the jobs document does not
    hold answers 404 "job not found", also when the jobs file does not
    exist, and the store is as it was. *)
Theorem report_unknown_job
    (s : fs) (req : ReportReq) x now agents A (jobs : dict) :
  caller s x = Ok (agents, A) ->
  snd (read_json JOBS_FILE s) = Ok (JObj jobs) ->
  dict_mem jobs (job_id req) = false ->
  run (report req x now) s = (s, Err (NotFoundError "job not found")).
Proof.
  intros Hc Hj Hm. unfold report.
  rewrite run_bind, run_authenticate, Hc. unfold call. cbn [bind].
  rewrite (run_read_json JOBS_FILE _ s _ Hj).
  cbn [py_in lift bind]. rewrite Hm. reflexivity.
Qed.

Lemma report_unknown_job_witness :
  run (report {| job_id := "job-404"; status := "done"; output := None |}
         (Some "tok-a") 30) s_job = (s_job, Err (NotFoundError "job not found")) /\
  run (report {| job_id := "job-1"; status := "done"; output := None |}
         (Some "tok-a") 30) (fs_put JOBS_FILE None s_job) =
    (fs_put JOBS_FILE None s_job, Err (NotFoundError "job not found")).
Proof.
  split.
  - apply (report_unknown_job s_job _ (Some "tok-a") 30 (JObj demo_agents)
             "agent-a" [("job-1", demo_job)]); reflexivity.
  - apply (report_unknown_job (fs_put JOBS_FILE None s_job) _ (Some "tok-a") 30
             (JObj demo_agents) "agent-a" []); reflexivity.
Defined.

(* ================================================================== *)
(** * What histories keep *)

(** X11.  No request removes a job or changes whom it is addressed to: as
    long as no job creation draws its identifier again, a job stays in the
    jobs document through any history of requests, and only its [status],
    [output] and [updated] fields ever change. *)
Theorem job_is_kept_and_owner_fixed
    adm (history : list request) (s : fs) (jobs : dict) jid fields :
  s JOBS_FILE = Some (Doc (JObj jobs)) ->
  dict_get jobs jid = Some (JObj fields) ->
  Forall (fun r => ~ creates_job jid r) history ->
  exists jobs' fields',
    after adm history s JOBS_FILE = Some (Doc (JObj jobs')) /\
    dict_get jobs' jid = Some (JObj fields') /\
    same_but ["status"; "output"; "updated"] fields fields'.
Proof.
  intros Hf Hg Hh. revert s jobs fields Hf Hg.
  induction Hh as [| r h Hr _ IH]; intros s jobs fields Hf Hg.
  - exists jobs, fields. split; [| split]; auto. apply same_but_refl.
  - destruct (serve_keeps_job adm s r jobs jid fields Hf Hg Hr)
      as (jobs1 & fields1 & Hf1 & Hg1 & H1).
    destruct (IH _ _ _ Hf1 Hg1) as (jobs' & fields' & Hf' & Hg' & H').
    exists jobs', fields'. repeat split; auto.
    eapply same_but_trans; eauto.
Qed.

Lemma job_is_kept_and_owner_fixed_witness :
  exists jobs' fields',
    after demo_admin
      [ Report {| job_id := "job-1"; status := "done"; output := Some "ok" |}
          (Some "tok-a") 30;
        Report {| job_id := "job-1"; status := "failed"; output := None |}
          (Some "tok-b") 31;
        CreateJob [("agent_id", JStr "agent-b")] (Some "s3cret") "job-5" 32 32;
        PollJobs (Some "tok-a") 33 ] s_job JOBS_FILE
      = Some (Doc (JObj jobs')) /\
    dict_get jobs' "job-1" = Some (JObj fields') /\
    same_but ["status"; "output"; "updated"]
      [ ("job_id", JStr "job-1"); ("agent_id", JStr "agent-a");
        ("args", JArr [JStr "https://x.git"; JStr "d.com"]);
        ("is_spa", JBool false); ("env_token", JStr "env_abc");
        ("status", JStr "pending"); ("created", JInt 20);
        ("updated", JInt 20) ] fields'.
Proof.
  apply (job_is_kept_and_owner_fixed demo_admin _ s_job [("job-1", demo_job)]).
  - reflexivity.
  - reflexivity.
  - repeat constructor; simpl; auto; discriminate.
Defined.

(** X12.  No request removes an agent, and no request changes an agent's
    token, identifier, host data or creation time: as long as no
    registration draws its identifier again, an agent record stays in the
    agents document through any history of requests, and only its
    [last_seen] field ever changes. *)
Theorem agent_is_kept_and_token_fixed
    adm (history : list request) (s : fs) (items : dict) aid rec :
  s AGENTS_FILE = Some (Doc (JObj items)) ->
  dict_get items aid = Some (JObj rec) ->
  Forall (fun r => ~ registers_agent aid r) history ->
  exists items' rec',
    after adm history s AGENTS_FILE = Some (Doc (JObj items')) /\
    dict_get items' aid = Some (JObj rec') /\
    same_but ["last_seen"] rec rec'.
Proof.
  intros Hf Hg Hh. revert s items rec Hf Hg.
  induction Hh as [| r h Hr _ IH]; intros s items rec Hf Hg.
  - exists items, rec. split; [| split]; auto. apply same_but_refl.
  - destruct (serve_keeps_agent adm s r items aid rec Hf Hg Hr)
      as (items1 & rec1 & Hf1 & Hg1 & H1).
    destruct (IH _ _ _ Hf1 Hg1) as (items' & rec' & Hf' & Hg' & H').
    exists items', rec'. split; [| split]; auto.
    eapply same_but_trans; eauto.
Qed.

Lemma agent_is_kept_and_token_fixed_witness :
  exists items' rec',
    after demo_admin
      [ PollJobs (Some "tok-a") 30;
        Register (host "h3") "agent-c" "tok-a" 31 31;
        Report {| job_id := "job-1"; status := "done"; output := None |}
          (Some "tok-a") 32;
        PollJobs (Some "tok-a") 33 ] s_job AGENTS_FILE
      = Some (Doc (JObj items')) /\
    dict_get items' "agent-a" = Some (JObj rec') /\
    same_but ["last_seen"]
      [ ("agent_id", JStr "agent-a"); ("token", JStr "tok-a");
        ("hostname", JStr "h1"); ("ip", JStr ""); ("ssh_pubkey", JStr "");
        ("meta", JObj []); ("created", JInt 10); ("last_seen", JInt 10) ] rec'.
Proof.
  apply (agent_is_kept_and_token_fixed demo_admin _ s_job demo_agents).
  - reflexivity.
  - reflexivity.
  - repeat constructor; simpl; auto; discriminate.
Defined.

(* ================================================================== *)
(** * Robustness *)

(** X13.  On a store that the service itself has built up, no handler ends
    in a fatal read error, and the only uncaught exception is the rendering
    of a bundle: [poll_jobs], [report], the listings and the upload return
    a result or raise one of their own HTTP errors, and so does every job
    creation whose [agent_id] is absent or a scalar; registration always
    succeeds; [download_env] returns or raises one of its HTTP errors
    unless the bundle stored under the token is one that [JSONResponse]
    cannot render, and then it raises. *)
Theorem no_internal_error_on_reachable_store adm (s : fs) :
  reachable adm s ->
  (forall x now, http_only (snd (run (poll_jobs x now) s))) /\
  (forall req x now, http_only (snd (run (report req x now) s))) /\
  (forall T x,
     http_only (snd (run (download_env T x) s)) \/
     exists v, s (env_path T) = Some (Doc v) /\ renderable v = false /\
               snd (run (download_env T x) s) = Err PyError) /\
  (forall req a t c l, snd (run (register req a t c l) s) = Ok (a, t)) /\
  (forall x, http_only (snd (run (list_agents adm x) s)) /\
             http_only (snd (run (list_jobs adm x) s))) /\
  (forall f b x hex, http_only (snd (run (upload_env_file adm f b x hex) s))) /\
  (forall payload x j t1 t2,
     hashable (payload_get payload "agent_id" JNull) ->
     http_only (snd (run (create_job adm payload x j t1 t2) s))).
Proof.
  intros Hreach. apply reachable_store_sound in Hreach.
  pose proof Hreach as (Hparse & (items & Ha & Hia) & (jobs & Hj & Hij)).
  assert (Hra : snd (read_json AGENTS_FILE s) = Ok (JObj items))
    by (unfold read_json; now rewrite Ha).
  assert (Hrj : snd (read_json JOBS_FILE s) = Ok (JObj jobs))
    by (unfold read_json; now rewrite Hj).
  split; [intros; now apply run_poll_jobs_http |].
  split; [intros; now apply run_report_http |].
  split; [intros; now apply run_download_env_http |].
  split; [intros; now rewrite (run_register s req a t c l items Hra) |].
  split; [| split].
  - intros x. unfold list_agents, list_jobs. rewrite !run_bind.
    destruct (require_admin adm x) as [[] | e] eqn:Hadm; cbn [lift run snd].
    + unfold call.
      rewrite (run_read_json AGENTS_FILE _ s _ Hra),
              (run_read_json JOBS_FILE _ s _ Hrj). split; exact I.
    + apply require_admin_err in Hadm. subst e. split; exact I.
  - intros f b x hex.
    destruct (run_upload_env_file_cases adm s f b x hex) as [[e He] | (d & ->)];
      [| exact I].
    rewrite He. cbn [snd]. revert He. unfold upload_env_file. rewrite run_bind.
    destruct (require_admin adm x) as [[] | e'] eqn:Hadm; cbn [lift run].
    + destruct f as [[| v] |]; [| | destruct b as [d |]];
        unfold call; cbn [bind run]; intros [= <-]; exact I.
    + apply require_admin_err in Hadm. subst e'. intros [= <-]. exact I.
  - intros payload x j t1 t2 Hh. unfold create_job. rewrite run_bind.
    destruct (require_admin adm x) as [[] | e] eqn:Hadm; cbn [lift run snd].
    + unfold call. cbn [bind].
      rewrite (run_read_json AGENTS_FILE _ s _ Hra). cbn [bind].
      rewrite (run_read_json JOBS_FILE _ s _ Hrj). cbn [bind].
      rewrite (py_in_dict items _ Hh). cbn [lift bind].
      destruct (registered items _); cbn [negb run snd py_setitem lift bind];
        exact I.
    + apply require_admin_err in Hadm. now subst e.
Qed.

Lemma no_internal_error_on_reachable_store_witness :
  (http_only (snd (run (poll_jobs (Some "tok-zzz") 40) s_two_jobs)) /\
   http_only (snd (run (report {| job_id := "job-1"; status := "done";
                                  output := None |} (Some "tok-b") 41) s_two_jobs)) /\
   http_only (snd (run (download_env "env_abc" (Some "tok-a")) s_two_jobs))) /\
  exists v, s_overflow (env_path "env_abc") = Some (Doc v) /\
            renderable v = false /\
            snd (run (download_env "env_abc" (Some "tok-a")) s_overflow) =
              Err PyError.
Proof.
  split.
  - destruct (no_internal_error_on_reachable_store demo_admin s_two_jobs)
      as (Hpoll & Hreport & Hdownload & _).
    + exists [ Register (host "h1") "agent-a" "tok-a" 10 10;
               Register (host "h2") "agent-b" "tok-b" 11 11;
               CreateJob demo_payload (Some "s3cret") "job-1" 20 20;
               CreateJob [ ("agent_id", JStr "agent-a");
                           ("args", JArr [JStr "https://y.git"]) ]
                 (Some "s3cret") "job-2" 21 21 ].
      reflexivity.
    + split; [apply Hpoll | split; [apply Hreport |]].
      destruct (Hdownload "env_abc" (Some "tok-a")) as [H | (v & _ & _ & H)];
        [exact H | discriminate H].
  - destruct (no_internal_error_on_reachable_store demo_admin s_overflow)
      as (_ & _ & Hdownload & _).
    + exists [ Register (host "h1") "agent-a" "tok-a" 10 10;
               Register (host "h2") "agent-b" "tok-b" 11 11;
               CreateJob demo_payload (Some "s3cret") "job-1" 20 20;
               UploadEnv (Some (Doc overflow_bundle)) None (Some "s3cret") "abc" ].
      reflexivity.
    + destruct (Hdownload "env_abc" (Some "tok-a")) as [H | H];
        [destruct H | exact H].
Defined.

(* ================================================================== *)
(** * Bundles *)

(** X14.  [download_env] joins the token into the bundle path as it is.
    For a token that begins with "/" the joined path is the token followed
    by ".json", outside the bundle directory, and the file found there is
    what [JSONResponse] is given to render for the agent: with a pending
    job that references "/var/lib/orch_b/agents" it is the agents document,
    tokens included. *)
Theorem download_env_absolute_token
    (s : fs) (t : string) x agents A (jobs : dict) (v : json) :
  caller s x = Ok (agents, A) ->
  snd (read_json JOBS_FILE s) = Ok (JObj jobs) ->
  Forall is_object (dict_values jobs) ->
  Exists (pending_ref A ("/" ++ t)) (dict_values jobs) ->
  s ("/" ++ t ++ ".json") = Some (Doc v) ->
  run (download_env ("/" ++ t) x) s = (s, JSONResponse v).
Proof.
  intros Hc Hj Hobj Hex Hfile.
  now apply (run_download_env_stored s _ x agents A jobs v Hc Hj Hobj).
Qed.

Lemma download_env_absolute_token_witness :
  run (download_env "/var/lib/orch_b/agents" (Some "tok-a")) s_abs_job =
    (s_abs_job, Ok (JObj demo_agents)).
Proof.
  change (Ok (JObj demo_agents)) with (JSONResponse (JObj demo_agents)).
  apply (download_env_absolute_token s_abs_job "var/lib/orch_b/agents"
           (Some "tok-a") (JObj demo_agents) "agent-a"
           [("job-6",
             JObj [ ("job_id", JStr "job-6"); ("agent_id", JStr "agent-a");
                    ("args", JArr []); ("is_spa", JBool false);
                    ("env_token", JStr "/var/lib/orch_b/agents");
                    ("status", JStr "pending"); ("created", JInt 23);
                    ("updated", JInt 23) ])]
           (JObj demo_agents)).
  - reflexivity.
  - reflexivity.
  - repeat constructor. eexists; reflexivity.
  - constructor. now repeat split.
  - reflexivity.
Defined.

(** X15.  An accepted upload stores the parsed file when a file is sent,
    whatever the body holds, and the body otherwise, under the token "env_"
    followed by the identifier drawn; a file that is not JSON is refused
    with 400 "uploaded file not valid JSON" and a request with neither file
    nor body with 400 "no env provided", and a refused upload stores
    nothing. *)
Theorem upload_env_file_accepts_and_refuses adm x_admin (s : fs) hex :
  require_admin adm x_admin = Ok tt ->
  (forall v env_json,
     snd (run (upload_env_file adm (Some (Doc v)) env_json x_admin hex) s) =
       Ok ("env_" ++ hex) /\
     fst (run (upload_env_file adm (Some (Doc v)) env_json x_admin hex) s)
       (env_path ("env_" ++ hex)) = Some (Doc v)) /\
  (forall d,
     snd (run (upload_env_file adm None (Some d) x_admin hex) s) =
       Ok ("env_" ++ hex) /\
     fst (run (upload_env_file adm None (Some d) x_admin hex) s)
       (env_path ("env_" ++ hex)) = Some (Doc (JObj d))) /\
  (forall env_json,
     run (upload_env_file adm (Some Garbled) env_json x_admin hex) s =
       (s, Err (ValidationError "uploaded file not valid JSON"))) /\
  run (upload_env_file adm None None x_admin hex) s =
    (s, Err (ValidationError "no env provided")).
Proof.
  intros Hadm. unfold upload_env_file.
  repeat split; intros; rewrite run_bind, Hadm; cbn [lift run bind fst snd];
    unfold call; cbn [bind run fst snd]; try reflexivity;
    unfold dump_replace, fs_put; now rewrite String.eqb_refl.
Qed.

Lemma upload_env_file_accepts_and_refuses_witness :
  snd (run (upload_env_file demo_admin (Some (Doc (JArr [JInt 1])))
              (Some demo_bundle_fields) (Some "s3cret") "f00") s_job) =
    Ok "env_f00" /\
  fst (run (upload_env_file demo_admin (Some (Doc (JArr [JInt 1])))
              (Some demo_bundle_fields) (Some "s3cret") "f00") s_job)
    "/var/lib/orch_b/envs/env_f00.json" = Some (Doc (JArr [JInt 1])) /\
  run (upload_env_file demo_admin None None (Some "s3cret") "f00") s_job =
    (s_job, Err (ValidationError "no env provided")).
Proof.
  destruct (upload_env_file_accepts_and_refuses demo_admin (Some "s3cret") s_job "f00" eq_refl)
    as (Hfile & _ & _ & Hnone).
  destruct (Hfile (JArr [JInt 1]) (Some demo_bundle_fields)) as [Hres Hstored].
  repeat split; assumption.
Defined.

(* ================================================================== *)
(** * Which documents a request can change *)

(** X16.  The listings and [download_env] never write: they leave the whole
    store as it was, whatever they answer.  [register] and [poll_jobs]
    never change the jobs document, [create_job] and [report] never change
    the agents document, and [upload_env_file] changes neither. *)
Theorem requests_leave_other_documents adm (s : fs) (r : request) :
  match r with
  | ListAgents _ | ListJobs _ | DownloadEnv _ _ => serve adm s r = s
  | Register _ _ _ _ _ | PollJobs _ _ =>
      serve adm s r JOBS_FILE = s JOBS_FILE
  | CreateJob _ _ _ _ _ | Report _ _ _ =>
      serve adm s r AGENTS_FILE = s AGENTS_FILE
  | UploadEnv _ _ _ _ =>
      serve adm s r AGENTS_FILE = s AGENTS_FILE /\
      serve adm s r JOBS_FILE = s JOBS_FILE
  end.
Proof.
  destruct r; cbn [serve].
  - destruct (run_register_cases s req agent_id agent_token t_created t_last_seen)
      as [[e ->] | [a' ->]]; reflexivity.
  - apply list_agents_reads.
  - destruct (run_create_job_cases adm s payload x_admin_token new_job_id
                t_created t_updated) as [[e ->] | (jobs & _ & ->)]; reflexivity.
  - apply list_jobs_reads.
  - destruct (run_poll_jobs_cases s x_agent_token now)
      as [[e ->] | (a' & r & ->)]; reflexivity.
  - destruct (run_report_cases s req x_agent_token now)
      as [[e ->] | (agents & A & jobs & f & _ & _ & _ & _ & ->)]; reflexivity.
  - destruct (run_upload_env_file_cases adm s env_file env_json x_admin_token hex)
      as [[e ->] | (data & ->)]; split; reflexivity.
  - apply download_env_reads.
Qed.

(* ================================================================== *)
(** * The env file *)

(** X17.  The value written into an env line is made of plain characters
    and of the pairs backslash-backslash, backslash-quote and backslash-n:
    it holds no line break and no double quote that would end the value.
    Reading the pairs back gives the value, so two values never write the
    same text. *)
Theorem escape_value_is_safe_and_injective (s s' : string) :
  well_escaped (escape_value s) = true /\
  count_char newline (escape_value s) = 0%nat /\
  unescape_value (escape_value s) = s /\
  (escape_value s = escape_value s' -> s = s').
Proof.
  split; [apply well_escaped_escape |].
  split; [apply well_escaped_one_line, well_escaped_escape |].
  split; [apply unescape_escape |].
  intros E. rewrite <- (unescape_escape s), <- (unescape_escape s'). now rewrite E.
Qed.

(** X18.  [dict_to_env_bytes] writes one line per entry whose key is not
    blank, in the order of the dict, each of the form key="value", and ends
    the file with a line break; an empty selection gives a lone line break.
    When no kept key holds a line break the file has exactly as many line
    breaks as kept entries: no value, whatever it holds, can open a line of
    its own.  Keys are written as they are.  What is returned is that text
    encoded in UTF-8, and the encoding raises when a key or a value holds an
    unpaired surrogate. *)
Theorem dict_to_env_bytes_one_line_per_entry
    (blank : string -> bool) (py_repr : json -> string) (env : dict) :
  let kept := filter (fun kv => negb (blank (fst kv))) env in
  let text :=
    String.concat (String newline "")
      (map (fun kv =>
              fst kv ++ "=" ++
              String dquote (escape_value (value_text py_repr (snd kv))
                             ++ String dquote ""))
           kept)
    ++ String newline "" in
  (forall k v, In (k, v) kept -> count_char newline k = 0%nat) ->
  dict_to_env_bytes blank py_repr env = encode_utf8 text /\
  (encodable text = true -> dict_to_env_bytes blank py_repr env = Ok text) /\
  count_char newline text = Nat.max 1 (List.length kept).
Proof.
  intros kept text Hkeys. unfold dict_to_env_bytes.
  rewrite env_lines_filter. fold kept. fold text.
  split; [reflexivity |].
  split; [unfold encode_utf8; now intros -> |].
  unfold text. rewrite count_char_app, count_char_concat.
  - rewrite length_map. simpl. destruct (List.length kept); simpl; lia.
  - apply Forall_forall. intros l Hl.
    apply in_map_iff in Hl. destruct Hl as ([k v] & <- & Hin).
    cbn [fst snd]. rewrite !count_char_app. rewrite (Hkeys k v Hin).
    simpl. rewrite count_char_app.
    rewrite (well_escaped_one_line _ (well_escaped_escape _)). reflexivity.
Qed.

Lemma dict_to_env_bytes_one_line_per_entry_witness :
  let blank k := String.eqb k "" || String.eqb k " " in
  let env := [ ("MOTD", JStr ("two" ++ String newline "lines"));
               (" ", JStr "dropped");
               ("PORT", JInt 8080);
               ("DEBUG", JBool false);
               ("EMPTY", JNull) ] in
  let text :=
    "MOTD=" ++ String dquote ("two\nlines" ++ String dquote (String newline
    ("PORT=" ++ String dquote ("8080" ++ String dquote (String newline
    ("DEBUG=" ++ String dquote ("False" ++ String dquote (String newline
    ("EMPTY=" ++ String dquote (String dquote (String newline ""))))))))))) in
  dict_to_env_bytes blank (fun _ => "[]") env = Ok text /\
  count_char newline text = 4%nat.
Proof.
  intros blank env text.
  destruct (dict_to_env_bytes_one_line_per_entry blank (fun _ => "[]") env)
    as (_ & Hfile & Hcount).
  - intros k v Hin. simpl in Hin.
    repeat (destruct Hin as [[= <- <-] | Hin]; [reflexivity |]). contradiction.
  - split; [exact (Hfile eq_refl) | exact Hcount].
Defined.

(* ================================================================== *)
(** * The application name *)

(** X19.  A name that [sanitize_app_name] returns is the last segment of
    the URL path (of the URL itself when it has no path): the segment
    without its final ".git" when it ends with ".git", the segment itself
    when it does not.  The name is not empty and holds no "/", no
    backslash and no "..", so it names an entry directly under the
    directory it is joined to. *)
Theorem sanitize_app_name_returns_last_segment
    (urlparse_path : string -> option string) (repo_url name : string) :
  sanitize_app_name urlparse_path repo_url = Ok name ->
  name <> "" /\
  is_substring "/" name = false /\
  is_substring (String backslash "") name = false /\
  is_substring ".." name = false /\
  exists dir seg,
    url_path urlparse_path repo_url = dir ++ seg /\
    (dir = "" \/ exists d, dir = d ++ "/") /\
    is_substring "/" seg = false /\
    (seg = name ++ ".git" \/
     (seg = name /\ forall b, seg <> b ++ ".git")).
Proof.
  unfold sanitize_app_name.
  set (path := url_path urlparse_path repo_url).
  destruct (basename_spec path) as (Hseg & dir & Hp & Hdir).
  set (base := match strip_suffix ".git" (basename path) with
               | Some b => b
               | None => basename path
               end).
  destruct (String.eqb base "" || is_substring "/" base
            || is_substring (String backslash "") base
            || is_substring ".." base) eqn:Eg; [discriminate |].
  intros [= <-].
  apply orb_false_iff in Eg. destruct Eg as [Eg Hdots].
  apply orb_false_iff in Eg. destruct Eg as [Eg Hback].
  apply orb_false_iff in Eg. destruct Eg as [Hempty Hslash].
  apply String.eqb_neq in Hempty.
  repeat split; auto.
  exists dir, (basename path). repeat split; auto. unfold base.
  destruct (strip_suffix ".git" (basename path)) as [b |] eqn:Es.
  - left. now apply strip_suffix_spec.
  - right. split; [reflexivity |]. intros b Hb.
    destruct (strip_suffix_complete ".git" b) as [b' Hb'].
    rewrite <- Hb in Hb'. congruence.
Qed.

Lemma sanitize_app_name_returns_last_segment_witness :
  let parse (u : string) := Some "/Idem-AI/deploy-orchestrator.git" in
  let url := "https://github.com/Idem-AI/deploy-orchestrator.git" in
  sanitize_app_name parse url = Ok "deploy-orchestrator" /\
  exists dir seg,
    url_path parse url = dir ++ seg /\
    (dir = "" \/ exists d, dir = d ++ "/") /\
    is_substring "/" seg = false /\
    (seg = "deploy-orchestrator" ++ ".git" \/
     (seg = "deploy-orchestrator" /\ forall b, seg <> b ++ ".git")).
Proof.
  intros parse url. split; [reflexivity |].
  apply (sanitize_app_name_returns_last_segment parse url "deploy-orchestrator").
  reflexivity.
Defined.

(** X20.  [sanitize_app_name] answers 400 for a URL whose path ends with
    "/", and for one whose last segment is just ".git": nothing is left to
    name the application. *)
Theorem sanitize_app_name_refuses_empty_segment
    (urlparse_path : string -> option string) (repo_url : string) :
  (exists dir, url_path urlparse_path repo_url = dir ++ "/") \/
  url_path urlparse_path repo_url = ".git" \/
  (exists dir, url_path urlparse_path repo_url = dir ++ "/.git") ->
  sanitize_app_name urlparse_path repo_url =
    Err (HTTPException 400
           ("cannot derive safe app name from repo_url: " ++ repo_url)).
Proof.
  intros H. unfold sanitize_app_name.
  assert (Hb : basename (url_path urlparse_path repo_url) = "" \/
               basename (url_path urlparse_path repo_url) = ".git").
  { destruct H as [[dir ->] | [-> | [dir ->]]].
    - left. now apply basename_after_slash.
    - right. reflexivity.
    - right. now apply (basename_after_slash dir ".git"). }
  destruct Hb as [-> | ->]; reflexivity.
Qed.

Lemma sanitize_app_name_refuses_empty_segment_witness :
  sanitize_app_name (fun _ => Some "/Idem-AI/deploy-orchestrator/")
    "https://github.com/Idem-AI/deploy-orchestrator/" =
    Err (HTTPException 400
           "cannot derive safe app name from repo_url: https://github.com/Idem-AI/deploy-orchestrator/").
Proof.
  apply sanitize_app_name_refuses_empty_segment.
  left. exists "/Idem-AI/deploy-orchestrator". reflexivity.
Defined.

(* ================================================================== *)
(** * Registrations served at the same time *)

(** X21.  Registration loads the agents document and saves it in two
    separate steps.  When two registrations under different new identifiers
    both load before either saves, both answer with their identifier and
    token, but the save that comes last writes the document without the
    other agent: that agent holds a token that nothing stores. *)
Theorem concurrent_registers_lose_one
    (s : fs) (items : dict) r1 a1 t1 c1 l1 r2 a2 t2 c2 l2 :
  snd (read_json AGENTS_FILE s) = Ok (JObj items) ->
  a1 <> a2 ->
  dict_mem items a1 = false ->
  let final := exec [0; 1; 0; 1]%nat
                 [register r1 a1 t1 c1 l1; register r2 a2 t2 c2 l2] s in
  fst final = [Ret (a1, t1); Ret (a2, t2)] /\
  exists items',
    snd final AGENTS_FILE = Some (Doc (JObj items')) /\
    dict_mem items' a1 = false /\
    dict_mem items' a2 = true.
Proof.
  intros Ha Hne Hfresh final.
  assert (Hread : read_json AGENTS_FILE s = (s, Ok (JObj items))).
  { pose proof (read_json_reads AGENTS_FILE s) as Hs.
    destruct (read_json AGENTS_FILE s) as [s' r]. cbn [fst snd] in *. now subst. }
  unfold final, register, call.
  cbn [exec nth_error set_nth bind step]. rewrite Hread.
  cbn [exec nth_error set_nth bind step py_setitem lift]. rewrite Hread.
  cbn [exec nth_error set_nth bind step py_setitem lift write_json fst snd].
  split; [reflexivity |].
  eexists. split.
  - unfold dump_replace, fs_put. rewrite String.eqb_refl. reflexivity.
  - split; [| apply dict_mem_set_same].
    unfold dict_mem in *. rewrite dict_get_set_other by auto. exact Hfresh.
Qed.

Lemma concurrent_registers_lose_one_witness :
  let final := exec [0; 1; 0; 1]%nat
                 [ register (host "h3") "agent-c" "tok-c" 40 40;
                   register (host "h4") "agent-d" "tok-d" 41 41 ] s_job in
  fst final = [Ret ("agent-c", "tok-c"); Ret ("agent-d", "tok-d")] /\
  (exists items',
     snd final AGENTS_FILE = Some (Doc (JObj items')) /\
     dict_mem items' "agent-c" = false /\
     dict_mem items' "agent-d" = true) /\
  snd (run (poll_jobs (Some "tok-c") 42) (snd final)) =
    Err (HTTPException 403 "invalid agent token").
Proof.
  intros final.
  destruct (concurrent_registers_lose_one s_job demo_agents
              (host "h3") "agent-c" "tok-c" 40 40
              (host "h4") "agent-d" "tok-d" 41 41) as [Hpool Hstore];
    try reflexivity; try discriminate.
  repeat split; auto.
Defined.
